(** * Mozc: user POS token table and renderer client

    A shallow embedding of two translation units of Mozc,

    - [src/dictionary/user_pos.h]: the packed token array, its random access
      iterator and the attribute bits of [UserPos::Token];
    - [src/renderer/renderer_client.cc]: [RendererLauncher] (the launch
      worker and its status machine) and [RendererClient::ExecCommand].

    Integers are [Z] with the wrap-around of their C++ type written out,
    the token array is a list of bytes placed at an address, and the calls
    the renderer code makes to its collaborators (IPC client factory,
    process spawning, named events, the clock) are recorded as a list of
    events, their answers being arguments of the embedded functions. *)

From Stdlib Require Import ZArith List String Bool Lia.
From Stdlib Require Import Strings.Byte.
Import ListNotations.
Local Open Scope Z_scope.

(* ================================================================= *)
(** ** Machine integers *)

(** [size_t], [ptrdiff_t] and [const char *] are 64 bits wide (LP64 and
    LLP64 targets).  A conversion to an unsigned type reduces modulo
    [2^64]; a conversion to [ptrdiff_t] reads the same bits as a signed
    number. *)
Definition to_size_t (z : Z) : Z := z mod 2 ^ 64.
Definition to_ptrdiff_t (z : Z) : Z := (z + 2 ^ 63) mod 2 ^ 64 - 2 ^ 63.
Definition to_uint16_t (z : Z) : Z := z mod 2 ^ 16.

(** The value of a byte, and the byte holding the low eight bits of an
    integer. *)
Definition byte_to_Z (b : byte) : Z := Z.of_N (Byte.to_N b).
Definition byte_of_Z (z : Z) : byte :=
  match Byte.of_N (Z.to_N (z mod 256)) with
  | Some b => b
  | None => x00
  end.

(* ================================================================= *)
(** ** [mozc::dictionary::UserPos] *)

Module UserPos.

(** [static constexpr size_t kTokenByteLength = 8;] *)
Definition kTokenByteLength : Z := 8.

(** *** [struct Token] *)

(** [enum Attribute], with the values the source assigns. *)
Inductive Attribute : Set :=
| SHORTCUT
| ISOLATED_WORD
| SUGGESTION_ONLY
| NON_JA_LOCALE.

Definition Attribute_value (attr : Attribute) : Z :=
  match attr with
  | SHORTCUT => 1
  | ISOLATED_WORD => 2
  | SUGGESTION_ONLY => 4
  | NON_JA_LOCALE => 8
  end.

(** The position of the single bit of a flag. *)
Definition Attribute_bit (attr : Attribute) : Z :=
  match attr with
  | SHORTCUT => 0
  | ISOLATED_WORD => 1
  | SUGGESTION_ONLY => 2
  | NON_JA_LOCALE => 3
  end.

Record Token : Type := {
  key : string;
  value : string;
  id : Z;            (* uint16_t *)
  attributes : Z;    (* uint16_t *)
  comment : string
}.

Definition set_attributes (t : Token) (a : Z) : Token :=
  {| key := key t; value := value t; id := id t;
     attributes := a; comment := comment t |}.

(** [attributes |= attr;]  Both operands are promoted to [int], the
    result is stored back into the [uint16_t] field. *)
Definition add_attribute (t : Token) (attr : Attribute) : Token :=
  set_attributes t (to_uint16_t (Z.lor (attributes t) (Attribute_value attr))).

(** [return attributes & attr;] converted to [bool]. *)
Definition has_attribute (t : Token) (attr : Attribute) : bool :=
  negb (Z.land (attributes t) (Attribute_value attr) =? 0).

(** [attributes &= ~attr;]  [~attr] is the complement of the promoted
    [int], i.e. [Z.lnot]. *)
Definition remove_attribute (t : Token) (attr : Attribute) : Token :=
  set_attributes t
    (to_uint16_t (Z.land (attributes t) (Z.lnot (Attribute_value attr)))).

(** *** The token array as memory *)

(** [absl::string_view token_array_data_]: the address of the first byte
    and the bytes themselves. *)
Record string_view : Type := {
  data : Z;
  contents : list byte
}.

Definition size (v : string_view) : Z := Z.of_nat (List.length (contents v)).

(** The view lies inside the 64-bit address space, and is no larger than
    the largest object ([PTRDIFF_MAX] bytes). *)
Definition view_ok (v : string_view) : Prop :=
  0 <= data v /\ data v + size v < 2 ^ 64 /\ size v < 2 ^ 63.

(** Reading one byte at address [p]; [None] outside the array. *)
Definition load_u8 (v : string_view) (p : Z) : option byte :=
  if (data v <=? p) && (p <? data v + size v)
  then nth_error (contents v) (Z.to_nat (p - data v))
  else None.

(** [*reinterpret_cast<const uint16_t *>(p)] on a little endian machine
    ("Little endian is assumed"). *)
Definition load_u16 (v : string_view) (p : Z) : option Z :=
  match load_u8 v p, load_u8 v (p + 1) with
  | Some lo, Some hi => Some (byte_to_Z lo + 256 * byte_to_Z hi)
  | _, _ => None
  end.

(** *** [class iterator] *)

Record iterator : Type := { ptr_ : Z }.

Definition pos_index (v : string_view) (it : iterator) : option Z :=
  load_u16 v (ptr_ it).
Definition value_suffix_index (v : string_view) (it : iterator) : option Z :=
  load_u16 v (ptr_ it + 2).
Definition key_suffix_index (v : string_view) (it : iterator) : option Z :=
  load_u16 v (ptr_ it + 4).
Definition conjugation_id (v : string_view) (it : iterator) : option Z :=
  load_u16 v (ptr_ it + 6).

(** [uint16_t operator*() const { return pos_index(); }] *)
Definition deref (v : string_view) (it : iterator) : option Z :=
  pos_index v it.

(** Pointer plus or minus an unsigned byte offset. *)
Definition ptr_add (p off : Z) : Z := to_size_t (p + off).
Definition ptr_sub (p off : Z) : Z := to_size_t (p - off).

(** [n * kTokenByteLength]: [n] is a [difference_type], the constant a
    [size_t], so the product is computed in [size_t]. *)
Definition byte_offset (n : Z) : Z :=
  to_size_t (to_size_t n * kTokenByteLength).

(** [operator++()] and [operator--()]. *)
Definition pre_incr (it : iterator) : iterator :=
  {| ptr_ := ptr_add (ptr_ it) kTokenByteLength |}.
Definition pre_decr (it : iterator) : iterator :=
  {| ptr_ := ptr_sub (ptr_ it) kTokenByteLength |}.

(** [operator++(int)] and [operator--(int)]: the returned copy and the
    updated iterator. *)
Definition post_incr (it : iterator) : iterator * iterator :=
  ({| ptr_ := ptr_ it |}, {| ptr_ := ptr_add (ptr_ it) kTokenByteLength |}).
Definition post_decr (it : iterator) : iterator * iterator :=
  ({| ptr_ := ptr_ it |}, {| ptr_ := ptr_sub (ptr_ it) kTokenByteLength |}).

(** [operator+=], [operator-=], [operator+] (both argument orders) and
    [operator-(iterator, difference_type)]. *)
Definition add_assign (it : iterator) (n : Z) : iterator :=
  {| ptr_ := ptr_add (ptr_ it) (byte_offset n) |}.
Definition sub_assign (it : iterator) (n : Z) : iterator :=
  {| ptr_ := ptr_sub (ptr_ it) (byte_offset n) |}.
Definition plus (x : iterator) (n : Z) : iterator :=
  {| ptr_ := ptr_add (ptr_ x) (byte_offset n) |}.
Definition plus_l (n : Z) (x : iterator) : iterator :=
  {| ptr_ := ptr_add (ptr_ x) (byte_offset n) |}.
Definition minus (x : iterator) (n : Z) : iterator :=
  {| ptr_ := ptr_sub (ptr_ x) (byte_offset n) |}.

(** [operator-(iterator x, iterator y)]:
    [return (x.ptr_ - y.ptr_) / kTokenByteLength;]
    The pointer difference is a [ptrdiff_t]; dividing it by the [size_t]
    constant converts it to [size_t] first, and the quotient is converted
    back to [difference_type] on return. *)
Definition diff (x y : iterator) : Z :=
  to_ptrdiff_t (to_size_t (to_ptrdiff_t (ptr_ x - ptr_ y)) / kTokenByteLength).

Definition iter_eq (x y : iterator) : bool := ptr_ x =? ptr_ y.
Definition iter_ne (x y : iterator) : bool := negb (ptr_ x =? ptr_ y).
Definition iter_lt (x y : iterator) : bool := ptr_ x <? ptr_ y.
Definition iter_le (x y : iterator) : bool := ptr_ x <=? ptr_ y.
Definition iter_gt (x y : iterator) : bool := ptr_ y <? ptr_ x.
Definition iter_ge (x y : iterator) : bool := ptr_ y <=? ptr_ x.

(** [begin()] and [end()]. *)
Definition begin_ (v : string_view) : iterator := {| ptr_ := data v |}.
Definition end_ (v : string_view) : iterator :=
  {| ptr_ := ptr_add (data v) (size v) |}.

(** An iterator over the array: it points at a record boundary between
    [begin()] and [end()]. *)
Definition over (v : string_view) (x : iterator) : Prop :=
  data v <= ptr_ x <= data v + size v /\
  (ptr_ x - data v) mod kTokenByteLength = 0.

(** *** The token layout *)

(** The four fields of one 8 byte block, in the order of the layout
    comment of the header: POS index, value suffix index, key suffix
    index, conjugation ID. *)
Record TokenRecord : Type := {
  tr_pos_index : Z;
  tr_value_suffix_index : Z;
  tr_key_suffix_index : Z;
  tr_conjugation_id : Z
}.

Definition is_u16 (z : Z) : Prop := 0 <= z < 2 ^ 16.

Definition record_ok (r : TokenRecord) : Prop :=
  is_u16 (tr_pos_index r) /\ is_u16 (tr_value_suffix_index r) /\
  is_u16 (tr_key_suffix_index r) /\ is_u16 (tr_conjugation_id r).

Definition encode_u16 (z : Z) : list byte :=
  [byte_of_Z z; byte_of_Z (z / 256)].

Definition encode_token (r : TokenRecord) : list byte :=
  encode_u16 (tr_pos_index r) ++ encode_u16 (tr_value_suffix_index r) ++
  encode_u16 (tr_key_suffix_index r) ++ encode_u16 (tr_conjugation_id r).

Fixpoint encode_tokens (rs : list TokenRecord) : list byte :=
  match rs with
  | [] => []
  | r :: rs' => encode_token r ++ encode_tokens rs'
  end.

(** The token array holding [rs], placed at address [base]. *)
Definition token_array (base : Z) (rs : list TokenRecord) : string_view :=
  {| data := base; contents := encode_tokens rs |}.

End UserPos.

(* ================================================================= *)
(** ** [mozc::renderer]: collaborators *)

(** [commands::RendererCommand], as far as the client looks into it: the
    command type, the [visible] flag and whether an output payload is set.
    The payload itself is opaque. *)
Inductive CommandType : Set := NOOP | UPDATE | SHUTDOWN.

Record RendererCommand : Type := {
  type : CommandType;
  visible : bool;
  output : option string
}.

Definition has_output (command : RendererCommand) : bool :=
  match output command with Some _ => true | None => false end.

Definition is_UPDATE (command : RendererCommand) : bool :=
  match type command with UPDATE => true | _ => false end.

(** A default constructed command of the given type. *)
Definition command_of_type (ty : CommandType) : RendererCommand :=
  {| type := ty; visible := false; output := None |}.

(** Modelled from the spec: the error codes of [ipc/ipc.h], which is not
    among the sources; only [IPC_TIMEOUT_ERROR] is told apart. *)
Inductive IPCErrorType : Set :=
| IPC_NO_ERROR
| IPC_NO_CONNECTION
| IPC_TIMEOUT_ERROR
| IPC_UNKNOWN_ERROR.

Definition is_IPC_TIMEOUT_ERROR (e : IPCErrorType) : bool :=
  match e with IPC_TIMEOUT_ERROR => true | _ => false end.

(** What an [IPCClientInterface] object answers to the queries of the
    renderer client.  The result of [Call] is only logged and is left
    out. *)
Record IPCClientInterface : Type := {
  GetLastIPCError : IPCErrorType;
  Connected : bool;
  GetServerProtocolVersion : Z;
  GetServerProductVersion : string
}.

(** Modelled from the spec: the results of
    [NamedEventListener::WaitEventOrProcess] ([ipc/named_event.h] is not
    among the sources); [OTHER] stands for every value that reaches the
    [default] branch. *)
Inductive WaitResult : Set :=
| TIMEOUT
| EVENT_SIGNALED
| PROCESS_SIGNALED
| OTHER.

(** [RendererLauncherInterface::RendererErrorType]. *)
Inductive RendererErrorType : Set :=
| RENDERER_VERSION_MISMATCH
| RENDERER_FATAL_ERROR.   (* RendererLauncherInterface::RENDERER_FATAL *)

(** The calls made to the outside, in program order.  [NewClient] returns a
    pointer that may be null: the pointer is an [option], given to the
    embedded function as its answer. *)
Inductive event : Type :=
| NewClient (name path : string)
| Call (request : RendererCommand) (timeout : Z)
| TerminateServer (name : string)
| ThreadStart (thread_name : string)
| SpawnProcess (path : string)
| WaitEventOrProcess (timeout : Z)
| SleepFor (seconds : Z)
| LaunchErrorMessageDialog (error_type : string)
| Notify (name : string).

(** A function either returns or calls a member through a null pointer. *)
Inductive outcome (A : Type) : Type :=
| Returned (a : A)
| NullDereference.
Arguments Returned {A} a.
Arguments NullDereference {A}.

Definition kIPCTimeout : Z := 100.
Definition kRendererWaitTimeout : Z := 30 * 1000.
Definition kRendererWaitSleepTime : Z := 10.
Definition kMaxErrorTimes : Z := 5.
Definition kRetryIntervalTime : Z := 30.
Definition kServiceName : string := "renderer".

(** [uint64_t] subtraction and [size_t] increment. *)
Definition uint64_sub (a b : Z) : Z := (a - b) mod 2 ^ 64.
Definition size_t_succ (n : Z) : Z := (n + 1) mod 2 ^ 64.

(** [CallCommand(client, command)]: [client->Call(buf, &result,
    kIPCTimeout)]; a failed call is logged. *)
Definition CallCommand (client : option IPCClientInterface)
           (command : RendererCommand) : list event * outcome unit :=
  match client with
  | Some _ => ([Call command kIPCTimeout], Returned tt)
  | None => ([], NullDereference)
  end.

(** Number of calls, thread starts and server terminations in a log. *)
Definition is_Call (e : event) : bool :=
  match e with Call _ _ => true | _ => false end.
Definition is_ThreadStart (e : event) : bool :=
  match e with ThreadStart _ => true | _ => false end.
Definition is_TerminateServer (e : event) : bool :=
  match e with TerminateServer _ => true | _ => false end.
Definition is_NewClient (e : event) : bool :=
  match e with NewClient _ _ => true | _ => false end.
Definition count_events (p : event -> bool) (evs : list event) : nat :=
  List.length (filter p evs).

(* ================================================================= *)
(** ** [class RendererLauncher] *)

Module RendererLauncher.

Inductive RendererStatus : Set :=
| RENDERER_UNKNOWN
| RENDERER_LAUNCHING
| RENDERER_READY
| RENDERER_TIMEOUT
| RENDERER_TERMINATED
| RENDERER_FATAL.

(** The data members; a pointer to the factory is kept as whether it is
    non-null, and [IsRunning] is the state of the [Thread] base. *)
Record t : Type := {
  name_ : string;
  path_ : string;
  last_launch_time_ : Z;                   (* uint64_t *)
  error_times_ : Z;                        (* size_t *)
  ipc_client_factory_interface_ : bool;
  pending_command_ : option RendererCommand;
  renderer_status_ : RendererStatus;
  disable_renderer_path_check_ : bool;
  suppress_error_dialog_ : bool;
  IsRunning : bool
}.

(** [RendererLauncher()] *)
Definition Build : t :=
  {| name_ := EmptyString; path_ := EmptyString;
     last_launch_time_ := 0; error_times_ := 0;
     ipc_client_factory_interface_ := false;
     pending_command_ := None;
     renderer_status_ := RENDERER_UNKNOWN;
     disable_renderer_path_check_ := false;
     suppress_error_dialog_ := false;
     IsRunning := false |}.

Definition set_renderer_status (l : t) (s : RendererStatus) : t :=
  {| name_ := name_ l; path_ := path_ l;
     last_launch_time_ := last_launch_time_ l;
     error_times_ := error_times_ l;
     ipc_client_factory_interface_ := ipc_client_factory_interface_ l;
     pending_command_ := pending_command_ l;
     renderer_status_ := s;
     disable_renderer_path_check_ := disable_renderer_path_check_ l;
     suppress_error_dialog_ := suppress_error_dialog_ l;
     IsRunning := IsRunning l |}.

Definition set_error_times (l : t) (n : Z) : t :=
  {| name_ := name_ l; path_ := path_ l;
     last_launch_time_ := last_launch_time_ l;
     error_times_ := n;
     ipc_client_factory_interface_ := ipc_client_factory_interface_ l;
     pending_command_ := pending_command_ l;
     renderer_status_ := renderer_status_ l;
     disable_renderer_path_check_ := disable_renderer_path_check_ l;
     suppress_error_dialog_ := suppress_error_dialog_ l;
     IsRunning := IsRunning l |}.

Definition set_last_launch_time (l : t) (now : Z) : t :=
  {| name_ := name_ l; path_ := path_ l;
     last_launch_time_ := now;
     error_times_ := error_times_ l;
     ipc_client_factory_interface_ := ipc_client_factory_interface_ l;
     pending_command_ := pending_command_ l;
     renderer_status_ := renderer_status_ l;
     disable_renderer_path_check_ := disable_renderer_path_check_ l;
     suppress_error_dialog_ := suppress_error_dialog_ l;
     IsRunning := IsRunning l |}.

Definition set_pending_command (l : t) (p : option RendererCommand) : t :=
  {| name_ := name_ l; path_ := path_ l;
     last_launch_time_ := last_launch_time_ l;
     error_times_ := error_times_ l;
     ipc_client_factory_interface_ := ipc_client_factory_interface_ l;
     pending_command_ := p;
     renderer_status_ := renderer_status_ l;
     disable_renderer_path_check_ := disable_renderer_path_check_ l;
     suppress_error_dialog_ := suppress_error_dialog_ l;
     IsRunning := IsRunning l |}.

Definition set_IsRunning (l : t) (b : bool) : t :=
  {| name_ := name_ l; path_ := path_ l;
     last_launch_time_ := last_launch_time_ l;
     error_times_ := error_times_ l;
     ipc_client_factory_interface_ := ipc_client_factory_interface_ l;
     pending_command_ := pending_command_ l;
     renderer_status_ := renderer_status_ l;
     disable_renderer_path_check_ := disable_renderer_path_check_ l;
     suppress_error_dialog_ := suppress_error_dialog_ l;
     IsRunning := b |}.

(** [CanConnect()]; [now] is what [Clock::GetTime()] returns. *)
Definition CanConnect (l : t) (now : Z) : bool :=
  match renderer_status_ l with
  | RENDERER_UNKNOWN | RENDERER_READY => true
  | RENDERER_LAUNCHING => false
  | RENDERER_TIMEOUT | RENDERER_TERMINATED =>
      (error_times_ l <=? kMaxErrorTimes)
      && (kRetryIntervalTime <=? uint64_sub now (last_launch_time_ l))
  | RENDERER_FATAL => false
  end.

(** [IsAvailable()] *)
Definition IsAvailable (l : t) : bool :=
  match renderer_status_ l with RENDERER_READY => true | _ => false end.

(** [StartRenderer(name, path, disable_renderer_path_check,
    ipc_client_factory_interface)]: the status becomes
    [RENDERER_LAUNCHING] and the worker thread is started; its body,
    [Run], is executed later. *)
Definition StartRenderer (l : t) (name path : string)
           (disable_renderer_path_check : bool)
           (ipc_client_factory_interface : bool) : list event * t :=
  ([ThreadStart "Renderer"],
   {| name_ := name; path_ := path;
      last_launch_time_ := last_launch_time_ l;
      error_times_ := error_times_ l;
      ipc_client_factory_interface_ := ipc_client_factory_interface;
      pending_command_ := pending_command_ l;
      renderer_status_ := RENDERER_LAUNCHING;
      disable_renderer_path_check_ := disable_renderer_path_check;
      suppress_error_dialog_ := suppress_error_dialog_ l;
      IsRunning := true |}).

(** [ForceTerminateRenderer(name)]; the result of
    [IPCClient::TerminateServer] is the caller's to look at. *)
Definition ForceTerminateRenderer (name : string) : list event :=
  [TerminateServer name].

(** [OnFatal(type)] *)
Definition OnFatal (l : t) (ty : RendererErrorType) : list event :=
  let error_type :=
    match ty with
    | RENDERER_VERSION_MISMATCH => "renderer_version_mismatch"%string
    | RENDERER_FATAL_ERROR => "renderer_fatal"%string
    end in
  if suppress_error_dialog_ l then []
  else [LaunchErrorMessageDialog error_type].

(** [SetPendingCommand(command)]: "ignore NOOP|SHUTDOWN". *)
Definition SetPendingCommand (l : t) (command : RendererCommand) : t :=
  match type command with
  | UPDATE => set_pending_command l (Some command)
  | _ => l
  end.

(** [CreateIPCClient()]; [answer] is the pointer [NewClient] returns. *)
Definition CreateIPCClient (l : t) (answer : option IPCClientInterface)
  : list event * option IPCClientInterface :=
  if negb (ipc_client_factory_interface_ l) then ([], None)
  else if disable_renderer_path_check_ l
       then ([NewClient (name_ l) EmptyString], answer)
       else ([NewClient (name_ l) (path_ l)], answer).

(** [FlushPendingCommand()].  The command is passed to [CallCommand]
    under [if (!client)], that is, when the new client is null. *)
Definition FlushPendingCommand (l : t) (answer : option IPCClientInterface)
  : list event * outcome t :=
  let '(evs, sent) :=
    match ipc_client_factory_interface_ l, pending_command_ l with
    | true, Some pending =>
        let '(evs1, client) := CreateIPCClient l answer in
        match client with
        | None =>
            let '(evs2, r) := CallCommand client pending in
            (evs1 ++ evs2, r)
        | Some _ => (evs1, Returned tt)
        end
    | _, _ => ([], Returned tt)
    end in
  match sent with
  | NullDereference => (evs, NullDereference)
  | Returned _ =>
      (evs,
       Returned
         (set_error_times
            (set_renderer_status (set_pending_command l None) RENDERER_READY)
            0))
  end.

(** [Run()], the body of the worker thread, for the branch of the
    preprocessor that is neither Windows nor macOS.  [now] is the clock
    at its start, [spawn_ok] the result of [Process::SpawnProcess],
    [listener_is_available] that of [NamedEventListener::IsAvailable],
    [ret] that of [WaitEventOrProcess], and [answer] the client the
    factory hands out during the flush. *)
Definition Run (l : t) (now : Z) (spawn_ok listener_is_available : bool)
           (ret : WaitResult) (answer : option IPCClientInterface)
  : list event * outcome t :=
  let l1 := set_last_launch_time l now in
  let spawn := [SpawnProcess (path_ l1)] in
  if negb spawn_ok then
    (spawn,
     Returned (set_IsRunning (set_renderer_status l1 RENDERER_FATAL) false))
  else
    let '(evs, after) :=
      if listener_is_available then
        match ret with
        | TIMEOUT =>
            ([WaitEventOrProcess kRendererWaitTimeout],
             Returned (set_error_times
                         (set_renderer_status l1 RENDERER_TIMEOUT)
                         (size_t_succ (error_times_ l1))))
        | EVENT_SIGNALED =>
            let '(evs1, r) := FlushPendingCommand l1 answer in
            (WaitEventOrProcess kRendererWaitTimeout :: evs1,
             match r with
             | Returned l2 =>
                 Returned (set_error_times
                             (set_renderer_status l2 RENDERER_READY) 0)
             | NullDereference => NullDereference
             end)
        | PROCESS_SIGNALED =>
            ([WaitEventOrProcess kRendererWaitTimeout],
             Returned (set_error_times
                         (set_renderer_status l1 RENDERER_TERMINATED)
                         (size_t_succ (error_times_ l1))))
        | OTHER =>
            ([WaitEventOrProcess kRendererWaitTimeout],
             Returned (set_error_times
                         (set_renderer_status l1 RENDERER_FATAL)
                         (size_t_succ (error_times_ l1))))
        end
      else
        let '(evs1, r) := FlushPendingCommand l1 answer in
        (SleepFor kRendererWaitSleepTime :: evs1,
         match r with
         | Returned l2 =>
             Returned (set_error_times
                         (set_renderer_status l2 RENDERER_READY) 0)
         | NullDereference => NullDereference
         end) in
    match after with
    | NullDereference => (spawn ++ evs, NullDereference)
    | Returned l3 =>
        let fatal :=
          match renderer_status_ l3 with
          | RENDERER_FATAL => OnFatal l3 RENDERER_FATAL_ERROR
          | _ => []
          end in
        (spawn ++ evs ++ fatal, Returned (set_IsRunning l3 false))
    end.

(** [~RendererLauncher()]: nothing when the worker thread is not
    running; otherwise the named event is notified under the launcher's
    name and the thread is joined, so that its [Run] comes to its end
    with the answers it gets ([now], [spawn_ok],
    [listener_is_available], [ret] and [answer], as for [Run]). *)
Definition Destructor (l : t) (now : Z)
           (spawn_ok listener_is_available : bool)
           (ret : WaitResult) (answer : option IPCClientInterface)
  : list event * outcome t :=
  if negb (IsRunning l) then ([], Returned l)
  else
    let '(evs, r) := Run l now spawn_ok listener_is_available ret answer in
    (Notify (name_ l) :: evs, r).

(** The statuses in which [CanConnect] applies the retry throttle. *)
Definition throttled (s : RendererStatus) : bool :=
  match s with
  | RENDERER_TIMEOUT | RENDERER_TERMINATED => true
  | _ => false
  end.

(** The slot holds nothing or an [UPDATE]. *)
Definition pending_is_UPDATE (l : t) : Prop :=
  match pending_command_ l with
  | None => True
  | Some command => type command = UPDATE
  end.

End RendererLauncher.

(* ================================================================= *)
(** ** [class RendererClient] *)

Module RendererClient.

(** The data members.  [renderer_launcher_] is the launcher the client
    owns; [renderer_launcher_interface_] and
    [ipc_client_factory_interface_] are pointers, kept as whether they are
    non-null ([renderer_launcher_interface_] then points to
    [renderer_launcher_]). *)
Record t : Type := {
  is_window_visible_ : bool;
  disable_renderer_path_check_ : bool;
  version_mismatch_nums_ : Z;              (* int *)
  ipc_client_factory_interface_ : bool;
  renderer_launcher_ : RendererLauncher.t;
  renderer_launcher_interface_ : bool;
  name_ : string;
  renderer_path_ : string
}.

Definition INT_MAX : Z := 2147483647.

(** [constexpr int kMaxVersionMismatchNums = 3;] *)
Definition kMaxVersionMismatchNums : Z := 3.

(** [RendererClient()]; [desktop_name] and [renderer_path] are what
    [SystemUtil] reports. *)
Definition Build (desktop_name renderer_path : string) : t :=
  {| is_window_visible_ := false;
     disable_renderer_path_check_ := false;
     version_mismatch_nums_ := 0;
     ipc_client_factory_interface_ := true;
     renderer_launcher_ := RendererLauncher.Build;
     renderer_launcher_interface_ := true;
     name_ :=
       match desktop_name with
       | EmptyString => kServiceName
       | _ => (kServiceName ++ "." ++ desktop_name)%string
       end;
     renderer_path_ := renderer_path |}.

Definition set_renderer_launcher (c : t) (l : RendererLauncher.t) : t :=
  {| is_window_visible_ := is_window_visible_ c;
     disable_renderer_path_check_ := disable_renderer_path_check_ c;
     version_mismatch_nums_ := version_mismatch_nums_ c;
     ipc_client_factory_interface_ := ipc_client_factory_interface_ c;
     renderer_launcher_ := l;
     renderer_launcher_interface_ := renderer_launcher_interface_ c;
     name_ := name_ c;
     renderer_path_ := renderer_path_ c |}.

Definition set_is_window_visible (c : t) (b : bool) : t :=
  {| is_window_visible_ := b;
     disable_renderer_path_check_ := disable_renderer_path_check_ c;
     version_mismatch_nums_ := version_mismatch_nums_ c;
     ipc_client_factory_interface_ := ipc_client_factory_interface_ c;
     renderer_launcher_ := renderer_launcher_ c;
     renderer_launcher_interface_ := renderer_launcher_interface_ c;
     name_ := name_ c;
     renderer_path_ := renderer_path_ c |}.

Definition set_version_mismatch_nums (c : t) (n : Z) : t :=
  {| is_window_visible_ := is_window_visible_ c;
     disable_renderer_path_check_ := disable_renderer_path_check_ c;
     version_mismatch_nums_ := n;
     ipc_client_factory_interface_ := ipc_client_factory_interface_ c;
     renderer_launcher_ := renderer_launcher_ c;
     renderer_launcher_interface_ := renderer_launcher_interface_ c;
     name_ := name_ c;
     renderer_path_ := renderer_path_ c |}.

(** [DisableRendererServerCheck()] *)
Definition DisableRendererServerCheck (c : t) : t :=
  {| is_window_visible_ := is_window_visible_ c;
     disable_renderer_path_check_ := true;
     version_mismatch_nums_ := version_mismatch_nums_ c;
     ipc_client_factory_interface_ := ipc_client_factory_interface_ c;
     renderer_launcher_ := renderer_launcher_ c;
     renderer_launcher_interface_ := renderer_launcher_interface_ c;
     name_ := name_ c;
     renderer_path_ := renderer_path_ c |}.

(** [set_suppress_error_dialog(suppress)] *)
Definition set_suppress_error_dialog (c : t) (suppress : bool) : t :=
  if negb (renderer_launcher_interface_ c) then c
  else
    let l := renderer_launcher_ c in
    set_renderer_launcher c
      {| RendererLauncher.name_ := RendererLauncher.name_ l;
         RendererLauncher.path_ := RendererLauncher.path_ l;
         RendererLauncher.last_launch_time_ :=
           RendererLauncher.last_launch_time_ l;
         RendererLauncher.error_times_ := RendererLauncher.error_times_ l;
         RendererLauncher.ipc_client_factory_interface_ :=
           RendererLauncher.ipc_client_factory_interface_ l;
         RendererLauncher.pending_command_ :=
           RendererLauncher.pending_command_ l;
         RendererLauncher.renderer_status_ :=
           RendererLauncher.renderer_status_ l;
         RendererLauncher.disable_renderer_path_check_ :=
           RendererLauncher.disable_renderer_path_check_ l;
         RendererLauncher.suppress_error_dialog_ := suppress;
         RendererLauncher.IsRunning := RendererLauncher.IsRunning l |}.

(** [IsAvailable()] *)
Definition IsAvailable (c : t) : bool :=
  if negb (renderer_launcher_interface_ c) then false
  else RendererLauncher.IsAvailable (renderer_launcher_ c).

(** [CreateIPCClient()] *)
Definition CreateIPCClient (c : t) (answer : option IPCClientInterface)
  : list event * option IPCClientInterface :=
  if negb (ipc_client_factory_interface_ c) then ([], None)
  else if disable_renderer_path_check_ c
       then ([NewClient (name_ c) EmptyString], answer)
       else ([NewClient (name_ c) (renderer_path_ c)], answer).

Section Platform.

(** Constants and functions of headers that are not among the
    sources: [IPC_PROTOCOL_VERSION] of [ipc/ipc.h],
    [Version::CompareVersion] and [Version::GetMozcVersion] of
    [base/version.h]. *)
Variable IPC_PROTOCOL_VERSION : Z.
Variable CompareVersion : string -> string -> bool.
Variable GetMozcVersion : string.

(** [ExecCommand(command)].  [now1] and [now2] are the clock at the two
    calls of [CanConnect], [answer] the pointer [NewClient] returns.
    [++version_mismatch_nums_] is reached only below
    [kMaxVersionMismatchNums], so the [int] cannot overflow there. *)
Definition ExecCommand (c : t) (command : RendererCommand)
           (now1 now2 : Z) (answer : option IPCClientInterface)
  : list event * outcome (bool * t) :=
  if negb (renderer_launcher_interface_ c) then ([], Returned (false, c))
  else if negb (ipc_client_factory_interface_ c)
  then ([], Returned (false, c))
  else
    let blocked :=
      negb (RendererLauncher.CanConnect (renderer_launcher_ c) now1) in
    let c1 :=
      if blocked
      then set_renderer_launcher c
             (RendererLauncher.SetPendingCommand
                (renderer_launcher_ c) command)
      else c in
    if blocked
       && negb (RendererLauncher.CanConnect (renderer_launcher_ c1) now2)
    then ([], Returned (true, c1))
    else if kMaxVersionMismatchNums <=? version_mismatch_nums_ c1
    then ([], Returned (true, c1))
    else
      let '(evs, client) := CreateIPCClient c1 answer in
      match client with
      | None => (evs, NullDereference)   (* client->GetLastIPCError() *)
      | Some cl =>
          if is_IPC_TIMEOUT_ERROR (GetLastIPCError cl)
          then (evs, Returned (false, c1))
          else
            let c2 := set_is_window_visible c1 (visible command) in
            if negb (Connected cl) then
              if is_UPDATE command
                 && (negb (is_window_visible_ c2)
                     || negb (has_output command))
              then (evs, Returned (true, c2))
              else
                let l1 := RendererLauncher.SetPendingCommand
                            (renderer_launcher_ c2) command in
                let '(evs1, l2) :=
                  RendererLauncher.StartRenderer l1
                    (name_ c2) (renderer_path_ c2)
                    (disable_renderer_path_check_ c2)
                    (ipc_client_factory_interface_ c2) in
                (evs ++ evs1, Returned (true, set_renderer_launcher c2 l2))
            else if GetServerProtocolVersion cl <? IPC_PROTOCOL_VERSION
            then
              let evs1 :=
                RendererLauncher.ForceTerminateRenderer (name_ c2) in
              let c3 := set_version_mismatch_nums c2
                          (version_mismatch_nums_ c2 + 1) in
              (evs ++ evs1,
               Returned
                 (true,
                  set_renderer_launcher c3
                    (RendererLauncher.SetPendingCommand
                       (renderer_launcher_ c3) command)))
            else if IPC_PROTOCOL_VERSION <? GetServerProtocolVersion cl
            then
              let c3 := set_version_mismatch_nums c2 INT_MAX in
              (evs ++ RendererLauncher.OnFatal (renderer_launcher_ c3)
                        RENDERER_VERSION_MISMATCH,
               Returned (true, c3))
            else if CompareVersion (GetServerProductVersion cl)
                                   GetMozcVersion
            then
              let c3 := set_renderer_launcher c2
                          (RendererLauncher.SetPendingCommand
                             (renderer_launcher_ c2) command) in
              let '(evs1, _) :=
                CallCommand (Some cl) (command_of_type SHUTDOWN) in
              (evs ++ evs1,
               Returned
                 (true,
                  set_version_mismatch_nums c3
                    (version_mismatch_nums_ c3 + 1)))
            else
              let '(evs1, _) := CallCommand (Some cl) command in
              (evs ++ evs1, Returned (true, c2))
      end.

(** [Activate()] *)
Definition Activate (c : t) (now1 now2 : Z)
           (answer : option IPCClientInterface)
  : list event * outcome (bool * t) :=
  if IsAvailable c then ([], Returned (true, c))
  else ExecCommand c (command_of_type NOOP) now1 now2 answer.

(** [Shutdown(force)].  [probe] is the client created by [Shutdown]
    itself, [terminated] the result of [ForceTerminateRenderer], the
    other arguments are those of the nested [ExecCommand]. *)
Definition Shutdown (c : t) (force : bool)
           (probe : option IPCClientInterface) (terminated : bool)
           (now1 now2 : Z) (answer : option IPCClientInterface)
  : list event * outcome (bool * t) :=
  let '(evs, client) := CreateIPCClient c probe in
  match client with
  | None => (evs, Returned (false, c))
  | Some cl =>
      if negb (Connected cl) then (evs, Returned (true, c))
      else if force then
        if negb (renderer_launcher_interface_ c)
        then (evs, NullDereference)
        else (evs ++ RendererLauncher.ForceTerminateRenderer (name_ c),
              Returned (terminated, c))
      else
        let '(evs1, r) :=
          ExecCommand c (command_of_type SHUTDOWN) now1 now2 answer in
        (evs ++ evs1, r)
  end.

(** [~RendererClient()]: the body of the destructor, then the
    destruction of the members, of which [renderer_launcher_] owns the
    launcher and runs [~RendererLauncher()].  [now1], [now2] and
    [answer] are those of the [ExecCommand] of the body; the arguments
    named [join_...] are the answers the worker thread gets when the
    launcher's destructor joins it. *)
Definition Destructor (c : t) (now1 now2 : Z)
           (answer : option IPCClientInterface)
           (join_now : Z) (join_spawn_ok join_listener_is_available : bool)
           (join_ret : WaitResult)
           (join_answer : option IPCClientInterface)
  : list event * outcome t :=
  let '(evs, body) :=
    if negb (IsAvailable c) || negb (is_window_visible_ c)
    then ([], Returned c)
    else
      let '(evs, r) :=
        ExecCommand c {| type := UPDATE; visible := false; output := None |}
                    now1 now2 answer in
      (evs,
       match r with
       | Returned (_, c') => Returned c'
       | NullDereference => NullDereference
       end) in
  match body with
  | NullDereference => (evs, NullDereference)
  | Returned c1 =>
      let '(evs1, r1) :=
        RendererLauncher.Destructor (renderer_launcher_ c1) join_now
          join_spawn_ok join_listener_is_available join_ret join_answer in
      (evs ++ evs1,
       match r1 with
       | Returned l' => Returned (set_renderer_launcher c1 l')
       | NullDereference => NullDereference
       end)
  end.

(** *** The supervisor as a sequential machine *)

(** One operation on the client, or the completion of the worker
    thread, with the answers of the outside world. *)
Inductive op : Type :=
| OpExecCommand (command : RendererCommand) (now1 now2 : Z)
                (answer : option IPCClientInterface)
| OpActivate (now1 now2 : Z) (answer : option IPCClientInterface)
| OpShutdown (force : bool) (probe : option IPCClientInterface)
             (terminated : bool) (now1 now2 : Z)
             (answer : option IPCClientInterface)
| OpDisableRendererServerCheck
| OpSetSuppressErrorDialog (suppress : bool)
| OpDestructor (now1 now2 : Z) (answer : option IPCClientInterface)
               (join_now : Z)
               (join_spawn_ok join_listener_is_available : bool)
               (join_ret : WaitResult)
               (join_answer : option IPCClientInterface)
| OpRun (now : Z) (spawn_ok listener_is_available : bool)
        (ret : WaitResult) (answer : option IPCClientInterface).

(** What an operation returns to its caller. *)
Inductive retval : Set :=
| RetVoid
| RetBool (b : bool).

Definition lift_bool (r : list event * outcome (bool * t))
  : list event * outcome (retval * t) :=
  match r with
  | (evs, Returned (b, c')) => (evs, Returned (RetBool b, c'))
  | (evs, NullDereference) => (evs, NullDereference)
  end.

(** The worker thread runs only when [StartRenderer] started it. *)
Definition step (c : t) (o : op) : list event * outcome (retval * t) :=
  match o with
  | OpExecCommand command now1 now2 answer =>
      lift_bool (ExecCommand c command now1 now2 answer)
  | OpActivate now1 now2 answer =>
      lift_bool (Activate c now1 now2 answer)
  | OpShutdown force probe terminated now1 now2 answer =>
      lift_bool (Shutdown c force probe terminated now1 now2 answer)
  | OpDisableRendererServerCheck =>
      ([], Returned (RetVoid, DisableRendererServerCheck c))
  | OpSetSuppressErrorDialog suppress =>
      ([], Returned (RetVoid, set_suppress_error_dialog c suppress))
  | OpDestructor now1 now2 answer join_now join_spawn_ok
                 join_listener_is_available join_ret join_answer =>
      match Destructor c now1 now2 answer join_now join_spawn_ok
              join_listener_is_available join_ret join_answer with
      | (evs, Returned c') => (evs, Returned (RetVoid, c'))
      | (evs, NullDereference) => (evs, NullDereference)
      end
  | OpRun now spawn_ok listener_is_available ret answer =>
      if RendererLauncher.IsRunning (renderer_launcher_ c) then
        match RendererLauncher.Run (renderer_launcher_ c) now spawn_ok
                listener_is_available ret answer with
        | (evs, Returned l') =>
            (evs, Returned (RetVoid, set_renderer_launcher c l'))
        | (evs, NullDereference) => (evs, NullDereference)
        end
      else ([], Returned (RetVoid, c))
  end.

(** A run of operations, one after the other; it ends at the first
    null dereference.  The result is the last state, the log, and the
    values returned. *)
Fixpoint run (c : t) (ops : list op) : t * list event * list retval :=
  match ops with
  | [] => (c, [], [])
  | o :: ops' =>
      match step c o with
      | (evs, Returned (r, c')) =>
          let '(c'', evs', rs) := run c' ops' in
          (c'', evs ++ evs', r :: rs)
      | (evs, NullDereference) => (c, evs, [])
      end
  end.

Definition status (c : t) : RendererLauncher.RendererStatus :=
  RendererLauncher.renderer_status_ (renderer_launcher_ c).

(** The number of launches started from [RENDERER_TIMEOUT] or
    [RENDERER_TERMINATED] since the status was last
    [RENDERER_READY], at the end of a run that begins with [streak]
    such launches. *)
Fixpoint relaunch_streak (c : t) (ops : list op) (streak : nat) : nat :=
  match ops with
  | [] => streak
  | o :: ops' =>
      match step c o with
      | (evs, Returned (_, c')) =>
          let started :=
            if RendererLauncher.throttled (status c)
            then (streak + count_events is_ThreadStart evs)%nat
            else streak in
          relaunch_streak c' ops'
            match status c' with
            | RendererLauncher.RENDERER_READY => 0%nat
            | _ => started
            end
      | (_, NullDereference) => streak
      end
  end.

End Platform.

End RendererClient.

(* ================================================================= *)
(** ** Vocabulary of the statements *)

(** What one [ExecCommand] may do to the launcher: the slot is kept or
    takes the [UPDATE] command, the error count and the launch time are
    kept, and either the status is kept and no thread is started, or one
    thread is started from a state in which [CanConnect] held at one of
    the two clock readings. *)
Definition exec_effect (c c' : RendererClient.t) (command : RendererCommand)
           (now1 now2 : Z) (evs : list event) : Prop :=
  let l := RendererClient.renderer_launcher_ c in
  let l' := RendererClient.renderer_launcher_ c' in
  RendererClient.renderer_launcher_interface_ c'
  = RendererClient.renderer_launcher_interface_ c /\
  RendererClient.ipc_client_factory_interface_ c'
  = RendererClient.ipc_client_factory_interface_ c /\
  (RendererLauncher.pending_command_ l' = RendererLauncher.pending_command_ l \/
   (RendererLauncher.pending_command_ l' = Some command /\
    type command = UPDATE)) /\
  RendererLauncher.error_times_ l' = RendererLauncher.error_times_ l /\
  RendererLauncher.last_launch_time_ l'
  = RendererLauncher.last_launch_time_ l /\
  ((RendererLauncher.renderer_status_ l'
    = RendererLauncher.renderer_status_ l /\
    RendererLauncher.IsRunning l' = RendererLauncher.IsRunning l /\
    count_events is_ThreadStart evs = 0%nat) \/
   (RendererLauncher.renderer_status_ l'
    = RendererLauncher.RENDERER_LAUNCHING /\
    RendererLauncher.IsRunning l' = true /\
    count_events is_ThreadStart evs = 1%nat /\
    (RendererLauncher.CanConnect l now1 = true \/
     RendererLauncher.CanConnect l now2 = true))).

(** What the worker thread does to the launcher when it returns. *)
Definition run_effect (l l' : RendererLauncher.t) (evs : list event) : Prop :=
  RendererLauncher.IsRunning l' = false /\
  count_events is_ThreadStart evs = 0%nat /\
  (RendererLauncher.pending_command_ l' = RendererLauncher.pending_command_ l \/
   RendererLauncher.pending_command_ l' = None) /\
  match RendererLauncher.renderer_status_ l' with
  | RendererLauncher.RENDERER_READY => RendererLauncher.error_times_ l' = 0
  | RendererLauncher.RENDERER_TIMEOUT | RendererLauncher.RENDERER_TERMINATED =>
      RendererLauncher.error_times_ l'
      = size_t_succ (RendererLauncher.error_times_ l)
  | RendererLauncher.RENDERER_FATAL =>
      RendererLauncher.error_times_ l' = RendererLauncher.error_times_ l \/
      RendererLauncher.error_times_ l'
      = size_t_succ (RendererLauncher.error_times_ l)
  | _ => False
  end.

(** What any operation of the machine does to the launcher: it leaves
    the status, the error count and the worker as they are; or it
    starts the worker; or the worker returns, after an operation that
    wrote at most the slot ([l1] is the launcher the worker starts
    from). *)
Definition step_effect (l l' : RendererLauncher.t) (evs : list event) : Prop :=
  (RendererLauncher.pending_is_UPDATE l ->
   RendererLauncher.pending_is_UPDATE l') /\
  ((RendererLauncher.renderer_status_ l'
    = RendererLauncher.renderer_status_ l /\
    RendererLauncher.error_times_ l' = RendererLauncher.error_times_ l /\
    RendererLauncher.IsRunning l' = RendererLauncher.IsRunning l /\
    count_events is_ThreadStart evs = 0%nat) \/
   (RendererLauncher.renderer_status_ l'
    = RendererLauncher.RENDERER_LAUNCHING /\
    RendererLauncher.error_times_ l' = RendererLauncher.error_times_ l /\
    RendererLauncher.IsRunning l' = true /\
    count_events is_ThreadStart evs = 1%nat /\
    exists now, RendererLauncher.CanConnect l now = true) \/
   (RendererLauncher.IsRunning l = true /\
    exists l1,
      RendererLauncher.error_times_ l1 = RendererLauncher.error_times_ l /\
      run_effect l1 l' evs)).

(** The invariant behind the bound on relaunches: [streak] launches were
    started from a throttled status since the last [RENDERER_READY]. *)
Definition streak_inv (l : RendererLauncher.t) (streak : nat) : Prop :=
  0 <= RendererLauncher.error_times_ l /\
  (RendererLauncher.IsRunning l = true ->
   RendererLauncher.renderer_status_ l = RendererLauncher.RENDERER_LAUNCHING) /\
  (streak <= 5)%nat /\
  match RendererLauncher.renderer_status_ l with
  | RendererLauncher.RENDERER_UNKNOWN | RendererLauncher.RENDERER_READY =>
      RendererLauncher.error_times_ l = 0 /\ streak = 0%nat
  | RendererLauncher.RENDERER_LAUNCHING =>
      Z.of_nat streak <= RendererLauncher.error_times_ l <= kMaxErrorTimes
  | RendererLauncher.RENDERER_TIMEOUT | RendererLauncher.RENDERER_TERMINATED =>
      Z.of_nat streak < RendererLauncher.error_times_ l
  | RendererLauncher.RENDERER_FATAL => True
  end.

(** One call of [ExecCommand] with the answers it gets. *)
Record exec_call : Type := {
  call_command : RendererCommand;
  call_now1 : Z;
  call_now2 : Z;
  call_answer : option IPCClientInterface
}.

Definition exec_op (call : exec_call) : RendererClient.op :=
  RendererClient.OpExecCommand (call_command call) (call_now1 call)
    (call_now2 call) (call_answer call).

(** *** Sample data *)

(** A two record token array in which both records carry POS index 3. *)
Definition sample_r1 : UserPos.TokenRecord :=
  {| UserPos.tr_pos_index := 3; UserPos.tr_value_suffix_index := 0;
     UserPos.tr_key_suffix_index := 1; UserPos.tr_conjugation_id := 7 |}.
Definition sample_r2 : UserPos.TokenRecord :=
  {| UserPos.tr_pos_index := 3; UserPos.tr_value_suffix_index := 2;
     UserPos.tr_key_suffix_index := 1; UserPos.tr_conjugation_id := 9 |}.
Definition sample_tokens : UserPos.string_view :=
  UserPos.token_array 4096 [sample_r1; sample_r2].

Definition sample_token : UserPos.Token :=
  {| UserPos.key := "k"; UserPos.value := "v"; UserPos.id := 7;
     UserPos.attributes := 6; UserPos.comment := EmptyString |}.

(** A platform: protocol version 3, product version 2.28.0, and a product
    version comparison that finds no server older. *)
Definition sample_protocol_version : Z := 3.
Definition sample_CompareVersion (lhs rhs : string) : bool := false.
Definition sample_mozc_version : string := "2.28.0".

(** A freshly constructed client without a desktop name. *)
Definition sample_client : RendererClient.t :=
  RendererClient.Build EmptyString "/usr/lib/mozc/mozc_renderer".

(** Commands: a visible [UPDATE] with output, and a hiding [UPDATE]. *)
Definition show_command : RendererCommand :=
  {| type := UPDATE; visible := true; output := Some "candidates"%string |}.
Definition show_command2 : RendererCommand :=
  {| type := UPDATE; visible := true; output := Some "more"%string |}.
Definition hide_command : RendererCommand :=
  {| type := UPDATE; visible := false; output := None |}.

(** IPC clients: no server behind it; a current server; a server that
    speaks an older protocol; and a client whose connection attempt timed
    out. *)
Definition client_no_server : IPCClientInterface :=
  {| GetLastIPCError := IPC_NO_CONNECTION; Connected := false;
     GetServerProtocolVersion := 0; GetServerProductVersion := EmptyString |}.
Definition client_current_server : IPCClientInterface :=
  {| GetLastIPCError := IPC_NO_ERROR; Connected := true;
     GetServerProtocolVersion := 3; GetServerProductVersion := "2.28.0" |}.
Definition client_old_protocol_server : IPCClientInterface :=
  {| GetLastIPCError := IPC_NO_ERROR; Connected := true;
     GetServerProtocolVersion := 2; GetServerProductVersion := "2.28.0" |}.
Definition client_timed_out : IPCClientInterface :=
  {| GetLastIPCError := IPC_TIMEOUT_ERROR; Connected := false;
     GetServerProtocolVersion := 0; GetServerProductVersion := EmptyString |}.



(** A launcher after one launch at time 1000 that timed out. *)
Definition launcher_after_timeout : RendererLauncher.t :=
  RendererLauncher.set_error_times
    (RendererLauncher.set_renderer_status
       (RendererLauncher.set_last_launch_time RendererLauncher.Build 1000)
       RendererLauncher.RENDERER_TIMEOUT)
    1.

(** A client whose launcher is launching, and a client after three
    version mismatches. *)
Definition launching_client : RendererClient.t :=
  RendererClient.set_renderer_launcher sample_client
    (snd (RendererLauncher.StartRenderer RendererLauncher.Build
            "renderer" "/usr/lib/mozc/mozc_renderer" false true)).
Definition mismatched_client : RendererClient.t :=
  RendererClient.set_version_mismatch_nums sample_client 3.

(** A call of [ExecCommand] at time 1000, answered by a client without
    server. *)
Definition exec_call_of (command : RendererCommand) : exec_call :=
  {| call_command := command; call_now1 := 1000; call_now2 := 1000;
     call_answer := Some client_no_server |}.


(* ================================================================= *)
(** ** Vocabulary of the further statements *)

Definition is_LaunchErrorMessageDialog (e : event) : bool :=
  match e with LaunchErrorMessageDialog _ => true | _ => false end.

(** A launcher that will not launch again: its worker is not running and
    it is fatal, or it is throttled with the error budget used up. *)
Definition exhausted (l : RendererLauncher.t) : Prop :=
  RendererLauncher.IsRunning l = false /\
  (RendererLauncher.renderer_status_ l = RendererLauncher.RENDERER_FATAL \/
   (RendererLauncher.throttled (RendererLauncher.renderer_status_ l) = true /\
    kMaxErrorTimes < RendererLauncher.error_times_ l)).

(** The worker runs exactly while the status is launching, and the error
    count stays small. *)
Definition launcher_inv (l : RendererLauncher.t) : Prop :=
  (RendererLauncher.IsRunning l = true <->
   RendererLauncher.renderer_status_ l = RendererLauncher.RENDERER_LAUNCHING) /\
  0 <= RendererLauncher.error_times_ l <= kMaxErrorTimes + 1 /\
  (RendererLauncher.renderer_status_ l = RendererLauncher.RENDERER_LAUNCHING ->
   RendererLauncher.error_times_ l <= kMaxErrorTimes) /\
  (RendererLauncher.renderer_status_ l = RendererLauncher.RENDERER_UNKNOWN \/
   RendererLauncher.renderer_status_ l = RendererLauncher.RENDERER_READY ->
   RendererLauncher.error_times_ l = 0).


(** Operations other than switching the error dialog back on. *)
Definition keeps_suppression (o : RendererClient.op) : bool :=
  match o with
  | RendererClient.OpSetSuppressErrorDialog false => false
  | _ => true
  end.

(** *** Further sample data *)

(** A client whose renderer is ready and shows a window; one whose
    launcher has used up its retries; one with the error dialog
    suppressed. *)
Definition ready_visible_client : RendererClient.t :=
  RendererClient.set_is_window_visible
    (RendererClient.set_renderer_launcher sample_client
       (RendererLauncher.set_renderer_status RendererLauncher.Build
          RendererLauncher.RENDERER_READY))
    true.
Definition exhausted_client : RendererClient.t :=
  RendererClient.set_renderer_launcher sample_client
    (RendererLauncher.set_error_times launcher_after_timeout 6).
Definition suppressed_client : RendererClient.t :=
  RendererClient.set_suppress_error_dialog sample_client true.

(** A client (with server) whose protocol version is ahead of ours, and
    one whose product version differs. *)
Definition client_new_protocol_server : IPCClientInterface :=
  {| GetLastIPCError := IPC_NO_ERROR; Connected := true;
     GetServerProtocolVersion := 4; GetServerProductVersion := "2.28.0" |}.
Definition client_old_product_server : IPCClientInterface :=
  {| GetLastIPCError := IPC_NO_ERROR; Connected := true;
     GetServerProtocolVersion := 3; GetServerProductVersion := "2.26.0" |}.

(** A product version comparison that finds every other version older. *)
Definition sample_CompareVersion_strict (lhs rhs : string) : bool :=
  negb (String.eqb lhs rhs).

(** *** Proof tactics *)

(** Case analysis on the next test of the function unfolded in [H]. *)
Ltac break_if_in H :=
  match type of H with
  | context [if ?b then _ else _] => destruct b eqn:?
  | context [match ?x with Some _ => _ | None => _ end] => destruct x eqn:?
  end.

Ltac negb_hyps :=
  repeat match goal with
         | H : negb _ = false |- _ => apply negb_false_iff in H
         | H : negb _ = true |- _ => apply negb_true_iff in H
         end.

(** Case analysis on the next test in the goal. *)
Ltac break_if_goal :=
  match goal with
  | |- context [if ?b then _ else _] => destruct b eqn:?
  | |- context [match ?x with Some _ => _ | None => _ end] =>
      destruct x eqn:?
  end.

(** Equality of two tokens that differ at most in their attribute bits;
    [ext] is the extensionality lemma, [add] and [rem] give the bits after
    [add_attribute] and [remove_attribute]. *)
Ltac attribute_bits ext add rem :=
  apply ext; try reflexivity;
  let k := fresh "k" in
  let Hk := fresh "Hk" in
  intros k Hk;
  repeat first [ rewrite add by assumption | rewrite rem by assumption ];
  repeat match goal with
         | |- context [?x <? ?y] => destruct (x <? y)
         | |- context [Z.testbit ?x ?y] => destruct (Z.testbit x y)
         | |- context [?x =? ?y] => destruct (x =? y)
         end; reflexivity.

(** Splits [H : Run ... = (evs, Returned l')] into the paths of the
    worker; [cases] is the lemma that lists them. *)
Ltac run_cases H cases :=
  rewrite cases in H; cbv zeta in H; unfold RendererLauncher.OnFatal in H;
  repeat match type of H with
         | context [if ?b then _ else _] => destruct b eqn:?
         | context [match ?x with
                    | TIMEOUT => _ | EVENT_SIGNALED => _
                    | PROCESS_SIGNALED => _ | OTHER => _ end] =>
             destruct x eqn:?
         | context [match ?x with Some _ => _ | None => _ end] =>
             destruct x eqn:?
         end;
  cbn in H; try discriminate;
  injection H as <- <-.

(** Opens [ExecCommand] up to the creation of the client, for a call
    that passes both gates; [frame] says that [SetPendingCommand] does not
    change [CanConnect]. *)
Ltac past_gates Hl Hf Hc Hv frame :=
  apply Z.leb_gt in Hv;
  unfold RendererClient.ExecCommand, RendererClient.CreateIPCClient;
  rewrite Hl, Hf; cbn [negb];
  match goal with
  | |- context [RendererLauncher.CanConnect ?l ?now1] =>
      destruct (RendererLauncher.CanConnect l now1) eqn:?E1
  end;
  cbn [negb andb];
  [ | destruct Hc as [Hc|Hc]; [discriminate|];
      cbn [RendererClient.renderer_launcher_
             RendererClient.set_renderer_launcher
             RendererClient.version_mismatch_nums_
             RendererClient.ipc_client_factory_interface_
             RendererClient.disable_renderer_path_check_];
      rewrite frame, Hc ];
  rewrite Hv, Hf; cbn [negb].

(** Closes a case of an operation on an exhausted launcher. *)
Ltac exh_done Hself H :=
  cbn; split; [reflexivity | split; [reflexivity|]];
  let E0 := fresh "E0" in
  intros ? ? E0;
  first [ discriminate E0
        | injection E0 as <- <-; first [exact H | exact Hself] ].

(* ================================================================= *)
(** * Properties of [UserPos] *)

Section UserPosFacts.
Import UserPos.

(** *** Bytes and little endian halves *)

Lemma byte_to_Z_of_Z (z : Z) : byte_to_Z (byte_of_Z z) = z mod 256.
Proof.
  unfold byte_to_Z, byte_of_Z.
  assert (Hr : 0 <= z mod 256 < 256) by (apply Z.mod_pos_bound; lia).
  destruct (Byte.of_N (Z.to_N (z mod 256))) as [b|] eqn:E.
  - apply Byte.to_of_N in E. rewrite E. apply Z2N.id. lia.
  - apply Byte.of_N_None_iff in E. lia.
Qed.

Lemma le16_encode (z : Z) :
  is_u16 z ->
  byte_to_Z (byte_of_Z z) + 256 * byte_to_Z (byte_of_Z (z / 256)) = z.
Proof.
  unfold is_u16. intros Hz.
  rewrite !byte_to_Z_of_Z.
  assert (Hq : 0 <= z / 256 < 256).
  { split; [apply Z.div_pos; lia | apply Z.div_lt_upper_bound; lia]. }
  rewrite (Z.mod_small (z / 256)) by lia.
  pose proof (Z.div_mod z 256). lia.
Qed.

(** *** The byte at a position of an encoded array *)

Lemma length_encode_token (r : TokenRecord) :
  List.length (encode_token r) = 8%nat.
Proof. reflexivity. Qed.

Lemma length_encode_tokens (rs : list TokenRecord) :
  List.length (encode_tokens rs) = (8 * List.length rs)%nat.
Proof.
  induction rs as [|r rs IH]; cbn [encode_tokens]; [reflexivity|].
  rewrite length_app, length_encode_token, IH. simpl List.length. lia.
Qed.

Lemma nth_error_encode_tokens (rs : list TokenRecord) :
  forall (i : nat) (r : TokenRecord) (k : nat),
    nth_error rs i = Some r -> (k < 8)%nat ->
    nth_error (encode_tokens rs) (8 * i + k) = nth_error (encode_token r) k.
Proof.
  induction rs as [|r0 rs IH]; intros i r k Hi Hk.
  - destruct i; discriminate.
  - destruct i as [|i]; simpl in Hi.
    + injection Hi as ->. cbn [encode_tokens].
      rewrite nth_error_app1 by (rewrite length_encode_token; lia).
      f_equal.
    + cbn [encode_tokens].
      rewrite nth_error_app2 by (rewrite length_encode_token; lia).
      rewrite length_encode_token.
      replace (8 * S i + k - 8)%nat with (8 * i + k)%nat by lia.
      now apply IH.
Qed.

Lemma nth_error_length_lt {A} (l : list A) (i : nat) (a : A) :
  nth_error l i = Some a -> (i < List.length l)%nat.
Proof. intros H. apply nth_error_Some. congruence. Qed.

(** Reading the byte at offset [k] of record [i]. *)
Lemma load_u8_token_array (base : Z) (rs : list TokenRecord)
      (i : nat) (r : TokenRecord) (k : nat) :
  nth_error rs i = Some r -> (k < 8)%nat ->
  load_u8 (token_array base rs) (base + 8 * Z.of_nat i + Z.of_nat k)
  = nth_error (encode_token r) k.
Proof.
  intros Hi Hk. unfold load_u8, size. cbn [data contents token_array].
  pose proof (nth_error_length_lt _ _ _ Hi) as Hlt.
  rewrite length_encode_tokens.
  replace ((base <=? base + 8 * Z.of_nat i + Z.of_nat k)
           && (base + 8 * Z.of_nat i + Z.of_nat k
               <? base + Z.of_nat (8 * List.length rs))) with true
    by (symmetry; apply andb_true_iff; split;
        [apply Z.leb_le | apply Z.ltb_lt]; lia).
  replace (Z.to_nat (base + 8 * Z.of_nat i + Z.of_nat k - base))
    with (8 * i + k)%nat by lia.
  now apply nth_error_encode_tokens.
Qed.

(** Reading the 16-bit field number [f] (0 to 3) of record [i]. *)
Lemma load_u16_token_array (base : Z) (rs : list TokenRecord)
      (i : nat) (r : TokenRecord) (f : nat) :
  nth_error rs i = Some r -> (f < 4)%nat ->
  load_u16 (token_array base rs) (base + 8 * Z.of_nat i + 2 * Z.of_nat f)
  = match nth_error (encode_token r) (2 * f),
          nth_error (encode_token r) (2 * f + 1) with
    | Some lo, Some hi => Some (byte_to_Z lo + 256 * byte_to_Z hi)
    | _, _ => None
    end.
Proof.
  intros Hi Hf. unfold load_u16.
  replace (base + 8 * Z.of_nat i + 2 * Z.of_nat f)
    with (base + 8 * Z.of_nat i + Z.of_nat (2 * f)) by lia.
  rewrite (load_u8_token_array base rs i r (2 * f)) by (auto; lia).
  replace (base + 8 * Z.of_nat i + Z.of_nat (2 * f) + 1)
    with (base + 8 * Z.of_nat i + Z.of_nat (2 * f + 1)) by lia.
  rewrite (load_u8_token_array base rs i r (2 * f + 1)) by (auto; lia).
  reflexivity.
Qed.

(** The pointer of [begin() + i] for an index inside the array. *)
Lemma ptr_plus_begin (base : Z) (rs : list TokenRecord) (i : nat) :
  view_ok (token_array base rs) -> (i <= List.length rs)%nat ->
  ptr_ (plus (begin_ (token_array base rs)) (Z.of_nat i))
  = base + 8 * Z.of_nat i.
Proof.
  unfold view_ok, size. cbn [data contents token_array].
  rewrite length_encode_tokens. intros (H0 & H1 & _) Hi.
  unfold plus, begin_, ptr_add, byte_offset, to_size_t, kTokenByteLength.
  cbn [ptr_ data token_array].
  assert (Hb : 2 ^ 64 = 18446744073709551616) by reflexivity.
  rewrite (Z.mod_small (Z.of_nat i)) by lia.
  rewrite (Z.mod_small (Z.of_nat i * 8)) by lia.
  rewrite Z.mod_small by lia. lia.
Qed.

(** *** Iterator arithmetic on forward distances *)

Lemma to_size_t_small (z : Z) : 0 <= z < 2 ^ 64 -> to_size_t z = z.
Proof. intros H. unfold to_size_t. now apply Z.mod_small. Qed.

Lemma to_ptrdiff_t_small (z : Z) :
  - 2 ^ 63 <= z < 2 ^ 63 -> to_ptrdiff_t z = z.
Proof.
  intros H. unfold to_ptrdiff_t.
  assert (Hb : 2 ^ 64 = 2 * 2 ^ 63) by reflexivity.
  rewrite Z.mod_small by lia. lia.
Qed.

(** Moving forward inside the array: the pointer moves by [8 * n] bytes
    and the distance back is [n]. *)
Lemma plus_forward (v : string_view) (x : iterator) (n : Z) :
  view_ok v -> over v x -> 0 <= n ->
  ptr_ x + kTokenByteLength * n <= data v + size v ->
  ptr_ (plus x n) = ptr_ x + kTokenByteLength * n /\
  ptr_ (add_assign x n) = ptr_ x + kTokenByteLength * n /\
  diff (plus x n) x = n.
Proof.
  unfold view_ok, over, kTokenByteLength.
  intros (H0 & H1 & H2) [Hx _] Hn Hin.
  assert (Hb : 2 ^ 64 = 2 * 2 ^ 63) by reflexivity.
  assert (Hp : ptr_ (plus x n) = ptr_ x + 8 * n).
  { unfold plus, ptr_add, byte_offset, kTokenByteLength. cbn [ptr_].
    rewrite (to_size_t_small n) by lia.
    rewrite (to_size_t_small (n * 8)) by lia.
    rewrite to_size_t_small by lia. lia. }
  split; [exact Hp|]. split; [exact Hp|].
  unfold diff, kTokenByteLength. rewrite Hp.
  replace (ptr_ x + 8 * n - ptr_ x) with (n * 8) by lia.
  rewrite (to_ptrdiff_t_small (n * 8)) by lia.
  rewrite to_size_t_small by lia.
  rewrite Z.div_mul by lia.
  apply to_ptrdiff_t_small. lia.
Qed.

(** Increment followed by decrement is the identity. *)
Lemma pre_decr_pre_incr (x : iterator) :
  0 <= ptr_ x < 2 ^ 64 -> pre_decr (pre_incr x) = x.
Proof.
  intros Hx. destruct x as [p]. cbn [ptr_] in Hx.
  unfold pre_decr, pre_incr, ptr_sub, ptr_add, to_size_t. cbn [ptr_].
  rewrite Zminus_mod_idemp_l.
  replace (p + kTokenByteLength - kTokenByteLength) with p by lia.
  now rewrite Z.mod_small.
Qed.

(** [end() - begin()] is the number of whole records. *)
Lemma diff_end_begin (v : string_view) :
  view_ok v -> diff (end_ v) (begin_ v) = size v / kTokenByteLength.
Proof.
  unfold view_ok, size. intros (H0 & H1 & H2).
  assert (Hb : 2 ^ 64 = 2 * 2 ^ 63) by reflexivity.
  unfold diff, end_, begin_, ptr_add, size. cbn [ptr_].
  set (n := Z.of_nat (List.length (contents v))) in *.
  assert (Hn : 0 <= n) by (subst n; lia).
  rewrite (to_size_t_small (data v + n)) by lia.
  replace (data v + n - data v) with n by lia.
  rewrite (to_ptrdiff_t_small n) by lia.
  rewrite to_size_t_small by lia.
  apply to_ptrdiff_t_small. unfold kTokenByteLength.
  assert (0 <= n / 8) by (apply Z.div_pos; lia).
  assert (n / 8 <= n) by (apply Z.div_le_upper_bound; lia).
  lia.
Qed.

(** *** Attribute bits *)

Lemma Attribute_value_pow2 (attr : Attribute) :
  Attribute_value attr = 2 ^ Attribute_bit attr.
Proof. destruct attr; reflexivity. Qed.

Lemma Attribute_bit_range (attr : Attribute) : 0 <= Attribute_bit attr < 16.
Proof. destruct attr; cbn; lia. Qed.

Lemma Attribute_bit_inj (a b : Attribute) :
  Attribute_bit a = Attribute_bit b -> a = b.
Proof. destruct a, b; cbn; intros H; try reflexivity; discriminate. Qed.

Lemma land_pow2_is_testbit (x k : Z) :
  0 <= k -> negb (Z.land x (2 ^ k) =? 0) = Z.testbit x k.
Proof.
  intros Hk. destruct (Z.testbit x k) eqn:E.
  - apply negb_true_iff, Z.eqb_neq. intros H0.
    assert (Hbit : Z.testbit (Z.land x (2 ^ k)) k = true)
      by (rewrite Z.land_spec, E, Z.pow2_bits_true by lia; reflexivity).
    rewrite H0, Z.bits_0 in Hbit. discriminate.
  - apply negb_false_iff, Z.eqb_eq, Z.bits_inj_0. intros n.
    rewrite Z.land_spec.
    destruct (Z.eq_dec n k) as [->|Hne].
    + now rewrite E.
    + destruct (Z.neg_nonneg_cases n) as [Hneg|Hpos].
      * now rewrite (Z.testbit_neg_r x n).
      * rewrite (Z.pow2_bits_false k n) by lia. apply andb_false_r.
Qed.

Lemma has_attribute_testbit (t : Token) (attr : Attribute) :
  has_attribute t attr = Z.testbit (attributes t) (Attribute_bit attr).
Proof.
  unfold has_attribute. rewrite Attribute_value_pow2.
  apply land_pow2_is_testbit. apply Attribute_bit_range.
Qed.

Lemma testbit_add_attribute (t : Token) (a : Attribute) (k : Z) :
  0 <= k < 16 ->
  Z.testbit (attributes (add_attribute t a)) k
  = Z.testbit (attributes t) k || (Attribute_bit a =? k).
Proof.
  intros Hk. unfold add_attribute, set_attributes, to_uint16_t.
  cbn [attributes].
  pose proof (Attribute_bit_range a).
  rewrite Z.mod_pow2_bits_low, Z.lor_spec, Attribute_value_pow2 by lia.
  now rewrite Z.pow2_bits_eqb by lia.
Qed.

Lemma testbit_remove_attribute (t : Token) (a : Attribute) (k : Z) :
  0 <= k < 16 ->
  Z.testbit (attributes (remove_attribute t a)) k
  = Z.testbit (attributes t) k && negb (Attribute_bit a =? k).
Proof.
  intros Hk. unfold remove_attribute, set_attributes, to_uint16_t.
  cbn [attributes].
  pose proof (Attribute_bit_range a).
  rewrite Z.mod_pow2_bits_low, Z.land_spec, Z.lnot_spec by lia.
  rewrite Attribute_value_pow2.
  now rewrite Z.pow2_bits_eqb by lia.
Qed.

End UserPosFacts.

(* ================================================================= *)
(** * The token iterator and the attribute bits *)

Section UserPosClaims.
Import UserPos.

(** C7 (as amended).  At every valid position [i] of a token array,
    dereferencing the iterator [begin() + i] yields the POS index of the
    record at that position, a single 16-bit value; the other three fields
    of the record are what the accessors [value_suffix_index()],
    [key_suffix_index()] and [conjugation_id()] return. *)
Theorem iterator_deref_pos_index
        (base : Z) (rs : list TokenRecord) (i : nat) (r : TokenRecord) :
  view_ok (token_array base rs) ->
  Forall record_ok rs ->
  nth_error rs i = Some r ->
  let v := token_array base rs in
  let it := plus (begin_ v) (Z.of_nat i) in
  deref v it = Some (tr_pos_index r) /\
  pos_index v it = Some (tr_pos_index r) /\
  value_suffix_index v it = Some (tr_value_suffix_index r) /\
  key_suffix_index v it = Some (tr_key_suffix_index r) /\
  conjugation_id v it = Some (tr_conjugation_id r).
Proof.
  intros Hv Hok Hi v it.
  assert (Hr : record_ok r).
  { rewrite Forall_forall in Hok. apply Hok. eapply nth_error_In; eauto. }
  destruct Hr as (Hp & Hvs & Hks & Hc).
  assert (Hptr : ptr_ it = base + 8 * Z.of_nat i).
  { apply ptr_plus_begin; [exact Hv|].
    apply Nat.lt_le_incl. eapply nth_error_length_lt; eauto. }
  unfold deref, pos_index, value_suffix_index, key_suffix_index,
    conjugation_id.
  rewrite Hptr.
  replace (base + 8 * Z.of_nat i)
    with (base + 8 * Z.of_nat i + 2 * Z.of_nat 0) at 1 2 by lia.
  replace (base + 8 * Z.of_nat i + 2)
    with (base + 8 * Z.of_nat i + 2 * Z.of_nat 1) by lia.
  replace (base + 8 * Z.of_nat i + 4)
    with (base + 8 * Z.of_nat i + 2 * Z.of_nat 2) by lia.
  replace (base + 8 * Z.of_nat i + 6)
    with (base + 8 * Z.of_nat i + 2 * Z.of_nat 3) by lia.
  subst v.
  rewrite !(load_u16_token_array base rs i r) by (auto; lia).
  cbn [encode_token encode_u16 nth_error app Nat.mul Nat.add].
  rewrite !le16_encode by assumption.
  repeat split; reflexivity.
Qed.

Lemma iterator_deref_pos_index_witness :
  deref sample_tokens (plus (begin_ sample_tokens) 1) = Some 3 /\
  conjugation_id sample_tokens (plus (begin_ sample_tokens) 1) = Some 9.
Proof.
  assert (Hv : view_ok (token_array 4096 [sample_r1; sample_r2]))
    by (unfold view_ok; vm_compute; repeat split; discriminate).
  assert (Hok : Forall record_ok [sample_r1; sample_r2])
    by (repeat constructor; vm_compute; discriminate).
  destruct (iterator_deref_pos_index 4096 [sample_r1; sample_r2] 1 sample_r2
              Hv Hok eq_refl) as (H1 & _ & _ & _ & H5).
  split; [exact H1 | exact H5].
Defined.

(** C7 as stated fails: the two records of [sample_tokens] differ, yet
    dereferencing yields the same value, 3, at both positions; so no
    unpacking of the dereferenced value gives the record with its four
    fields. *)
Lemma iterator_deref_not_whole_record :
  deref sample_tokens (begin_ sample_tokens) = Some 3 /\
  deref sample_tokens (plus (begin_ sample_tokens) 1) = Some 3 /\
  sample_r1 <> sample_r2 /\
  ~ (exists unpack : Z -> TokenRecord,
        forall (i : nat) (r : TokenRecord),
          nth_error [sample_r1; sample_r2] i = Some r ->
          option_map unpack
            (deref sample_tokens (plus (begin_ sample_tokens) (Z.of_nat i)))
          = Some r).
Proof.
  assert (H0 : deref sample_tokens (begin_ sample_tokens) = Some 3)
    by (vm_compute; reflexivity).
  assert (H1 : deref sample_tokens (plus (begin_ sample_tokens) 1) = Some 3)
    by (vm_compute; reflexivity).
  assert (Hne : sample_r1 <> sample_r2) by (intros H; discriminate H).
  repeat split; try assumption.
  intros [unpack Hu].
  pose proof (Hu 0%nat sample_r1 eq_refl) as E0.
  pose proof (Hu 1%nat sample_r2 eq_refl) as E1.
  change (Z.of_nat 1) with 1 in E1.
  rewrite H1 in E1. cbn [option_map] in E1.
  assert (H0' : deref sample_tokens
                  (plus (begin_ sample_tokens) (Z.of_nat 0)) = Some 3)
    by (vm_compute; reflexivity).
  rewrite H0' in E0. cbn [option_map] in E0.
  apply Hne. congruence.
Qed.

(** C8, evaluated where the code departs from it.  With [x] the second
    record of a two record array and [n = -1], [x + n] moves the pointer
    back by 8 bytes and stays inside the array, but [(x + n) - x] is
    [2^61 - 1], not [-1]: the pointer difference [-8] is divided by the
    unsigned [kTokenByteLength]. *)
Theorem iterator_diff_backward_distance :
  let v := sample_tokens in
  let x := plus (begin_ v) 1 in
  over v x /\ over v (plus x (-1)) /\
  ptr_ (plus x (-1)) = ptr_ x - 8 /\
  plus x (-1) = begin_ v /\ minus x 1 = begin_ v /\
  diff (plus x (-1)) x = 2 ^ 61 - 1 /\
  diff (begin_ v) x = 2 ^ 61 - 1 /\
  diff (plus x (-1)) x <> -1.
Proof.
  cbv zeta. unfold over.
  repeat split; vm_compute; congruence.
Qed.

(** C9.  The flags are the bits 1, 2, 4 and 8; after [add_attribute a] the
    token has [a], after [remove_attribute a] it does not, and neither
    operation changes whether another flag [b] is set. *)
Theorem token_attribute_bits (t : Token) (a b : Attribute) :
  (Attribute_value SHORTCUT = 1 /\ Attribute_value ISOLATED_WORD = 2 /\
   Attribute_value SUGGESTION_ONLY = 4 /\ Attribute_value NON_JA_LOCALE = 8) /\
  has_attribute (add_attribute t a) a = true /\
  has_attribute (remove_attribute t a) a = false /\
  (a <> b ->
   has_attribute (add_attribute t a) b = has_attribute t b /\
   has_attribute (remove_attribute t a) b = has_attribute t b).
Proof.
  split; [repeat split|].
  rewrite !has_attribute_testbit.
  pose proof (Attribute_bit_range a) as Ha.
  pose proof (Attribute_bit_range b) as Hb.
  rewrite !testbit_add_attribute, !testbit_remove_attribute by assumption.
  rewrite Z.eqb_refl.
  split; [apply orb_true_r|]. split; [apply andb_false_r|].
  intros Hab.
  assert (Hne : (Attribute_bit a =? Attribute_bit b) = false).
  { apply Z.eqb_neq. intros E. apply Hab. now apply Attribute_bit_inj. }
  rewrite Hne. split; [apply orb_false_r | apply andb_true_r].
Qed.

Lemma token_attribute_bits_witness :
  let t := sample_token in
  has_attribute (add_attribute t NON_JA_LOCALE) ISOLATED_WORD
  = has_attribute t ISOLATED_WORD /\
  has_attribute (remove_attribute t SUGGESTION_ONLY) ISOLATED_WORD
  = has_attribute t ISOLATED_WORD.
Proof.
  cbv zeta.
  split.
  - apply (token_attribute_bits sample_token NON_JA_LOCALE ISOLATED_WORD).
    discriminate.
  - apply (token_attribute_bits sample_token SUGGESTION_ONLY ISOLATED_WORD).
    discriminate.
Defined.

End UserPosClaims.

(* ================================================================= *)
(** * Properties of the renderer client *)

(** *** The launcher *)

Section LauncherFacts.
Import RendererLauncher.

Lemma SetPendingCommand_frame (l : t) (command : RendererCommand) :
  renderer_status_ (SetPendingCommand l command) = renderer_status_ l /\
  error_times_ (SetPendingCommand l command) = error_times_ l /\
  last_launch_time_ (SetPendingCommand l command) = last_launch_time_ l /\
  IsRunning (SetPendingCommand l command) = IsRunning l.
Proof. unfold SetPendingCommand. destruct (type command); repeat split. Qed.

Lemma CanConnect_SetPendingCommand (l : t) (command : RendererCommand)
      (now : Z) :
  CanConnect (SetPendingCommand l command) now = CanConnect l now.
Proof. unfold SetPendingCommand. destruct (type command); reflexivity. Qed.

Lemma SetPendingCommand_pending (l : t) (command : RendererCommand) :
  pending_command_ (SetPendingCommand l command)
  = if is_UPDATE command then Some command else pending_command_ l.
Proof.
  unfold SetPendingCommand, is_UPDATE. destruct (type command); reflexivity.
Qed.

Lemma SetPendingCommand_not_UPDATE (l : t) (command : RendererCommand) :
  type command <> UPDATE -> SetPendingCommand l command = l.
Proof. unfold SetPendingCommand. destruct (type command); congruence. Qed.

(** In a throttled status [CanConnect] needs both a short error streak and
    thirty seconds on the clock. *)
Lemma CanConnect_throttled (l : t) (now : Z) :
  throttled (renderer_status_ l) = true ->
  CanConnect l now = true ->
  error_times_ l <= kMaxErrorTimes /\
  kRetryIntervalTime <= uint64_sub now (last_launch_time_ l).
Proof.
  unfold CanConnect, throttled.
  destruct (renderer_status_ l); try discriminate; intros _ H;
    apply andb_true_iff in H; destruct H as [H1 H2];
    apply Z.leb_le in H1; apply Z.leb_le in H2; auto.
Qed.

Lemma uint64_sub_monotone_clock (now last : Z) :
  0 <= last <= now -> now < 2 ^ 64 -> uint64_sub now last = now - last.
Proof. intros H1 H2. unfold uint64_sub. apply Z.mod_small. lia. Qed.

(** [FlushPendingCommand] never sends: with a client at hand nothing is
    called, and without one the null pointer is used. *)
Lemma FlushPendingCommand_cases (l : t) (answer : option IPCClientInterface) :
  match ipc_client_factory_interface_ l, pending_command_ l, answer with
  | true, Some _, None =>
      exists evs,
      FlushPendingCommand l answer = (evs, NullDereference) /\
      count_events is_Call evs = 0%nat
  | _, _, _ =>
      exists evs,
      FlushPendingCommand l answer
      = (evs, Returned (set_error_times
                          (set_renderer_status (set_pending_command l None)
                                               RENDERER_READY)
                          0)) /\
      count_events is_Call evs = 0%nat /\
      count_events is_ThreadStart evs = 0%nat
  end.
Proof.
  unfold FlushPendingCommand, CreateIPCClient, CallCommand.
  destruct (ipc_client_factory_interface_ l);
    destruct (pending_command_ l); destruct answer;
    cbn [negb]; try destruct (disable_renderer_path_check_ l);
    eexists; repeat split; reflexivity.
Qed.

Lemma Run_effect (l : t) (now : Z) (spawn_ok listener_is_available : bool)
      (ret : WaitResult) (answer : option IPCClientInterface)
      (evs : list event) (l' : t) :
  Run l now spawn_ok listener_is_available ret answer = (evs, Returned l') ->
  run_effect l l' evs.
Proof.
  unfold Run, run_effect. intros H.
  destruct spawn_ok; cbn [negb] in H;
    [| injection H as <- <-; cbn; auto ].
  pose proof (FlushPendingCommand_cases (set_last_launch_time l now) answer)
    as HF.
  destruct listener_is_available; [destruct ret|].
  all: unfold OnFatal in H; cbn in H, HF.
  all: try (destruct (suppress_error_dialog_ l);
            injection H as <- <-; cbn; auto; fail).
  all: destruct (ipc_client_factory_interface_ l);
    destruct (pending_command_ l); destruct answer;
    destruct HF as (evs1 & HF); try destruct HF as (HF & Hc & Ht);
    try destruct HF as (HF & Hc);
    rewrite HF in H; cbn in H; try discriminate;
    injection H as <- <-; unfold count_events in *; cbn;
    rewrite ?app_nil_r, ?Ht; auto.
Qed.

(** The launcher's destructor does nothing, or lets the worker return. *)
Lemma Destructor_effect (l : t) (now : Z)
      (spawn_ok listener_is_available : bool)
      (ret : WaitResult) (answer : option IPCClientInterface)
      (evs : list event) (l' : t) :
  Destructor l now spawn_ok listener_is_available ret answer
  = (evs, Returned l') ->
  (IsRunning l = false /\ evs = [] /\ l' = l) \/
  (IsRunning l = true /\ run_effect l l' evs).
Proof.
  unfold Destructor. intros H.
  destruct (IsRunning l) eqn:Er; cbn [negb] in H.
  - right. split; [reflexivity|].
    destruct (Run l now spawn_ok listener_is_available ret answer)
      as [evs0 r0] eqn:E.
    injection H as <- ->. apply Run_effect in E.
    exact E.
  - left. injection H as <- <-. auto.
Qed.

End LauncherFacts.

(** *** [ExecCommand] *)

Section RendererFacts.
Import RendererClient.
Variable IPC_PROTOCOL_VERSION : Z.
Variable CompareVersion : string -> string -> bool.
Variable GetMozcVersion : string.

Local Abbreviation ExecCommand :=
  (RendererClient.ExecCommand
     IPC_PROTOCOL_VERSION CompareVersion GetMozcVersion).
Local Abbreviation step :=
  (RendererClient.step IPC_PROTOCOL_VERSION CompareVersion GetMozcVersion).
Local Abbreviation run :=
  (RendererClient.run IPC_PROTOCOL_VERSION CompareVersion GetMozcVersion).
Local Abbreviation relaunch_streak :=
  (RendererClient.relaunch_streak
     IPC_PROTOCOL_VERSION CompareVersion GetMozcVersion).

Lemma ExecCommand_effect (c : t) (command : RendererCommand)
      (now1 now2 : Z) (answer : option IPCClientInterface)
      (evs : list event) (r : bool) (c' : t) :
  ExecCommand c command now1 now2 answer = (evs, Returned (r, c')) ->
  exec_effect c c' command now1 now2 evs.
Proof.
  unfold RendererClient.ExecCommand, CreateIPCClient, exec_effect.
  intros H.
  destruct (renderer_launcher_interface_ c) eqn:Eli; cbn [negb] in H;
    [| injection H as <- <- <-; tauto ].
  destruct (ipc_client_factory_interface_ c) eqn:Ef; cbn [negb] in H;
    [| injection H as <- <- <-; tauto ].
  destruct command as [ty vis out].
  destruct (RendererLauncher.CanConnect (renderer_launcher_ c) now1) eqn:E1;
    cbn [negb andb] in H.
  all: unfold RendererLauncher.SetPendingCommand,
         RendererLauncher.StartRenderer,
         RendererLauncher.ForceTerminateRenderer,
         RendererLauncher.OnFatal, CallCommand, is_UPDATE,
         has_output in *.
  all: destruct ty; cbn [type visible output] in *.
  all: repeat (break_if_in H; cbn in H; try discriminate).
  all: injection H as <- <- <-; cbn.
  all: repeat match goal with |- _ /\ _ => split end;
    try reflexivity; try congruence.
  all: try (left; reflexivity).
  all: try (right; split; reflexivity).
  all: try (left; repeat split; reflexivity).
  all: try (right; repeat split; auto; fail).
  all: right; repeat split; try reflexivity; right.
  all: negb_hyps.
  all: assumption.
Qed.

(** While the launcher cannot connect, or after three version
    mismatches, [ExecCommand] returns [true] without any event. *)
Lemma ExecCommand_blocked (c : t) (command : RendererCommand)
      (now1 now2 : Z) (answer : option IPCClientInterface) :
  renderer_launcher_interface_ c = true ->
  ipc_client_factory_interface_ c = true ->
  RendererLauncher.CanConnect (renderer_launcher_ c) now1 = false ->
  RendererLauncher.CanConnect (renderer_launcher_ c) now2 = false ->
  ExecCommand c command now1 now2 answer
  = ([], Returned (true,
                   set_renderer_launcher c
                     (RendererLauncher.SetPendingCommand
                        (renderer_launcher_ c) command))).
Proof.
  intros Hl Hf H1 H2. unfold RendererClient.ExecCommand.
  rewrite Hl, Hf, H1. cbn [negb andb renderer_launcher_ set_renderer_launcher].
  now rewrite CanConnect_SetPendingCommand, H2.
Qed.

Lemma ExecCommand_dropped (c : t) (command : RendererCommand)
      (now1 now2 : Z) (answer : option IPCClientInterface) :
  renderer_launcher_interface_ c = true ->
  ipc_client_factory_interface_ c = true ->
  kMaxVersionMismatchNums <= version_mismatch_nums_ c ->
  exists c',
    ExecCommand c command now1 now2 answer = ([], Returned (true, c')) /\
    renderer_launcher_interface_ c' = true /\
    ipc_client_factory_interface_ c' = true /\
    version_mismatch_nums_ c' = version_mismatch_nums_ c.
Proof.
  intros Hl Hf Hv. apply Z.leb_le in Hv.
  unfold RendererClient.ExecCommand. rewrite Hl, Hf. cbn [negb].
  destruct (RendererLauncher.CanConnect (renderer_launcher_ c) now1);
    cbn [negb andb].
  - rewrite Hv. eauto.
  - cbn [renderer_launcher_ set_renderer_launcher
           version_mismatch_nums_].
    destruct (negb _); [|rewrite Hv]; eexists; split;
      try reflexivity; auto.
Qed.

(** With a null client every call that gets as far as creating the
    client dereferences it. *)
Lemma ExecCommand_null_client (c : t) (command : RendererCommand)
      (now1 now2 : Z) :
  renderer_launcher_interface_ c = true ->
  ipc_client_factory_interface_ c = true ->
  (RendererLauncher.CanConnect (renderer_launcher_ c) now1 = true \/
   RendererLauncher.CanConnect (renderer_launcher_ c) now2 = true) ->
  version_mismatch_nums_ c < kMaxVersionMismatchNums ->
  exists evs,
    ExecCommand c command now1 now2 None = (evs, NullDereference) /\
    count_events is_NewClient evs = 1%nat.
Proof.
  intros Hl Hf Hc Hv. apply Z.leb_gt in Hv.
  unfold RendererClient.ExecCommand, CreateIPCClient.
  rewrite Hl, Hf. cbn [negb].
  destruct (RendererLauncher.CanConnect (renderer_launcher_ c) now1) eqn:E1;
    cbn [negb andb].
  - rewrite Hv, Hf. cbn [negb].
    destruct (disable_renderer_path_check_ c); eexists; split; reflexivity.
  - destruct Hc as [Hc|Hc]; [discriminate|].
    cbn [renderer_launcher_ set_renderer_launcher
           version_mismatch_nums_ ipc_client_factory_interface_
           disable_renderer_path_check_].
    rewrite CanConnect_SetPendingCommand, Hc, Hv, Hf. cbn [negb].
    destruct (disable_renderer_path_check_ c); eexists; split; reflexivity.
Qed.

(** *** The machine *)

Lemma exec_effect_step_effect (c c' : t) (command : RendererCommand)
      (now1 now2 : Z) (evs : list event) :
  exec_effect c c' command now1 now2 evs ->
  step_effect (renderer_launcher_ c) (renderer_launcher_ c') evs.
Proof.
  unfold exec_effect, step_effect, RendererLauncher.pending_is_UPDATE.
  intros (_ & _ & Hp & He & _ & Hs). split.
  - destruct Hp as [-> | [-> Hu]]; auto.
  - destruct Hs as [(Hs & Hr & Hn) | (Hs & Hr & Hn & Hc)].
    + left. auto.
    + right; left. repeat split; auto.
      destruct Hc; eauto.
Qed.

Lemma step_effect_refl (l : RendererLauncher.t) : step_effect l l [].
Proof. split; [auto | left; repeat split]. Qed.

Lemma step_effect_app_l (l l' : RendererLauncher.t) (evs0 evs : list event) :
  count_events is_ThreadStart evs0 = 0%nat ->
  step_effect l l' evs -> step_effect l l' (evs0 ++ evs).
Proof.
  unfold step_effect, run_effect, count_events.
  intros H0 (Hp & Hs). split; [exact Hp|].
  rewrite filter_app, length_app.
  unfold count_events in H0. rewrite H0. exact Hs.
Qed.

(** The [UPDATE] that hides the window never starts the renderer. *)
Lemma ExecCommand_hide_effect (c : t) (now1 now2 : Z)
      (answer : option IPCClientInterface)
      (evs : list event) (r : bool) (c' : t) :
  ExecCommand c {| type := UPDATE; visible := false; output := None |}
              now1 now2 answer = (evs, Returned (r, c')) ->
  RendererLauncher.renderer_status_ (renderer_launcher_ c')
  = RendererLauncher.renderer_status_ (renderer_launcher_ c) /\
  RendererLauncher.error_times_ (renderer_launcher_ c')
  = RendererLauncher.error_times_ (renderer_launcher_ c) /\
  RendererLauncher.IsRunning (renderer_launcher_ c')
  = RendererLauncher.IsRunning (renderer_launcher_ c) /\
  count_events is_ThreadStart evs = 0%nat.
Proof.
  unfold RendererClient.ExecCommand, CreateIPCClient.
  intros H.
  destruct (renderer_launcher_interface_ c) eqn:Eli; cbn [negb] in H;
    [| injection H as <- <- <-; auto ].
  destruct (ipc_client_factory_interface_ c) eqn:Ef; cbn [negb] in H;
    [| injection H as <- <- <-; auto ].
  destruct (RendererLauncher.CanConnect (renderer_launcher_ c) now1) eqn:E1;
    cbn [negb andb] in H.
  all: unfold RendererLauncher.SetPendingCommand,
         RendererLauncher.StartRenderer,
         RendererLauncher.ForceTerminateRenderer,
         RendererLauncher.OnFatal, CallCommand, is_UPDATE,
         has_output in *.
  all: cbn [type visible output] in *.
  all: repeat (break_if_in H; cbn in H; try discriminate).
  all: injection H as <- <- <-; cbn.
  all: repeat split; reflexivity.
Qed.

(** The worker's return, after events that start no thread. *)
Lemma run_effect_app_l (l l' : RendererLauncher.t) (evs0 evs : list event) :
  count_events is_ThreadStart evs0 = 0%nat ->
  run_effect l l' evs -> run_effect l l' (evs0 ++ evs).
Proof.
  unfold run_effect, count_events.
  intros H0 Hs.
  rewrite filter_app, length_app.
  unfold count_events in H0. rewrite H0. exact Hs.
Qed.

(** The destruction of the owned launcher, after an operation that
    kept the status, the error count and the worker. *)
Lemma step_effect_Destructor (l l1 l' : RendererLauncher.t)
      (evs evs1 : list event) (now : Z)
      (spawn_ok listener_is_available : bool)
      (ret : WaitResult) (answer : option IPCClientInterface) :
  (RendererLauncher.pending_is_UPDATE l ->
   RendererLauncher.pending_is_UPDATE l1) ->
  RendererLauncher.renderer_status_ l1 = RendererLauncher.renderer_status_ l ->
  RendererLauncher.error_times_ l1 = RendererLauncher.error_times_ l ->
  RendererLauncher.IsRunning l1 = RendererLauncher.IsRunning l ->
  count_events is_ThreadStart evs = 0%nat ->
  RendererLauncher.Destructor l1 now spawn_ok listener_is_available ret
    answer = (evs1, Returned l') ->
  step_effect l l' (evs ++ evs1).
Proof.
  intros Hp Hs He Hr Hn HD.
  apply Destructor_effect in HD.
  destruct HD as [(_ & -> & ->) | (Hr1 & HR)].
  - rewrite app_nil_r. split; [exact Hp|]. left. auto.
  - split.
    + intros Hl. specialize (Hp Hl).
      destruct HR as (_ & _ & Hq & _).
      unfold RendererLauncher.pending_is_UPDATE in *.
      destruct Hq as [-> | ->]; auto.
    + right; right. split; [congruence|].
      exists l1. split; [exact He|].
      apply run_effect_app_l; assumption.
Qed.

Lemma step_step_effect (c : t) (o : op) (evs : list event)
      (r : retval) (c' : t) :
  step c o = (evs, Returned (r, c')) ->
  step_effect (renderer_launcher_ c) (renderer_launcher_ c') evs.
Proof.
  unfold RendererClient.step, lift_bool. destruct o; intros H.
  - destruct (ExecCommand _ _ _ _ _) as [evs0 [[b c0]|]] eqn:E;
      [|discriminate].
    injection H as <- _ <-.
    eapply exec_effect_step_effect, ExecCommand_effect, E.
  - unfold Activate in H. destruct (IsAvailable c).
    + injection H as <- _ <-. apply step_effect_refl.
    + destruct (ExecCommand _ _ _ _ _) as [evs0 [[b c0]|]] eqn:E;
        [|discriminate].
      injection H as <- _ <-.
      eapply exec_effect_step_effect, ExecCommand_effect, E.
  - unfold Shutdown, CreateIPCClient, RendererLauncher.ForceTerminateRenderer
      in H.
    destruct (ExecCommand c (command_of_type SHUTDOWN) now1 now2
                answer) as [evs0 [[b c0]|]] eqn:E.
    + apply ExecCommand_effect, exec_effect_step_effect in E.
      repeat (break_if_in H; cbn in H; try discriminate).
      all: injection H as <- _ <-.
      all: try apply step_effect_refl.
      all: try (split; [auto | left; repeat split]; fail).
      all: apply (step_effect_app_l _ _ [_]); [reflexivity | exact E].
    + repeat (break_if_in H; cbn in H; try discriminate).
      all: injection H as <- _ <-.
      all: try apply step_effect_refl.
      all: split; [auto | left; repeat split].
  - injection H as <- _ <-. apply step_effect_refl.
  - injection H as <- _ <-. unfold set_suppress_error_dialog.
    destruct (negb _); [apply step_effect_refl|].
    split; [auto | left; repeat split].
  - unfold Destructor in H. destruct (_ || _).
    + destruct (RendererLauncher.Destructor _ _ _ _ _ _)
        as [evs1 [l'|]] eqn:ED; [|discriminate].
      injection H as <- _ <-.
      cbn [renderer_launcher_ set_renderer_launcher].
      eapply (step_effect_Destructor _ _ _ []); try exact ED; auto.
    + destruct (ExecCommand _ _ _ _ _) as [evs0 [[b c0]|]] eqn:E;
        [|discriminate].
      destruct (RendererLauncher.Destructor _ _ _ _ _ _)
        as [evs1 [l'|]] eqn:ED; [|discriminate].
      injection H as <- _ <-.
      cbn [renderer_launcher_ set_renderer_launcher].
      pose proof (ExecCommand_hide_effect _ _ _ _ _ _ _ E)
        as (Hs & He & Hr & Hn).
      apply ExecCommand_effect, exec_effect_step_effect in E.
      destruct E as [Hp _].
      eapply step_effect_Destructor; try exact ED; auto.
  - destruct (RendererLauncher.IsRunning (renderer_launcher_ c)) eqn:Er.
    + destruct (RendererLauncher.Run _ _ _ _ _ _) as [evs0 [l0|]] eqn:E;
        [|discriminate].
      injection H as <- _ <-. apply Run_effect in E.
      split.
      * destruct E as (_ & _ & Hp & _).
        unfold RendererLauncher.pending_is_UPDATE.
        cbn [renderer_launcher_ set_renderer_launcher].
        destruct Hp as [-> | ->]; auto.
      * right; right. split; [exact Er|].
        exists (renderer_launcher_ c). split; [reflexivity | exact E].
    + injection H as <- _ <-. apply step_effect_refl.
Qed.

(** The relaunch streak stays within the error budget. *)
Lemma streak_inv_step (c : t) (o : op)
      (evs : list event) (r : retval) (c' : t)
      (streak : nat) :
  streak_inv (renderer_launcher_ c) streak ->
  step c o = (evs, Returned (r, c')) ->
  streak_inv (renderer_launcher_ c')
    match status c' with
    | RendererLauncher.RENDERER_READY => 0%nat
    | _ =>
        if RendererLauncher.throttled (status c)
        then (streak + count_events is_ThreadStart evs)%nat
        else streak
    end.
Proof.
  intros Hinv Hstep. apply step_step_effect in Hstep.
  destruct Hstep as [_ Hs]. unfold status.
  set (l := renderer_launcher_ c) in *.
  set (l' := renderer_launcher_ c') in *.
  unfold streak_inv in *. destruct Hinv as (He & Hrun & Hk & Hst).
  destruct Hs as [(Hs & Hee & Hr & Hn) | [(Hs & Hee & Hr & Hn & now & Hc)
                                         | (Hr & l1 & He1 & Hr' & Hn & _ & Hs)]].
  3: rewrite He1 in Hs.
  - rewrite Hs, Hee, Hr, Hn, Nat.add_0_r.
    destruct (RendererLauncher.renderer_status_ l); cbn; repeat split;
      auto; try lia; tauto.
  - rewrite Hs, Hee, Hr, Hn. unfold RendererLauncher.CanConnect in Hc.
    unfold kMaxErrorTimes in *.
    destruct (RendererLauncher.renderer_status_ l); cbn; try discriminate;
      try (apply andb_true_iff in Hc; destruct Hc as [Hc _];
           apply Z.leb_le in Hc; unfold kMaxErrorTimes in Hc);
      repeat split; auto; lia.
  - specialize (Hrun Hr). rewrite Hrun in Hst |- *.
    cbn [RendererLauncher.throttled].
    unfold kMaxErrorTimes in *.
    assert (Hsucc : size_t_succ (RendererLauncher.error_times_ l)
                    = RendererLauncher.error_times_ l + 1).
    { unfold size_t_succ. apply Z.mod_small.
      assert (2 ^ 64 = 18446744073709551616) by reflexivity. lia. }
    rewrite Hr'.
    destruct (RendererLauncher.renderer_status_ l'); try contradiction;
      repeat split; try discriminate; try lia.
Qed.

Lemma relaunch_streak_bound (ops : list op) :
  forall (c : t) (streak : nat),
    streak_inv (renderer_launcher_ c) streak ->
    (relaunch_streak c ops streak <= 5)%nat.
Proof.
  induction ops as [|o ops IH]; intros c streak Hinv;
    cbn [RendererClient.relaunch_streak].
  - apply Hinv.
  - destruct (step c o) as [evs [[r c']|]] eqn:E.
    + apply IH. eapply streak_inv_step; eauto.
    + apply Hinv.
Qed.

Lemma streak_inv_Build (desktop_name renderer_path : string) :
  streak_inv
    (renderer_launcher_
       (Build desktop_name renderer_path)) 0.
Proof. unfold streak_inv. cbn. repeat split; try lia; discriminate. Qed.

(** The slot invariant along a run. *)
Lemma run_pending_is_UPDATE (ops : list op) :
  forall c : t,
    RendererLauncher.pending_is_UPDATE (renderer_launcher_ c) ->
    RendererLauncher.pending_is_UPDATE
      (renderer_launcher_ (fst (fst (run c ops)))).
Proof.
  induction ops as [|o ops IH]; intros c Hc; cbn [RendererClient.run].
  - exact Hc.
  - destruct (step c o) as [evs [[r c']|]] eqn:E.
    + apply step_step_effect in E. destruct E as [Hp _].
      specialize (IH c' (Hp Hc)).
      destruct (run c' ops) as [[c'' evs'] rs].
      exact IH.
    + exact Hc.
Qed.

(** Calls made while the launcher is launching only overwrite the slot. *)
Lemma run_exec_while_launching (calls : list exec_call) :
  forall (c : t) (last_call : exec_call),
    renderer_launcher_interface_ c = true ->
    ipc_client_factory_interface_ c = true ->
    status c = RendererLauncher.RENDERER_LAUNCHING ->
    Forall (fun call => type (call_command call) = UPDATE)
           (calls ++ [last_call]) ->
    exists c',
      run c (map exec_op (calls ++ [last_call]))
      = (c', [], map (fun _ => RetBool true)
                     (calls ++ [last_call])) /\
      RendererLauncher.pending_command_ (renderer_launcher_ c')
      = Some (call_command last_call) /\
      status c' = RendererLauncher.RENDERER_LAUNCHING.
Proof.
  assert (Hexec : forall (c : t) (call : exec_call),
            renderer_launcher_interface_ c = true ->
            ipc_client_factory_interface_ c = true ->
            status c = RendererLauncher.RENDERER_LAUNCHING ->
            step c (exec_op call)
            = ([], Returned
                     (RetBool true,
                      set_renderer_launcher c
                        (RendererLauncher.SetPendingCommand
                           (renderer_launcher_ c)
                           (call_command call))))).
  { intros c call Hl Hf Hs. unfold exec_op. cbn [RendererClient.step].
    unfold status in Hs.
    rewrite ExecCommand_blocked; auto;
      unfold RendererLauncher.CanConnect; now rewrite Hs. }
  induction calls as [|call calls IH]; intros c last_call Hl Hf Hs Hall.
  - cbn [app map RendererClient.run]. rewrite Hexec by assumption.
    eexists. split; [reflexivity|].
    unfold status in *.
    cbn [renderer_launcher_
           set_renderer_launcher].
    rewrite SetPendingCommand_pending. unfold is_UPDATE.
    inversion Hall as [|? ? Hu _]; subst. rewrite Hu.
    split; [reflexivity|].
    destruct (SetPendingCommand_frame
                (renderer_launcher_ c)
                (call_command last_call)) as (E & _).
    now rewrite E.
  - cbn [app map RendererClient.run]. rewrite Hexec by assumption.
    inversion Hall as [|? ? Hu Hrest]; subst.
    destruct (IH (set_renderer_launcher c
                    (RendererLauncher.SetPendingCommand
                       (renderer_launcher_ c)
                       (call_command call))) last_call)
      as (c' & Hrun & Hp & Hs'); auto.
    { unfold status in *.
      cbn [renderer_launcher_
             set_renderer_launcher].
      destruct (SetPendingCommand_frame
                  (renderer_launcher_ c)
                  (call_command call)) as (E & _).
      now rewrite E. }
    rewrite Hrun. exists c'. auto.
Qed.

(** After three version mismatches every call is dropped. *)
Lemma run_exec_after_mismatches (calls : list exec_call) :
  forall c : t,
    renderer_launcher_interface_ c = true ->
    ipc_client_factory_interface_ c = true ->
    kMaxVersionMismatchNums
    <= version_mismatch_nums_ c ->
    exists c',
      run c (map exec_op calls)
      = (c', [], map (fun _ => RetBool true) calls) /\
      version_mismatch_nums_ c'
      = version_mismatch_nums_ c.
Proof.
  induction calls as [|call calls IH]; intros c Hl Hf Hv.
  - exists c. split; reflexivity.
  - cbn [map RendererClient.run]. unfold exec_op at 1.
    cbn [RendererClient.step].
    destruct (ExecCommand_dropped c (call_command call) (call_now1 call)
                (call_now2 call) (call_answer call) Hl Hf Hv)
      as (c1 & -> & Hl1 & Hf1 & Hv1).
    cbn [lift_bool].
    destruct (IH c1 Hl1 Hf1) as (c' & -> & Hv'); [lia|].
    exists c'. split; [reflexivity | lia].
Qed.

End RendererFacts.

(* ================================================================= *)
(** * The pending command and the launch worker *)

(** C1, evaluated where the code departs from it.  A fresh client gets a
    visible [UPDATE] while no server is connected: the command is stored
    and a launch is started.  The worker then sees the rendezvous event
    signaled and flushes, the factory handing out a working client.  The
    status becomes [RENDERER_READY], the error count 0 and the slot empty,
    but the log holds no [Call]: the command is sent zero times, since
    [FlushPendingCommand] calls [CallCommand] only under [if (!client)].
    When the factory hands out a null pointer instead, that branch
    dereferences it. *)
Theorem flush_never_sends_pending_command :
  let run := RendererClient.run sample_protocol_version sample_CompareVersion
               sample_mozc_version in
  let exec := RendererClient.OpExecCommand show_command 1000 1000
                (Some client_no_server) in
  let worker answer := RendererClient.OpRun 1000 true true EVENT_SIGNALED
                         answer in
  let '(c1, _, _) := run sample_client [exec] in
  let '(c2, evs, rets) :=
    run sample_client [exec; worker (Some client_current_server)] in
  (RendererClient.status c1 = RendererLauncher.RENDERER_LAUNCHING /\
   RendererLauncher.pending_command_ (RendererClient.renderer_launcher_ c1)
   = Some show_command /\
   RendererLauncher.ipc_client_factory_interface_
     (RendererClient.renderer_launcher_ c1) = true) /\
  (rets = [RendererClient.RetBool true; RendererClient.RetVoid] /\
   RendererClient.status c2 = RendererLauncher.RENDERER_READY /\
   RendererLauncher.error_times_ (RendererClient.renderer_launcher_ c2) = 0 /\
   RendererLauncher.pending_command_ (RendererClient.renderer_launcher_ c2)
   = None /\
   count_events is_NewClient evs = 2%nat /\
   count_events is_Call evs = 0%nat) /\
  snd (RendererLauncher.FlushPendingCommand
         (RendererClient.renderer_launcher_ c1) None) = NullDereference.
Proof. vm_compute. repeat split. Qed.

(** C2 (as amended).  In [RENDERER_TIMEOUT] and [RENDERER_TERMINATED],
    [CanConnect] holds only with at most [kMaxErrorTimes] errors and with
    the [uint64_t] difference between the clock and the last launch time
    at least [kRetryIntervalTime]; when the clock does not read earlier
    than the last launch time, that is at least [kRetryIntervalTime]
    seconds elapsed since the last launch.  [ExecCommand] starts a launch
    from such a status only if [CanConnect] held at one of its two
    checks; and along every run from construction at most 5 launches are
    started from these statuses without the status becoming
    [RENDERER_READY] in between. *)
Theorem retry_throttle :
  (forall (l : RendererLauncher.t) (now : Z),
      RendererLauncher.throttled (RendererLauncher.renderer_status_ l) = true ->
      RendererLauncher.CanConnect l now = true ->
      RendererLauncher.error_times_ l <= kMaxErrorTimes /\
      kRetryIntervalTime
      <= uint64_sub now (RendererLauncher.last_launch_time_ l) /\
      (0 <= RendererLauncher.last_launch_time_ l <= now -> now < 2 ^ 64 ->
       kRetryIntervalTime <= now - RendererLauncher.last_launch_time_ l)) /\
  (forall (IPC_PROTOCOL_VERSION : Z)
          (CompareVersion : string -> string -> bool)
          (GetMozcVersion : string)
          (c : RendererClient.t) (command : RendererCommand) (now1 now2 : Z)
          (answer : option IPCClientInterface)
          (evs : list event) (r : bool) (c' : RendererClient.t),
      RendererLauncher.throttled (RendererClient.status c) = true ->
      RendererClient.ExecCommand IPC_PROTOCOL_VERSION CompareVersion
        GetMozcVersion c command now1 now2 answer = (evs, Returned (r, c')) ->
      count_events is_ThreadStart evs <> 0%nat ->
      RendererLauncher.CanConnect (RendererClient.renderer_launcher_ c) now1
      = true \/
      RendererLauncher.CanConnect (RendererClient.renderer_launcher_ c) now2
      = true) /\
  (forall (IPC_PROTOCOL_VERSION : Z)
          (CompareVersion : string -> string -> bool)
          (GetMozcVersion : string)
          (desktop_name renderer_path : string)
          (ops : list RendererClient.op),
      (RendererClient.relaunch_streak IPC_PROTOCOL_VERSION CompareVersion
         GetMozcVersion (RendererClient.Build desktop_name renderer_path)
         ops 0 <= 5)%nat).
Proof.
  split; [|split].
  - intros l now Ht Hc.
    destruct (CanConnect_throttled l now Ht Hc) as [He Hd].
    repeat split; auto.
    intros Hm Hn. now rewrite <- uint64_sub_monotone_clock.
  - intros IPC CV MV c command now1 now2 answer evs r c' _ Hx Hn.
    apply ExecCommand_effect in Hx.
    destruct Hx as (_ & _ & _ & _ & _ & [(_ & _ & H0) | (_ & _ & _ & Hc)]).
    + contradiction.
    + exact Hc.
  - intros IPC CV MV desktop_name renderer_path ops.
    apply relaunch_streak_bound, streak_inv_Build.
Qed.

Lemma retry_throttle_witness :
  RendererLauncher.error_times_ launcher_after_timeout <= kMaxErrorTimes /\
  kRetryIntervalTime <= 1030 - 1000.
Proof.
  destruct retry_throttle as [H _].
  destruct (H launcher_after_timeout 1030 eq_refl eq_refl) as (He & _ & Hd).
  split; [exact He|].
  apply Hd; cbn; lia.
Defined.

(** C2 as stated fails when the clock reads earlier than the last launch
    time.  The launcher is in [RENDERER_TIMEOUT] after one error, its last
    launch at time 1000; the clock reads 999 at both checks of
    [ExecCommand].  The [uint64_t] difference wraps to [2^64 - 1], so
    [CanConnect] holds and a visible [UPDATE] that finds no server starts
    a launch, though no 30 seconds have elapsed since the last one. *)
Lemma retry_granted_when_clock_reads_earlier :
  let c :=
    RendererClient.set_renderer_launcher sample_client
      launcher_after_timeout in
  let r :=
    RendererClient.ExecCommand sample_protocol_version sample_CompareVersion
      sample_mozc_version c show_command 999 999 (Some client_no_server) in
  RendererLauncher.throttled (RendererClient.status c) = true /\
  RendererLauncher.last_launch_time_ (RendererClient.renderer_launcher_ c)
  = 1000 /\
  999 - 1000 < kRetryIntervalTime /\
  uint64_sub 999 1000 = 2 ^ 64 - 1 /\
  RendererLauncher.CanConnect (RendererClient.renderer_launcher_ c) 999
  = true /\
  fst r = [NewClient "renderer" "/usr/lib/mozc/mozc_renderer";
           ThreadStart "Renderer"] /\
  match snd r with
  | Returned (b, c') =>
      b = true /\
      RendererClient.status c' = RendererLauncher.RENDERER_LAUNCHING
  | NullDereference => False
  end.
Proof. vm_compute. repeat split. Qed.

(** The bound of C2 is reached: five relaunches, each thirty seconds after
    the one before, follow the first launch; a sixth is refused. *)
Example relaunch_streak_reaches_five :
  let exec now := RendererClient.OpExecCommand show_command now now
                    (Some client_no_server) in
  let worker now := RendererClient.OpRun now true true TIMEOUT None in
  let ops := [exec 0; worker 0; exec 30; worker 30; exec 60; worker 60;
              exec 90; worker 90; exec 120; worker 120; exec 150; worker 150;
              exec 180; exec 210] in
  RendererClient.relaunch_streak sample_protocol_version
    sample_CompareVersion sample_mozc_version sample_client ops 0 = 5%nat /\
  count_events is_ThreadStart
    (snd (fst (RendererClient.run sample_protocol_version
                 sample_CompareVersion sample_mozc_version sample_client ops)))
  = 6%nat.
Proof. vm_compute. split; reflexivity. Qed.

(** C3.  [SetPendingCommand] with a [NOOP] or [SHUTDOWN] command leaves the
    launcher, and so the slot, unchanged; with any command it keeps the
    slot empty or [UPDATE]-typed; so does every operation of the client
    and the worker thread, from any state; hence the slot is empty or
    [UPDATE]-typed after every run from construction. *)
Theorem pending_slot_holds_only_UPDATE :
  (forall (l : RendererLauncher.t) (command : RendererCommand),
      type command = NOOP \/ type command = SHUTDOWN ->
      RendererLauncher.SetPendingCommand l command = l) /\
  (forall (l : RendererLauncher.t) (command : RendererCommand),
      RendererLauncher.pending_is_UPDATE l ->
      RendererLauncher.pending_is_UPDATE
        (RendererLauncher.SetPendingCommand l command)) /\
  (forall (IPC_PROTOCOL_VERSION : Z)
          (CompareVersion : string -> string -> bool)
          (GetMozcVersion : string)
          (c : RendererClient.t) (o : RendererClient.op)
          (evs : list event) (r : RendererClient.retval)
          (c' : RendererClient.t),
      RendererLauncher.pending_is_UPDATE
        (RendererClient.renderer_launcher_ c) ->
      RendererClient.step IPC_PROTOCOL_VERSION CompareVersion GetMozcVersion
        c o = (evs, Returned (r, c')) ->
      RendererLauncher.pending_is_UPDATE
        (RendererClient.renderer_launcher_ c')) /\
  (forall (IPC_PROTOCOL_VERSION : Z)
          (CompareVersion : string -> string -> bool)
          (GetMozcVersion : string)
          (desktop_name renderer_path : string)
          (ops : list RendererClient.op),
      RendererLauncher.pending_is_UPDATE
        (RendererClient.renderer_launcher_
           (fst (fst (RendererClient.run IPC_PROTOCOL_VERSION CompareVersion
                        GetMozcVersion
                        (RendererClient.Build desktop_name renderer_path)
                        ops))))).
Proof.
  split; [|split; [|split]].
  - intros l command Hty. apply SetPendingCommand_not_UPDATE.
    destruct Hty as [-> | ->]; discriminate.
  - intros l command Hl. unfold RendererLauncher.pending_is_UPDATE.
    rewrite SetPendingCommand_pending. unfold is_UPDATE.
    destruct (type command) eqn:E; auto.
  - intros IPC CV MV c o evs r c' Hc Hstep.
    apply step_step_effect in Hstep. destruct Hstep as [Hp _]. auto.
  - intros IPC CV MV desktop_name renderer_path ops.
    apply run_pending_is_UPDATE. exact I.
Qed.

Lemma pending_slot_holds_only_UPDATE_witness :
  RendererLauncher.SetPendingCommand launcher_after_timeout
    (command_of_type SHUTDOWN) = launcher_after_timeout /\
  RendererLauncher.pending_is_UPDATE
    (RendererLauncher.SetPendingCommand launcher_after_timeout show_command).
Proof.
  destruct pending_slot_holds_only_UPDATE as (H1 & H2 & _).
  split.
  - apply H1. right. reflexivity.
  - apply H2. exact I.
Defined.

(** C4.  While the status is [RENDERER_LAUNCHING], a sequence of
    [ExecCommand] calls with [UPDATE] commands causes no event, returns
    [true] each time, leaves the status as it is, and leaves in the slot
    the command of the last call. *)
Theorem pending_updates_coalesce
        (IPC_PROTOCOL_VERSION : Z)
        (CompareVersion : string -> string -> bool)
        (GetMozcVersion : string)
        (c : RendererClient.t) (calls : list exec_call)
        (last_call : exec_call) :
  RendererClient.renderer_launcher_interface_ c = true ->
  RendererClient.ipc_client_factory_interface_ c = true ->
  RendererClient.status c = RendererLauncher.RENDERER_LAUNCHING ->
  Forall (fun call => type (call_command call) = UPDATE)
         (calls ++ [last_call]) ->
  exists c' : RendererClient.t,
    RendererClient.run IPC_PROTOCOL_VERSION CompareVersion GetMozcVersion c
      (map exec_op (calls ++ [last_call]))
    = (c', [], map (fun _ => RendererClient.RetBool true)
                   (calls ++ [last_call])) /\
    RendererLauncher.pending_command_ (RendererClient.renderer_launcher_ c')
    = Some (call_command last_call) /\
    RendererClient.status c' = RendererLauncher.RENDERER_LAUNCHING.
Proof. intros. now apply run_exec_while_launching. Qed.

Lemma pending_updates_coalesce_witness :
  exists c' : RendererClient.t,
    RendererClient.run sample_protocol_version sample_CompareVersion
      sample_mozc_version launching_client
      (map exec_op
         ([exec_call_of show_command; exec_call_of hide_command]
            ++ [exec_call_of show_command2]))
    = (c', [], map (fun _ => RendererClient.RetBool true)
                   ([exec_call_of show_command; exec_call_of hide_command]
                      ++ [exec_call_of show_command2])) /\
    RendererLauncher.pending_command_ (RendererClient.renderer_launcher_ c')
    = Some (call_command (exec_call_of show_command2)) /\
    RendererClient.status c' = RendererLauncher.RENDERER_LAUNCHING.
Proof.
  apply (pending_updates_coalesce sample_protocol_version
           sample_CompareVersion sample_mozc_version launching_client
           [exec_call_of show_command; exec_call_of hide_command]
           (exec_call_of show_command2)).
  - reflexivity.
  - reflexivity.
  - reflexivity.
  - repeat constructor.
Defined.

(* ================================================================= *)
(** * [ExecCommand] and the versions of the server *)

(** C5 (as amended).  A call of [ExecCommand] that passes the
    connectability gate and the mismatch gate, gets a connected client
    without timeout error, and finds the server's protocol version below
    the client's, terminates the server once, makes no [Call], adds one to
    [version_mismatch_nums_], hands the command to [SetPendingCommand]
    (the slot takes it if it is an [UPDATE] and is unchanged otherwise) and
    returns [true].  Once [version_mismatch_nums_] is 3 or more, every
    later call returns [true] without any event: no client is created and
    nothing is sent. *)
Theorem protocol_mismatch_newer_client
        (IPC_PROTOCOL_VERSION : Z)
        (CompareVersion : string -> string -> bool)
        (GetMozcVersion : string) (c : RendererClient.t) :
  RendererClient.renderer_launcher_interface_ c = true ->
  RendererClient.ipc_client_factory_interface_ c = true ->
  (forall (command : RendererCommand) (now1 now2 : Z)
          (cl : IPCClientInterface),
      (RendererLauncher.CanConnect (RendererClient.renderer_launcher_ c) now1
       = true \/
       RendererLauncher.CanConnect (RendererClient.renderer_launcher_ c) now2
       = true) ->
      RendererClient.version_mismatch_nums_ c
      < RendererClient.kMaxVersionMismatchNums ->
      GetLastIPCError cl <> IPC_TIMEOUT_ERROR ->
      Connected cl = true ->
      GetServerProtocolVersion cl < IPC_PROTOCOL_VERSION ->
      exists (evs : list event) (c' : RendererClient.t),
        RendererClient.ExecCommand IPC_PROTOCOL_VERSION CompareVersion
          GetMozcVersion c command now1 now2 (Some cl)
        = (evs, Returned (true, c')) /\
        count_events is_TerminateServer evs = 1%nat /\
        count_events is_Call evs = 0%nat /\
        RendererClient.version_mismatch_nums_ c'
        = RendererClient.version_mismatch_nums_ c + 1 /\
        RendererLauncher.pending_command_ (RendererClient.renderer_launcher_ c')
        = (if is_UPDATE command then Some command
           else RendererLauncher.pending_command_
                  (RendererClient.renderer_launcher_ c))) /\
  (forall calls : list exec_call,
      RendererClient.kMaxVersionMismatchNums
      <= RendererClient.version_mismatch_nums_ c ->
      exists c' : RendererClient.t,
        RendererClient.run IPC_PROTOCOL_VERSION CompareVersion
          GetMozcVersion c (map exec_op calls)
        = (c', [], map (fun _ => RendererClient.RetBool true) calls) /\
        RendererClient.version_mismatch_nums_ c'
        = RendererClient.version_mismatch_nums_ c).
Proof.
  intros Hl Hf. split.
  - intros command now1 now2 cl Hc Hv Herr Hconn Hproto.
    apply Z.leb_gt in Hv. apply Z.ltb_lt in Hproto.
    assert (Ht : is_IPC_TIMEOUT_ERROR (GetLastIPCError cl) = false)
      by (destruct (GetLastIPCError cl); try reflexivity; congruence).
    unfold RendererClient.ExecCommand, RendererClient.CreateIPCClient.
    rewrite Hl, Hf. cbn [negb].
    destruct (RendererLauncher.CanConnect
                (RendererClient.renderer_launcher_ c) now1) eqn:E1;
      cbn [negb andb].
    + rewrite Hv, Hf. cbn [negb].
      destruct (RendererClient.disable_renderer_path_check_ c);
        rewrite Ht, Hconn; cbn [negb];
        cbn [RendererClient.set_is_window_visible];
        rewrite Hproto; do 2 eexists; (split; [reflexivity|]);
        cbn; rewrite SetPendingCommand_pending; repeat split.
    + destruct Hc as [Hc|Hc]; [discriminate|].
      cbn [RendererClient.renderer_launcher_
             RendererClient.set_renderer_launcher
             RendererClient.version_mismatch_nums_
             RendererClient.ipc_client_factory_interface_
             RendererClient.disable_renderer_path_check_].
      rewrite CanConnect_SetPendingCommand, Hc, Hv, Hf. cbn [negb].
      destruct (RendererClient.disable_renderer_path_check_ c);
        rewrite Ht, Hconn; cbn [negb];
        cbn [RendererClient.set_is_window_visible];
        rewrite Hproto; do 2 eexists; (split; [reflexivity|]);
        cbn; rewrite !SetPendingCommand_pending;
        destruct (is_UPDATE command); repeat split.
  - intros calls Hv. now apply run_exec_after_mismatches.
Qed.

Lemma protocol_mismatch_newer_client_witness :
  (exists (evs : list event) (c' : RendererClient.t),
      RendererClient.ExecCommand sample_protocol_version
        sample_CompareVersion sample_mozc_version sample_client
        show_command 1000 1000 (Some client_old_protocol_server)
      = (evs, Returned (true, c')) /\
      count_events is_TerminateServer evs = 1%nat /\
      count_events is_Call evs = 0%nat /\
      RendererClient.version_mismatch_nums_ c'
      = RendererClient.version_mismatch_nums_ sample_client + 1 /\
      RendererLauncher.pending_command_ (RendererClient.renderer_launcher_ c')
      = (if is_UPDATE show_command then Some show_command
         else RendererLauncher.pending_command_
                (RendererClient.renderer_launcher_ sample_client))) /\
  (exists c' : RendererClient.t,
      RendererClient.run sample_protocol_version sample_CompareVersion
        sample_mozc_version mismatched_client
        (map exec_op [exec_call_of show_command; exec_call_of hide_command])
      = (c', [], map (fun _ => RendererClient.RetBool true)
                     [exec_call_of show_command; exec_call_of hide_command]) /\
      RendererClient.version_mismatch_nums_ c'
      = RendererClient.version_mismatch_nums_ mismatched_client).
Proof.
  split.
  - apply (protocol_mismatch_newer_client sample_protocol_version
             sample_CompareVersion sample_mozc_version sample_client
             eq_refl eq_refl).
    + left. reflexivity.
    + reflexivity.
    + discriminate.
    + reflexivity.
    + reflexivity.
  - apply (protocol_mismatch_newer_client sample_protocol_version
             sample_CompareVersion sample_mozc_version mismatched_client
             eq_refl eq_refl).
    cbn. discriminate.
Defined.

(** C5 as stated fails for a command that is not an [UPDATE]: a [NOOP]
    (what [Activate] sends) that meets a server with an older protocol is
    answered with [true], one [TerminateServer] and one more mismatch, but
    the slot stays empty; the command is not pended. *)
Lemma protocol_mismatch_noop_not_pended :
  exists (evs : list event) (c' : RendererClient.t),
    RendererClient.ExecCommand sample_protocol_version sample_CompareVersion
      sample_mozc_version sample_client (command_of_type NOOP) 1000 1000
      (Some client_old_protocol_server)
    = (evs, Returned (true, c')) /\
    count_events is_TerminateServer evs = 1%nat /\
    RendererClient.version_mismatch_nums_ c' = 1 /\
    RendererLauncher.pending_command_ (RendererClient.renderer_launcher_ c')
    = None /\
    RendererLauncher.pending_command_ (RendererClient.renderer_launcher_ c')
    <> Some (command_of_type NOOP).
Proof.
  do 2 eexists. split; [vm_compute; reflexivity|].
  cbn. repeat split. discriminate.
Qed.

(** C6 (as amended).  In status [RENDERER_UNKNOWN], [ExecCommand] of an
    [UPDATE] with [visible = false] and no output, answered by a client
    that is not connected and whose last error is not
    [IPC_TIMEOUT_ERROR], returns [true], starts no launch, sends nothing,
    and leaves the status, the worker and the slot as they were (the slot
    stays empty if it was). *)
Theorem hide_discarded_when_not_connected
        (IPC_PROTOCOL_VERSION : Z)
        (CompareVersion : string -> string -> bool)
        (GetMozcVersion : string)
        (c : RendererClient.t) (command : RendererCommand) (now1 now2 : Z)
        (cl : IPCClientInterface) :
  RendererClient.renderer_launcher_interface_ c = true ->
  RendererClient.ipc_client_factory_interface_ c = true ->
  RendererClient.status c = RendererLauncher.RENDERER_UNKNOWN ->
  type command = UPDATE ->
  visible command = false ->
  has_output command = false ->
  Connected cl = false ->
  GetLastIPCError cl <> IPC_TIMEOUT_ERROR ->
  exists (evs : list event) (c' : RendererClient.t),
    RendererClient.ExecCommand IPC_PROTOCOL_VERSION CompareVersion
      GetMozcVersion c command now1 now2 (Some cl)
    = (evs, Returned (true, c')) /\
    count_events is_ThreadStart evs = 0%nat /\
    count_events is_Call evs = 0%nat /\
    RendererClient.status c' = RendererLauncher.RENDERER_UNKNOWN /\
    RendererLauncher.IsRunning (RendererClient.renderer_launcher_ c')
    = RendererLauncher.IsRunning (RendererClient.renderer_launcher_ c) /\
    RendererLauncher.pending_command_ (RendererClient.renderer_launcher_ c')
    = RendererLauncher.pending_command_ (RendererClient.renderer_launcher_ c).
Proof.
  intros Hl Hf Hs Hty Hvis Hout Hconn Herr.
  assert (Ht : is_IPC_TIMEOUT_ERROR (GetLastIPCError cl) = false)
    by (destruct (GetLastIPCError cl); try reflexivity; congruence).
  unfold RendererClient.status in *.
  unfold RendererClient.ExecCommand, RendererClient.CreateIPCClient,
    RendererLauncher.CanConnect, is_UPDATE.
  rewrite Hl, Hf, Hs. cbn [negb andb].
  destruct (RendererClient.kMaxVersionMismatchNums
            <=? RendererClient.version_mismatch_nums_ c).
  - do 2 eexists. split; [reflexivity|]. repeat split; auto.
  - rewrite Hf. cbn [negb].
    destruct (RendererClient.disable_renderer_path_check_ c);
      rewrite Ht, Hconn, Hty, Hvis; cbn;
      do 2 eexists; (split; [reflexivity|]); cbn; repeat split; auto.
Qed.

Lemma hide_discarded_when_not_connected_witness :
  exists (evs : list event) (c' : RendererClient.t),
    RendererClient.ExecCommand sample_protocol_version sample_CompareVersion
      sample_mozc_version sample_client hide_command 1000 1000
      (Some client_no_server)
    = (evs, Returned (true, c')) /\
    count_events is_ThreadStart evs = 0%nat /\
    count_events is_Call evs = 0%nat /\
    RendererClient.status c' = RendererLauncher.RENDERER_UNKNOWN /\
    RendererLauncher.IsRunning (RendererClient.renderer_launcher_ c')
    = RendererLauncher.IsRunning
        (RendererClient.renderer_launcher_ sample_client) /\
    RendererLauncher.pending_command_ (RendererClient.renderer_launcher_ c')
    = RendererLauncher.pending_command_
        (RendererClient.renderer_launcher_ sample_client).
Proof.
  apply (hide_discarded_when_not_connected sample_protocol_version
           sample_CompareVersion sample_mozc_version sample_client
           hide_command 1000 1000 client_no_server);
    try reflexivity; discriminate.
Defined.

(** C6 as stated fails for a client whose connection attempt timed out:
    it reports not connected, the status is [RENDERER_UNKNOWN], the command
    is a hiding [UPDATE], and [ExecCommand] returns [false]. *)
Lemma hide_with_timed_out_client_fails :
  RendererClient.status sample_client = RendererLauncher.RENDERER_UNKNOWN /\
  Connected client_timed_out = false /\
  type hide_command = UPDATE /\ visible hide_command = false /\
  has_output hide_command = false /\
  RendererClient.ExecCommand sample_protocol_version sample_CompareVersion
    sample_mozc_version sample_client hide_command 1000 1000
    (Some client_timed_out)
  = ([NewClient "renderer" "/usr/lib/mozc/mozc_renderer"],
     Returned (false, sample_client)).
Proof. repeat split. Qed.

(** C10, evaluated where the code departs from it.  When [NewClient]
    returns a null pointer, [ExecCommand] on a fresh client creates the
    client and calls [GetLastIPCError] through the null pointer; no value
    is returned. *)
Theorem exec_command_dereferences_null_client :
  RendererClient.renderer_launcher_interface_ sample_client = true /\
  RendererClient.ipc_client_factory_interface_ sample_client = true /\
  RendererLauncher.CanConnect
    (RendererClient.renderer_launcher_ sample_client) 1000 = true /\
  RendererClient.version_mismatch_nums_ sample_client
  < RendererClient.kMaxVersionMismatchNums /\
  RendererClient.ExecCommand sample_protocol_version sample_CompareVersion
    sample_mozc_version sample_client show_command 1000 1000 None
  = ([NewClient "renderer" "/usr/lib/mozc/mozc_renderer"], NullDereference).
Proof. repeat split. Qed.

(* ================================================================= *)
(** * Further properties of the token iterator *)

Section IteratorArithmetic.
Import UserPos.

Lemma pow2_64_eq : 2 ^ 64 = 18446744073709551616.
Proof. reflexivity. Qed.

Lemma byte_offset_nonneg (n : Z) :
  0 <= n -> 8 * n < 2 ^ 64 -> byte_offset n = 8 * n.
Proof.
  intros Hn Hb. unfold byte_offset, kTokenByteLength.
  rewrite (to_size_t_small n) by lia.
  rewrite to_size_t_small by lia. lia.
Qed.

Lemma over_aligned (v : string_view) (x : iterator) :
  over v x -> exists k, 0 <= k /\ ptr_ x = data v + 8 * k /\ 8 * k <= size v.
Proof.
  unfold over, kTokenByteLength. intros [[H1 H2] Hm].
  exists ((ptr_ x - data v) / 8).
  pose proof (Z.div_mod (ptr_ x - data v) 8 ltac:(lia)) as Hd.
  rewrite Hm in Hd.
  assert (0 <= (ptr_ x - data v) / 8) by (apply Z.div_pos; lia).
  repeat split; lia.
Qed.

(** X1.  Moving an iterator forward by [n >= 0] records inside the array:
    the pointer advances by [8 * n] bytes, the result is again an iterator
    over the array, the three spellings [x + n], [n + x] and [x += n]
    agree, the distance back is [n], and [- n] undoes [+ n]. *)
Theorem iterator_forward_arithmetic
        (v : string_view) (x : iterator) (n : Z) :
  view_ok v -> over v x -> 0 <= n ->
  ptr_ x + kTokenByteLength * n <= data v + size v ->
  ptr_ (plus x n) = ptr_ x + kTokenByteLength * n /\
  over v (plus x n) /\
  plus_l n x = plus x n /\ add_assign x n = plus x n /\
  diff (plus x n) x = n /\
  minus (plus x n) n = x /\ sub_assign (add_assign x n) n = x.
Proof.
  intros Hv Hx Hn Hin.
  destruct (plus_forward v x n Hv Hx Hn Hin) as (Hp & _ & Hd).
  pose proof Hv as (H0 & H1 & H2).
  pose proof Hx as [[Hx1 Hx2] Hxm].
  unfold kTokenByteLength in *.
  assert (Hback : minus (plus x n) n = x).
  { destruct x as [p]. cbn [ptr_] in *.
    unfold minus, ptr_sub. rewrite Hp. cbn [ptr_].
    rewrite byte_offset_nonneg by lia.
    replace (p + 8 * n - 8 * n) with p by lia.
    now rewrite to_size_t_small by lia. }
  repeat split; auto.
  - rewrite Hp. lia.
  - rewrite Hp. unfold over in Hx. lia.
  - rewrite Hp. unfold kTokenByteLength.
    replace (ptr_ x + 8 * n - data v) with (ptr_ x - data v + n * 8) by lia.
    now rewrite Z.mod_add by lia.
Qed.

Lemma iterator_forward_arithmetic_witness :
  ptr_ (plus (begin_ sample_tokens) 2) = 4096 + 8 * 2 /\
  diff (plus (begin_ sample_tokens) 2) (begin_ sample_tokens) = 2.
Proof.
  assert (Hv : view_ok sample_tokens)
    by (unfold view_ok; vm_compute; repeat split; discriminate).
  assert (Hx : over sample_tokens (begin_ sample_tokens))
    by (unfold over; vm_compute; repeat split; discriminate).
  destruct (iterator_forward_arithmetic sample_tokens (begin_ sample_tokens) 2
              Hv Hx ltac:(lia) ltac:(vm_compute; discriminate))
    as (H1 & _ & _ & _ & H5 & _).
  split; [exact H1 | exact H5].
Defined.

(** X2.  For every pointer value, [++] and [--] are inverse to each other
    in both orders, the postfix forms return the old iterator and leave
    the same new one as the prefix forms, and [++x] is [x + 1], [--x] is
    [x - 1]. *)
Theorem iterator_increment_decrement (x : iterator) :
  0 <= ptr_ x < 2 ^ 64 ->
  pre_decr (pre_incr x) = x /\ pre_incr (pre_decr x) = x /\
  post_incr x = (x, pre_incr x) /\ post_decr x = (x, pre_decr x) /\
  pre_incr x = plus x 1 /\ pre_decr x = minus x 1.
Proof.
  intros Hx. destruct x as [p]. cbn [ptr_] in Hx.
  pose proof pow2_64_eq as Hb.
  assert (H8 : byte_offset 1 = 8) by reflexivity.
  unfold pre_decr, pre_incr, post_incr, post_decr, plus, minus, ptr_sub,
    ptr_add, to_size_t, kTokenByteLength. cbn [ptr_]. rewrite H8.
  repeat split.
  - rewrite Zminus_mod_idemp_l. replace (p + 8 - 8) with p by lia.
    now rewrite Z.mod_small.
  - rewrite Zplus_mod_idemp_l. replace (p - 8 + 8) with p by lia.
    now rewrite Z.mod_small.
Qed.

Lemma iterator_increment_decrement_witness :
  pre_decr (pre_incr (begin_ sample_tokens)) = begin_ sample_tokens /\
  pre_incr (begin_ sample_tokens) = plus (begin_ sample_tokens) 1.
Proof.
  destruct (iterator_increment_decrement (begin_ sample_tokens))
    as (H1 & _ & _ & _ & H5 & _).
  - vm_compute. split; [discriminate | reflexivity].
  - split; [exact H1 | exact H5].
Defined.

(** X3.  For two iterators over the same array with [y] not after [x],
    [x - y] is the non-negative number of records between them, and
    [y + (x - y)] is [x] again. *)
Theorem iterator_forward_distance (v : string_view) (x y : iterator) :
  view_ok v -> over v x -> over v y -> ptr_ y <= ptr_ x ->
  0 <= diff x y /\
  ptr_ x = ptr_ y + kTokenByteLength * diff x y /\
  plus y (diff x y) = x /\
  iter_le y x = true /\ iter_ge x y = true /\ iter_lt x y = false.
Proof.
  intros Hv Hx Hy Hle.
  destruct (over_aligned v x Hx) as (kx & Hkx0 & Hkx & Hkxs).
  destruct (over_aligned v y Hy) as (ky & Hky0 & Hky & Hkys).
  pose proof Hv as (H0 & H1 & H2).
  assert (Hd : diff (plus y (kx - ky)) y = kx - ky /\
               ptr_ (plus y (kx - ky)) = ptr_ y + 8 * (kx - ky)).
  { destruct (plus_forward v y (kx - ky) Hv Hy) as (Hp & _ & Hd);
      unfold kTokenByteLength in *; lia. }
  destruct Hd as [Hd Hp].
  assert (Hxy : plus y (kx - ky) = x).
  { destruct x as [px]. cbn [ptr_] in *.
    destruct (plus y (kx - ky)) as [q]. cbn [ptr_] in Hp. f_equal. lia. }
  rewrite Hxy in Hd. rewrite Hd. unfold kTokenByteLength.
  unfold iter_le, iter_ge, iter_lt.
  repeat split; try lia; auto;
    try (apply Z.leb_le; lia); try (apply Z.ltb_ge; lia).
Qed.

Lemma iterator_forward_distance_witness :
  plus (begin_ sample_tokens)
       (diff (end_ sample_tokens) (begin_ sample_tokens))
  = end_ sample_tokens.
Proof.
  assert (Hv : view_ok sample_tokens)
    by (unfold view_ok; vm_compute; repeat split; discriminate).
  assert (Hx : over sample_tokens (end_ sample_tokens))
    by (unfold over; vm_compute; repeat split; discriminate).
  assert (Hy : over sample_tokens (begin_ sample_tokens))
    by (unfold over; vm_compute; repeat split; discriminate).
  apply (iterator_forward_distance sample_tokens (end_ sample_tokens)
           (begin_ sample_tokens) Hv Hx Hy).
  vm_compute. discriminate.
Defined.

(** X4.  When [y] is after [x] in the same array, [x - y] is not the
    negative record count but [2^61] minus the number of records between
    them, a positive number: the byte difference is divided as an unsigned
    value. *)
Theorem iterator_backward_distance (v : string_view) (x y : iterator) :
  view_ok v -> over v x -> over v y -> ptr_ x < ptr_ y ->
  diff x y = 2 ^ 61 - (ptr_ y - ptr_ x) / kTokenByteLength /\
  0 < diff x y.
Proof.
  intros Hv Hx Hy Hlt.
  destruct (over_aligned v x Hx) as (kx & Hkx0 & Hkx & Hkxs).
  destruct (over_aligned v y Hy) as (ky & Hky0 & Hky & Hkys).
  pose proof Hv as (H0 & H1 & H2).
  assert (Hb : 2 ^ 64 = 8 * 2 ^ 61) by reflexivity.
  assert (Hb3 : 2 ^ 63 = 4 * 2 ^ 61) by reflexivity.
  assert (H61 : 0 < 2 ^ 61) by reflexivity.
  unfold diff, kTokenByteLength.
  replace (ptr_ x - ptr_ y) with (8 * (kx - ky)) by lia.
  replace (ptr_ y - ptr_ x) with ((ky - kx) * 8) by lia.
  rewrite Z.div_mul by lia.
  rewrite (to_ptrdiff_t_small (8 * (kx - ky))) by lia.
  unfold to_size_t.
  rewrite <- (Z.mod_add (8 * (kx - ky)) 1 (2 ^ 64)) by lia.
  rewrite Z.mod_small by lia.
  replace (8 * (kx - ky) + 1 * 2 ^ 64) with ((2 ^ 61 - (ky - kx)) * 8) by lia.
  rewrite Z.div_mul by lia.
  rewrite to_ptrdiff_t_small by lia. lia.
Qed.

Lemma iterator_backward_distance_witness :
  diff (begin_ sample_tokens) (end_ sample_tokens) = 2 ^ 61 - 16 / 8.
Proof.
  assert (Hv : view_ok sample_tokens)
    by (unfold view_ok; vm_compute; repeat split; discriminate).
  assert (Hx : over sample_tokens (end_ sample_tokens))
    by (unfold over; vm_compute; repeat split; discriminate).
  assert (Hy : over sample_tokens (begin_ sample_tokens))
    by (unfold over; vm_compute; repeat split; discriminate).
  apply (iterator_backward_distance sample_tokens (begin_ sample_tokens)
           (end_ sample_tokens) Hv Hy Hx).
  vm_compute. reflexivity.
Defined.

(** X5.  [begin()] and [end()] of an array of whole records: both are
    iterators over it, [end() - begin()] is the record count, [begin()]
    plus the record count is [end()], and they are equal exactly when the
    array is empty. *)
Theorem begin_end_range (v : string_view) :
  view_ok v -> size v mod kTokenByteLength = 0 ->
  over v (begin_ v) /\ over v (end_ v) /\
  diff (end_ v) (begin_ v) = size v / kTokenByteLength /\
  plus (begin_ v) (size v / kTokenByteLength) = end_ v /\
  iter_eq (begin_ v) (end_ v) = (size v =? 0) /\
  iter_ne (begin_ v) (end_ v) = negb (size v =? 0) /\
  iter_le (begin_ v) (end_ v) = true.
Proof.
  intros Hv Hm. pose proof Hv as (H0 & H1 & H2).
  pose proof pow2_64_eq as Hb.
  assert (Hs : 0 <= size v) by (unfold size; lia).
  assert (He : ptr_ (end_ v) = data v + size v).
  { unfold end_, ptr_add. cbn [ptr_]. apply to_size_t_small. lia. }
  assert (Hob : over v (begin_ v)).
  { unfold over, begin_. cbn [ptr_]. rewrite Z.sub_diag. split; [lia|].
    reflexivity. }
  assert (Hoe : over v (end_ v)).
  { unfold over. rewrite He. split; [lia|].
    now replace (data v + size v - data v) with (size v) by lia. }
  assert (Hq : 0 <= size v / kTokenByteLength /\
               kTokenByteLength * (size v / kTokenByteLength) = size v).
  { unfold kTokenByteLength in *.
    pose proof (Z.div_mod (size v) 8 ltac:(lia)) as Hd. rewrite Hm in Hd.
    split; [apply Z.div_pos; lia | lia]. }
  assert (Hplus : plus (begin_ v) (size v / kTokenByteLength) = end_ v).
  { destruct (plus_forward v (begin_ v) (size v / kTokenByteLength) Hv Hob)
      as (Hp & _); [apply Hq | cbn [begin_ ptr_]; lia |].
    destruct (plus (begin_ v) (size v / kTokenByteLength)) as [q].
    destruct (end_ v) as [e]. cbn [ptr_ begin_] in *. f_equal. lia. }
  assert (Hle : iter_le (begin_ v) (end_ v) = true).
  { unfold iter_le. rewrite He. cbn [begin_ ptr_]. apply Z.leb_le. lia. }
  rewrite diff_end_begin by assumption.
  unfold iter_eq, iter_ne. rewrite He. cbn [begin_ ptr_].
  assert (Heq : (data v =? data v + size v) = (size v =? 0)).
  { destruct (Z.eqb_spec (size v) 0) as [E|E].
    - apply Z.eqb_eq. lia.
    - apply Z.eqb_neq. lia. }
  rewrite Heq.
  split; [exact Hob|]. split; [exact Hoe|]. repeat split; auto.
Qed.

Lemma begin_end_range_witness :
  diff (end_ sample_tokens) (begin_ sample_tokens)
  = size sample_tokens / kTokenByteLength /\
  iter_eq (begin_ sample_tokens) (end_ sample_tokens)
  = (size sample_tokens =? 0).
Proof.
  destruct (begin_end_range sample_tokens) as (_ & _ & H3 & _ & H5 & _).
  - unfold view_ok; vm_compute; repeat split; discriminate.
  - reflexivity.
  - split; [exact H3 | exact H5].
Defined.

(** X6.  The comparison operators on [begin() + i] and [begin() + j]
    decide the order of the indices [i] and [j]. *)
Theorem iterator_comparisons_follow_index (v : string_view) (i j : Z) :
  view_ok v ->
  0 <= i -> kTokenByteLength * i <= size v ->
  0 <= j -> kTokenByteLength * j <= size v ->
  let x := plus (begin_ v) i in
  let y := plus (begin_ v) j in
  iter_eq x y = (i =? j) /\ iter_ne x y = negb (i =? j) /\
  iter_lt x y = (i <? j) /\ iter_le x y = (i <=? j) /\
  iter_gt x y = (j <? i) /\ iter_ge x y = (j <=? i).
Proof.
  intros Hv Hi Hib Hj Hjb x y.
  assert (Hob : over v (begin_ v)).
  { unfold over, begin_. cbn [ptr_]. rewrite Z.sub_diag.
    destruct Hv as (H0 & H1 & H2). unfold size in *. split; [lia|].
    reflexivity. }
  destruct (plus_forward v (begin_ v) i Hv Hob Hi) as (Hx & _);
    [cbn [begin_ ptr_]; lia|].
  destruct (plus_forward v (begin_ v) j Hv Hob Hj) as (Hy & _);
    [cbn [begin_ ptr_]; lia|].
  unfold iter_eq, iter_ne, iter_lt, iter_le, iter_gt, iter_ge.
  subst x y. rewrite Hx, Hy. unfold kTokenByteLength. cbn [begin_ ptr_].
  repeat split.
  - destruct (Z.eqb_spec i j); [apply Z.eqb_eq | apply Z.eqb_neq]; lia.
  - f_equal.
    destruct (Z.eqb_spec i j); [apply Z.eqb_eq | apply Z.eqb_neq]; lia.
  - destruct (Z.ltb_spec i j); [apply Z.ltb_lt | apply Z.ltb_ge]; lia.
  - destruct (Z.leb_spec i j); [apply Z.leb_le | apply Z.leb_gt]; lia.
  - destruct (Z.ltb_spec j i); [apply Z.ltb_lt | apply Z.ltb_ge]; lia.
  - destruct (Z.leb_spec j i); [apply Z.leb_le | apply Z.leb_gt]; lia.
Qed.

Lemma iterator_comparisons_follow_index_witness :
  iter_lt (plus (begin_ sample_tokens) 0) (plus (begin_ sample_tokens) 1)
  = (0 <? 1).
Proof.
  destruct (iterator_comparisons_follow_index sample_tokens 0 1)
    as (_ & _ & H & _); try (vm_compute; discriminate).
  - unfold view_ok; vm_compute; repeat split; discriminate.
  - exact H.
Defined.

End IteratorArithmetic.

(* ================================================================= *)
(** * Further properties of the attribute bits *)

Section AttributeAlgebra.
Import UserPos.

Lemma testbit_to_uint16_t (z k : Z) :
  0 <= k -> Z.testbit (to_uint16_t z) k = (k <? 16) && Z.testbit z k.
Proof.
  intros Hk. unfold to_uint16_t.
  destruct (Z.ltb_spec k 16) as [Hlt|Hge]; cbn [andb].
  - apply Z.mod_pow2_bits_low. lia.
  - apply Z.mod_pow2_bits_high. lia.
Qed.

Lemma testbit_attributes_add (t : Token) (a : Attribute) (k : Z) :
  0 <= k ->
  Z.testbit (attributes (add_attribute t a)) k
  = (k <? 16) && (Z.testbit (attributes t) k || (Attribute_bit a =? k)).
Proof.
  intros Hk. unfold add_attribute, set_attributes. cbn [attributes].
  pose proof (Attribute_bit_range a).
  rewrite testbit_to_uint16_t, Z.lor_spec, Attribute_value_pow2 by lia.
  now rewrite Z.pow2_bits_eqb by lia.
Qed.

Lemma testbit_attributes_remove (t : Token) (a : Attribute) (k : Z) :
  0 <= k ->
  Z.testbit (attributes (remove_attribute t a)) k
  = (k <? 16) && (Z.testbit (attributes t) k && negb (Attribute_bit a =? k)).
Proof.
  intros Hk. unfold remove_attribute, set_attributes. cbn [attributes].
  pose proof (Attribute_bit_range a).
  rewrite testbit_to_uint16_t, Z.land_spec, Z.lnot_spec by lia.
  rewrite Attribute_value_pow2. now rewrite Z.pow2_bits_eqb by lia.
Qed.

Lemma Token_ext (t u : Token) :
  key t = key u -> value t = value u -> id t = id u ->
  comment t = comment u ->
  (forall k, 0 <= k ->
             Z.testbit (attributes t) k = Z.testbit (attributes u) k) ->
  t = u.
Proof.
  destruct t, u. cbn. intros -> -> -> -> Hb. f_equal.
  now apply Z.bits_inj'.
Qed.

(** X7.  Adding and removing flags: each is idempotent, removing after
    adding the same flag is removing, adding after removing is adding, two
    additions or two removals commute, the other fields of the token are
    untouched, and the stored value always fits the 16-bit field. *)
Theorem token_attribute_algebra (t : Token) (a b : Attribute) :
  add_attribute (add_attribute t a) a = add_attribute t a /\
  remove_attribute (remove_attribute t a) a = remove_attribute t a /\
  remove_attribute (add_attribute t a) a = remove_attribute t a /\
  add_attribute (remove_attribute t a) a = add_attribute t a /\
  add_attribute (add_attribute t a) b = add_attribute (add_attribute t b) a /\
  remove_attribute (remove_attribute t a) b
  = remove_attribute (remove_attribute t b) a /\
  (key (add_attribute t a), value (add_attribute t a), id (add_attribute t a),
   comment (add_attribute t a)) = (key t, value t, id t, comment t) /\
  (key (remove_attribute t a), value (remove_attribute t a),
   id (remove_attribute t a), comment (remove_attribute t a))
  = (key t, value t, id t, comment t) /\
  is_u16 (attributes (add_attribute t a)) /\
  is_u16 (attributes (remove_attribute t a)).
Proof.
  assert (Hr : forall z, is_u16 (to_uint16_t z)).
  { intros z. unfold is_u16, to_uint16_t. apply Z.mod_pos_bound. reflexivity. }
  do 6 (split; [attribute_bits Token_ext testbit_attributes_add
                       testbit_attributes_remove|]).
  do 2 (split; [reflexivity|]).
  split; apply Hr.
Qed.

(** X8.  On a token whose attributes are a 16-bit value, as the field
    always is, the truncation to [uint16_t] changes nothing:
    [add_attribute] stores the bitwise or, [remove_attribute] the bitwise
    and with the complement; and [remove_attribute] gives the token back
    after [add_attribute] of a flag it did not have. *)
Theorem token_attribute_exact (t : Token) (a : Attribute) :
  is_u16 (attributes t) ->
  attributes (add_attribute t a)
  = Z.lor (attributes t) (Attribute_value a) /\
  attributes (remove_attribute t a)
  = Z.land (attributes t) (Z.lnot (Attribute_value a)) /\
  (has_attribute t a = false ->
   remove_attribute (add_attribute t a) a = t) /\
  (has_attribute t a = true ->
   add_attribute (remove_attribute t a) a = t).
Proof.
  intros [H0 H1].
  assert (Hhigh : forall k, 16 <= k -> Z.testbit (attributes t) k = false).
  { intros k Hk. destruct (Z.eq_dec (attributes t) 0) as [->|Hne].
    - apply Z.bits_0.
    - apply Z.bits_above_log2; [lia|].
      assert (Z.log2 (attributes t) < 16)
        by (apply Z.log2_lt_pow2; lia). lia. }
  pose proof (Attribute_bit_range a) as Ha.
  split; [|split; [|split]].
  - apply Z.bits_inj'. intros k Hk. rewrite testbit_attributes_add by lia.
    rewrite Z.lor_spec, Attribute_value_pow2, Z.pow2_bits_eqb by lia.
    destruct (Z.ltb_spec k 16) as [Hlt|Hge]; cbn [andb]; [reflexivity|].
    rewrite Hhigh by lia.
    symmetry. apply orb_false_iff. split; [reflexivity|].
    apply Z.eqb_neq. lia.
  - apply Z.bits_inj'. intros k Hk. rewrite testbit_attributes_remove by lia.
    rewrite Z.land_spec, Z.lnot_spec, Attribute_value_pow2,
      Z.pow2_bits_eqb by lia.
    destruct (Z.ltb_spec k 16) as [Hlt|Hge]; cbn [andb]; [reflexivity|].
    now rewrite Hhigh by lia.
  - rewrite has_attribute_testbit. intros Hno.
    apply Token_ext; try reflexivity. intros k Hk.
    rewrite testbit_attributes_remove, testbit_attributes_add by lia.
    destruct (Z.ltb_spec k 16) as [Hlt|Hge]; cbn [andb].
    + destruct (Z.eqb_spec (Attribute_bit a) k) as [E|Hne]; cbn.
      * rewrite E in Hno. now rewrite Hno.
      * now rewrite orb_false_r, andb_true_r.
    + now rewrite Hhigh by lia.
  - rewrite has_attribute_testbit. intros Hyes.
    apply Token_ext; try reflexivity. intros k Hk.
    rewrite testbit_attributes_add, testbit_attributes_remove by lia.
    destruct (Z.ltb_spec k 16) as [Hlt|Hge]; cbn [andb].
    + destruct (Z.eqb_spec (Attribute_bit a) k) as [E|Hne]; cbn.
      * rewrite E in Hyes. now rewrite Hyes, orb_true_r.
      * now rewrite orb_false_r, andb_true_r.
    + now rewrite Hhigh by lia.
Qed.

Lemma token_attribute_exact_witness :
  attributes (add_attribute sample_token NON_JA_LOCALE) = Z.lor 6 8 /\
  remove_attribute (add_attribute sample_token NON_JA_LOCALE) NON_JA_LOCALE
  = sample_token.
Proof.
  destruct (token_attribute_exact sample_token NON_JA_LOCALE)
    as (H1 & _ & H3 & _).
  - vm_compute. split; [discriminate | reflexivity].
  - split; [exact H1 | apply H3; reflexivity].
Defined.

End AttributeAlgebra.

(* ================================================================= *)
(** * Further properties of the launch worker *)

Section WorkerFacts.
Import RendererLauncher.

Lemma count_events_app (p : event -> bool) (evs1 evs2 : list event) :
  count_events p (evs1 ++ evs2)
  = (count_events p evs1 + count_events p evs2)%nat.
Proof. unfold count_events. now rewrite filter_app, length_app. Qed.

(** The worker from start to end, by cases. *)
Lemma Run_cases (l : t) (now : Z) (spawn_ok listener_is_available : bool)
      (ret : WaitResult) (answer : option IPCClientInterface) :
  let l1 := set_last_launch_time l now in
  let failed s :=
    set_IsRunning
      (set_error_times (set_renderer_status l1 s)
                       (size_t_succ (error_times_ l))) false in
  let ready :=
    set_IsRunning
      (set_error_times
         (set_renderer_status (set_pending_command l1 None) RENDERER_READY) 0)
      false in
  let wait := WaitEventOrProcess kRendererWaitTimeout in
  let client_events :=
    match ipc_client_factory_interface_ l, pending_command_ l with
    | true, Some _ =>
        [NewClient (name_ l)
                   (if disable_renderer_path_check_ l then EmptyString
                    else path_ l)]
    | _, _ => []
    end in
  let flush first :=
    match ipc_client_factory_interface_ l, pending_command_ l, answer with
    | true, Some _, None =>
        (SpawnProcess (path_ l) :: first :: client_events, NullDereference)
    | _, _, _ =>
        (SpawnProcess (path_ l) :: first :: client_events, Returned ready)
    end in
  Run l now spawn_ok listener_is_available ret answer
  = if negb spawn_ok
    then ([SpawnProcess (path_ l)],
          Returned
            (set_IsRunning (set_renderer_status l1 RENDERER_FATAL) false))
    else if listener_is_available then
      match ret with
      | TIMEOUT =>
          ([SpawnProcess (path_ l); wait], Returned (failed RENDERER_TIMEOUT))
      | EVENT_SIGNALED => flush wait
      | PROCESS_SIGNALED =>
          ([SpawnProcess (path_ l); wait],
           Returned (failed RENDERER_TERMINATED))
      | OTHER =>
          (SpawnProcess (path_ l) :: wait ::
             OnFatal l RENDERER_FATAL_ERROR,
           Returned (failed RENDERER_FATAL))
      end
    else flush (SleepFor kRendererWaitSleepTime).
Proof.
  cbv zeta. unfold Run, FlushPendingCommand, CreateIPCClient, CallCommand,
    OnFatal.
  destruct spawn_ok; [|reflexivity].
  destruct listener_is_available; [destruct ret|]; cbn;
    try reflexivity;
    destruct (ipc_client_factory_interface_ l);
    destruct (pending_command_ l); destruct answer;
    try destruct (disable_renderer_path_check_ l); cbn; reflexivity.
Qed.

(** X9.  When the worker returns, it has recorded the clock as the last
    launch time and is no longer running; it has sent nothing and started
    no thread.  The status is [RENDERER_READY] exactly when the process
    was spawned and either the event was signaled or no listener was
    available, and then the error count is 0 and the slot empty; it is
    [RENDERER_TIMEOUT] or [RENDERER_TERMINATED] exactly on these wait
    results, with one more error; and on every outcome other than ready
    the pending command is kept. *)
Theorem worker_outcome
        (l : t) (now : Z) (spawn_ok listener_is_available : bool)
        (ret : WaitResult) (answer : option IPCClientInterface)
        (evs : list event) (l' : t) :
  Run l now spawn_ok listener_is_available ret answer = (evs, Returned l') ->
  last_launch_time_ l' = now /\ IsRunning l' = false /\
  count_events is_Call evs = 0%nat /\
  count_events is_ThreadStart evs = 0%nat /\
  (renderer_status_ l' = RENDERER_READY <->
   spawn_ok = true /\
   (listener_is_available = false \/ ret = EVENT_SIGNALED)) /\
  (renderer_status_ l' = RENDERER_READY ->
   error_times_ l' = 0 /\ pending_command_ l' = None) /\
  (renderer_status_ l' = RENDERER_TIMEOUT <->
   spawn_ok = true /\ listener_is_available = true /\ ret = TIMEOUT) /\
  (renderer_status_ l' = RENDERER_TERMINATED <->
   spawn_ok = true /\ listener_is_available = true /\
   ret = PROCESS_SIGNALED) /\
  (throttled (renderer_status_ l') = true ->
   error_times_ l' = size_t_succ (error_times_ l)) /\
  (renderer_status_ l' <> RENDERER_READY ->
   pending_command_ l' = pending_command_ l) /\
  renderer_status_ l' <> RENDERER_UNKNOWN /\
  renderer_status_ l' <> RENDERER_LAUNCHING.
Proof.
  intros H. destruct spawn_ok, listener_is_available, ret;
    run_cases H Run_cases; cbn.
  all: repeat match goal with
              | |- _ /\ _ => split
              | |- _ <-> _ => split
              | |- _ -> _ => intro
              end.
  all: try reflexivity; try discriminate; try congruence; auto.
  all: try (match goal with
            | H : _ /\ _ |- _ => decompose [and or] H; discriminate
            end).
Qed.

Lemma worker_outcome_witness :
  renderer_status_
    (set_IsRunning
       (set_error_times
          (set_renderer_status
             (set_last_launch_time launcher_after_timeout 2000)
             RENDERER_TIMEOUT)
          (size_t_succ (error_times_ launcher_after_timeout)))
       false)
  = RENDERER_TIMEOUT <->
  true = true /\ true = true /\ TIMEOUT = TIMEOUT.
Proof.
  apply (worker_outcome launcher_after_timeout 2000 true true TIMEOUT None
           [SpawnProcess EmptyString; WaitEventOrProcess kRendererWaitTimeout]).
  reflexivity.
Defined.

(** X10.  The two ways into [RENDERER_FATAL] differ.  When the process
    cannot be spawned the worker stops at once: the error count is kept
    and no error dialog is launched, whatever the suppression flag.  On an
    unknown wait result the error count goes up by one and the error
    dialog for "renderer_fatal" is launched exactly when it is not
    suppressed. *)
Theorem worker_fatal_paths
        (l : t) (now : Z) (spawn_ok listener_is_available : bool)
        (ret : WaitResult) (answer : option IPCClientInterface)
        (evs : list event) (l' : t) :
  Run l now spawn_ok listener_is_available ret answer = (evs, Returned l') ->
  renderer_status_ l' = RENDERER_FATAL ->
  (spawn_ok = false /\ evs = [SpawnProcess (path_ l)] /\
   error_times_ l' = error_times_ l) \/
  (spawn_ok = true /\ listener_is_available = true /\ ret = OTHER /\
   error_times_ l' = size_t_succ (error_times_ l) /\
   filter is_LaunchErrorMessageDialog evs
   = if suppress_error_dialog_ l then []
     else [LaunchErrorMessageDialog "renderer_fatal"]).
Proof.
  intros H Hs. destruct spawn_ok, listener_is_available, ret;
    run_cases H Run_cases;
    cbn in Hs |- *; try discriminate.
  all: first [ left; repeat split; reflexivity
             | right; repeat split; reflexivity ].
Qed.

Lemma worker_fatal_paths_witness :
  (false = false /\
   [SpawnProcess (path_ launcher_after_timeout)]
   = [SpawnProcess (path_ launcher_after_timeout)] /\
   error_times_
     (set_IsRunning
        (set_renderer_status (set_last_launch_time launcher_after_timeout 2000)
                             RENDERER_FATAL) false)
   = error_times_ launcher_after_timeout) \/
  (false = true /\ true = true /\ TIMEOUT = OTHER /\
   error_times_
     (set_IsRunning
        (set_renderer_status (set_last_launch_time launcher_after_timeout 2000)
                             RENDERER_FATAL) false)
   = size_t_succ (error_times_ launcher_after_timeout) /\
   filter is_LaunchErrorMessageDialog
     [SpawnProcess (path_ launcher_after_timeout)]
   = if suppress_error_dialog_ launcher_after_timeout then []
     else [LaunchErrorMessageDialog "renderer_fatal"]).
Proof.
  apply (worker_fatal_paths launcher_after_timeout 2000 false true TIMEOUT
           None); reflexivity.
Defined.

(** X11.  The worker dereferences a null client exactly when the process
    was spawned, the launch succeeded (event signaled, or no listener), a
    factory is set, a command is pending and the factory hands out a null
    pointer. *)
Theorem worker_null_dereference_iff
        (l : t) (now : Z) (spawn_ok listener_is_available : bool)
        (ret : WaitResult) (answer : option IPCClientInterface) :
  snd (Run l now spawn_ok listener_is_available ret answer) = NullDereference
  <->
  spawn_ok = true /\
  (listener_is_available = false \/ ret = EVENT_SIGNALED) /\
  ipc_client_factory_interface_ l = true /\
  pending_command_ l <> None /\
  answer = None.
Proof.
  rewrite Run_cases. cbv zeta.
  destruct spawn_ok, listener_is_available, ret,
    (ipc_client_factory_interface_ l), (pending_command_ l), answer;
    cbn; split; intros H; try discriminate;
    try (decompose [and or] H; congruence);
    repeat split; auto; discriminate.
Qed.

End WorkerFacts.

(* ================================================================= *)
(** * Further properties of [ExecCommand] *)

Section ExecCommandFacts.
Import RendererClient.
Variable IPC_PROTOCOL_VERSION : Z.
Variable CompareVersion : string -> string -> bool.
Variable GetMozcVersion : string.

Local Abbreviation ExecCommand :=
  (RendererClient.ExecCommand
     IPC_PROTOCOL_VERSION CompareVersion GetMozcVersion).
Local Abbreviation run :=
  (RendererClient.run IPC_PROTOCOL_VERSION CompareVersion GetMozcVersion).

Lemma not_timeout (cl : IPCClientInterface) :
  GetLastIPCError cl <> IPC_TIMEOUT_ERROR ->
  is_IPC_TIMEOUT_ERROR (GetLastIPCError cl) = false.
Proof. destruct (GetLastIPCError cl); try reflexivity; congruence. Qed.

(** X12.  [ExecCommand] returns [false] in three cases only: no launcher,
    no IPC client factory, or a client whose last error is the timeout
    error.  In each of them nothing is sent, no launch is started, no
    server is terminated, and the visibility flag, the mismatch count and
    the launcher's status are left as they were.  Without launcher or
    without factory the call has no effect at all. *)
Theorem exec_command_failure
        (c : t) (command : RendererCommand) (now1 now2 : Z)
        (answer : option IPCClientInterface) :
  (renderer_launcher_interface_ c = false \/
   ipc_client_factory_interface_ c = false ->
   ExecCommand c command now1 now2 answer = ([], Returned (false, c))) /\
  (forall (evs : list event) (c' : t),
      ExecCommand c command now1 now2 answer = (evs, Returned (false, c')) ->
      (renderer_launcher_interface_ c = false \/
       ipc_client_factory_interface_ c = false \/
       exists cl, answer = Some cl /\
                  GetLastIPCError cl = IPC_TIMEOUT_ERROR) /\
      count_events is_Call evs = 0%nat /\
      count_events is_ThreadStart evs = 0%nat /\
      count_events is_TerminateServer evs = 0%nat /\
      is_window_visible_ c' = is_window_visible_ c /\
      version_mismatch_nums_ c' = version_mismatch_nums_ c /\
      status c' = status c).
Proof.
  split.
  - unfold RendererClient.ExecCommand. intros [H|H]; rewrite H; cbn [negb];
      [reflexivity|].
    now destruct (renderer_launcher_interface_ c).
  - intros evs c' H.
    unfold RendererClient.ExecCommand, CreateIPCClient, status in *.
    destruct (renderer_launcher_interface_ c) eqn:Eli; cbn [negb] in H;
      [| injection H as <- <-; repeat split; auto ].
    destruct (ipc_client_factory_interface_ c) eqn:Ef; cbn [negb] in H;
      [| injection H as <- <-; repeat split; auto ].
    destruct command as [ty vis out].
    destruct (RendererLauncher.CanConnect (renderer_launcher_ c) now1) eqn:E1;
      cbn [negb andb] in H.
    all: unfold RendererLauncher.SetPendingCommand,
           RendererLauncher.StartRenderer,
           RendererLauncher.ForceTerminateRenderer,
           RendererLauncher.OnFatal, CallCommand, is_UPDATE,
           has_output in *.
    all: destruct ty; cbn [type visible output] in *.
    all: repeat (break_if_in H; cbn in H; try discriminate).
    all: injection H as <- <-; cbn.
    all: split; [right; right; eexists; split; [reflexivity|];
                 destruct (GetLastIPCError _); try discriminate; reflexivity
                |repeat split].
Qed.

(** X13.  The normal send.  A call that passes both gates and gets a
    connected client without timeout error, with the same protocol version
    and a product version that is not older, creates one client, calls it
    once with the command itself and the 100 ms timeout, and returns
    [true]; it records the command's [visible] flag and leaves the mismatch
    count, the status and the worker alone. *)
Theorem exec_command_sends
        (c : t) (command : RendererCommand) (now1 now2 : Z)
        (cl : IPCClientInterface) :
  renderer_launcher_interface_ c = true ->
  ipc_client_factory_interface_ c = true ->
  (RendererLauncher.CanConnect (renderer_launcher_ c) now1 = true \/
   RendererLauncher.CanConnect (renderer_launcher_ c) now2 = true) ->
  version_mismatch_nums_ c < kMaxVersionMismatchNums ->
  GetLastIPCError cl <> IPC_TIMEOUT_ERROR ->
  Connected cl = true ->
  GetServerProtocolVersion cl = IPC_PROTOCOL_VERSION ->
  CompareVersion (GetServerProductVersion cl) GetMozcVersion = false ->
  exists (evs : list event) (c' : t),
    ExecCommand c command now1 now2 (Some cl) = (evs, Returned (true, c')) /\
    filter is_Call evs = [Call command kIPCTimeout] /\
    count_events is_NewClient evs = 1%nat /\
    count_events is_TerminateServer evs = 0%nat /\
    count_events is_ThreadStart evs = 0%nat /\
    is_window_visible_ c' = visible command /\
    version_mismatch_nums_ c' = version_mismatch_nums_ c /\
    status c' = status c /\
    RendererLauncher.IsRunning (renderer_launcher_ c')
    = RendererLauncher.IsRunning (renderer_launcher_ c).
Proof.
  intros Hl Hf Hc Hv Herr Hconn Hproto Hprod.
  apply not_timeout in Herr.
  past_gates Hl Hf Hc Hv CanConnect_SetPendingCommand.
  all: destruct (disable_renderer_path_check_ c);
    rewrite Herr, Hconn, Hproto, Z.ltb_irrefl, Hprod; cbn [negb];
    do 2 eexists; (split; [reflexivity|]); cbn;
    unfold status; cbn;
    repeat split;
    try (destruct (SetPendingCommand_frame (renderer_launcher_ c) command)
          as (E1' & _ & _ & E4'); congruence).
Qed.

(** X14.  A server with a newer protocol than the client.  Such a call
    sends nothing, terminates nothing and starts nothing; it sets the
    mismatch count to [INT_MAX], launches the error dialog for
    "renderer_version_mismatch" exactly when dialogs are not suppressed,
    and returns [true].  Every later [ExecCommand] is then dropped: it
    returns [true] without any event. *)
Theorem exec_command_newer_server
        (c : t) (command : RendererCommand) (now1 now2 : Z)
        (cl : IPCClientInterface) :
  renderer_launcher_interface_ c = true ->
  ipc_client_factory_interface_ c = true ->
  (RendererLauncher.CanConnect (renderer_launcher_ c) now1 = true \/
   RendererLauncher.CanConnect (renderer_launcher_ c) now2 = true) ->
  version_mismatch_nums_ c < kMaxVersionMismatchNums ->
  GetLastIPCError cl <> IPC_TIMEOUT_ERROR ->
  Connected cl = true ->
  IPC_PROTOCOL_VERSION < GetServerProtocolVersion cl ->
  exists (evs : list event) (c' : t),
    ExecCommand c command now1 now2 (Some cl) = (evs, Returned (true, c')) /\
    version_mismatch_nums_ c' = INT_MAX /\
    count_events is_Call evs = 0%nat /\
    count_events is_TerminateServer evs = 0%nat /\
    count_events is_ThreadStart evs = 0%nat /\
    filter is_LaunchErrorMessageDialog evs
    = (if RendererLauncher.suppress_error_dialog_ (renderer_launcher_ c)
       then []
       else [LaunchErrorMessageDialog "renderer_version_mismatch"]) /\
    status c' = status c /\
    (forall calls : list exec_call,
        exists c'' : t,
          run c' (map exec_op calls)
          = (c'', [], map (fun _ => RetBool true) calls) /\
          version_mismatch_nums_ c'' = INT_MAX).
Proof.
  intros Hl Hf Hc Hv Herr Hconn Hproto.
  apply not_timeout in Herr.
  assert (Hlt : (GetServerProtocolVersion cl <? IPC_PROTOCOL_VERSION) = false)
    by (apply Z.ltb_ge; lia).
  apply Z.ltb_lt in Hproto.
  assert (Hdrop : forall c' : t,
             renderer_launcher_interface_ c' = true ->
             ipc_client_factory_interface_ c' = true ->
             version_mismatch_nums_ c' = INT_MAX ->
             forall calls : list exec_call,
             exists c'' : t,
               run c' (map exec_op calls)
               = (c'', [], map (fun _ => RetBool true) calls) /\
               version_mismatch_nums_ c'' = INT_MAX).
  { intros c' Hl' Hf' Hm calls.
    destruct (run_exec_after_mismatches IPC_PROTOCOL_VERSION CompareVersion
                GetMozcVersion calls c' Hl' Hf') as (c'' & Hr & Hv'').
    - rewrite Hm. unfold kMaxVersionMismatchNums, INT_MAX. lia.
    - exists c''. split; [exact Hr | congruence]. }
  destruct command as [ty vis out].
  destruct (RendererLauncher.suppress_error_dialog_ (renderer_launcher_ c))
    eqn:Es.
  all: past_gates Hl Hf Hc Hv CanConnect_SetPendingCommand.
  all: destruct (disable_renderer_path_check_ c);
    rewrite Herr, Hconn, Hlt, Hproto; cbn [negb];
    unfold RendererLauncher.OnFatal, RendererLauncher.SetPendingCommand,
      status;
    destruct ty; cbn; rewrite ?Es;
    do 2 eexists; (split; [reflexivity|]); cbn;
    (repeat split; try (apply Hdrop; auto)).
Qed.

(** X15.  A server with the same protocol but an older product version.
    The call sends exactly one message, a [SHUTDOWN] command, not the
    command it was given; it adds one to the mismatch count, hands the
    command to [SetPendingCommand] (an [UPDATE] is stored), starts no
    launch itself and returns [true]. *)
Theorem exec_command_older_product
        (c : t) (command : RendererCommand) (now1 now2 : Z)
        (cl : IPCClientInterface) :
  renderer_launcher_interface_ c = true ->
  ipc_client_factory_interface_ c = true ->
  (RendererLauncher.CanConnect (renderer_launcher_ c) now1 = true \/
   RendererLauncher.CanConnect (renderer_launcher_ c) now2 = true) ->
  version_mismatch_nums_ c < kMaxVersionMismatchNums ->
  GetLastIPCError cl <> IPC_TIMEOUT_ERROR ->
  Connected cl = true ->
  GetServerProtocolVersion cl = IPC_PROTOCOL_VERSION ->
  CompareVersion (GetServerProductVersion cl) GetMozcVersion = true ->
  exists (evs : list event) (c' : t),
    ExecCommand c command now1 now2 (Some cl) = (evs, Returned (true, c')) /\
    filter is_Call evs = [Call (command_of_type SHUTDOWN) kIPCTimeout] /\
    count_events is_TerminateServer evs = 0%nat /\
    count_events is_ThreadStart evs = 0%nat /\
    version_mismatch_nums_ c' = version_mismatch_nums_ c + 1 /\
    RendererLauncher.pending_command_ (renderer_launcher_ c')
    = (if is_UPDATE command then Some command
       else RendererLauncher.pending_command_ (renderer_launcher_ c)) /\
    status c' = status c.
Proof.
  intros Hl Hf Hc Hv Herr Hconn Hproto Hprod.
  apply not_timeout in Herr.
  destruct command as [ty vis out].
  past_gates Hl Hf Hc Hv CanConnect_SetPendingCommand.
  all: destruct (disable_renderer_path_check_ c);
    rewrite Herr, Hconn, Hproto, Z.ltb_irrefl, Hprod; cbn [negb];
    unfold RendererLauncher.SetPendingCommand, is_UPDATE, status;
    destruct ty; cbn;
    do 2 eexists; (split; [reflexivity|]); cbn; repeat split.
Qed.

(** X16.  The cold start.  When the client is not connected and the
    command is not an [UPDATE] that hides or carries no output, the call
    hands the command to [SetPendingCommand] (an [UPDATE] is stored),
    starts the worker thread once, sends nothing and returns [true].  The
    launcher is then launching, with the service name, renderer path,
    path check flag and factory of the client, and with its error count
    and last launch time unchanged. *)
Theorem exec_command_starts_launch
        (c : t) (command : RendererCommand) (now1 now2 : Z)
        (cl : IPCClientInterface) :
  renderer_launcher_interface_ c = true ->
  ipc_client_factory_interface_ c = true ->
  (RendererLauncher.CanConnect (renderer_launcher_ c) now1 = true \/
   RendererLauncher.CanConnect (renderer_launcher_ c) now2 = true) ->
  version_mismatch_nums_ c < kMaxVersionMismatchNums ->
  GetLastIPCError cl <> IPC_TIMEOUT_ERROR ->
  Connected cl = false ->
  is_UPDATE command && (negb (visible command) || negb (has_output command))
  = false ->
  exists (evs : list event) (c' : t),
    ExecCommand c command now1 now2 (Some cl) = (evs, Returned (true, c')) /\
    filter is_ThreadStart evs = [ThreadStart "Renderer"] /\
    count_events is_Call evs = 0%nat /\
    count_events is_TerminateServer evs = 0%nat /\
    status c' = RendererLauncher.RENDERER_LAUNCHING /\
    RendererLauncher.IsRunning (renderer_launcher_ c') = true /\
    RendererLauncher.pending_command_ (renderer_launcher_ c')
    = (if is_UPDATE command then Some command
       else RendererLauncher.pending_command_ (renderer_launcher_ c)) /\
    RendererLauncher.name_ (renderer_launcher_ c') = name_ c /\
    RendererLauncher.path_ (renderer_launcher_ c') = renderer_path_ c /\
    RendererLauncher.disable_renderer_path_check_ (renderer_launcher_ c')
    = disable_renderer_path_check_ c /\
    RendererLauncher.ipc_client_factory_interface_ (renderer_launcher_ c')
    = true /\
    RendererLauncher.error_times_ (renderer_launcher_ c')
    = RendererLauncher.error_times_ (renderer_launcher_ c) /\
    RendererLauncher.last_launch_time_ (renderer_launcher_ c')
    = RendererLauncher.last_launch_time_ (renderer_launcher_ c) /\
    is_window_visible_ c' = visible command.
Proof.
  intros Hl Hf Hc Hv Herr Hconn Hhide.
  apply not_timeout in Herr.
  destruct command as [ty vis out].
  unfold is_UPDATE, has_output in *. cbn [type visible output] in *.
  past_gates Hl Hf Hc Hv CanConnect_SetPendingCommand.
  all: destruct (disable_renderer_path_check_ c) eqn:Ed;
    rewrite Herr, Hconn; cbn [negb];
    unfold RendererLauncher.SetPendingCommand, RendererLauncher.StartRenderer,
      is_UPDATE, has_output, status;
    cbn [type visible output set_is_window_visible is_window_visible_];
    rewrite Hhide;
    destruct ty; cbn;
    do 2 eexists; (split; [reflexivity|]); cbn; repeat split; auto.
Qed.

(** X17.  An [UPDATE] that hides, or that carries no output, is discarded
    when the client is not connected: the call returns [true], sends
    nothing, starts no launch and leaves status and worker as they were.
    It still records the command's [visible] flag.  When [CanConnect]
    held at the first check the slot is unchanged as well; when it held
    only at the second, the command had been stored before and stays in
    the slot. *)
Theorem exec_command_discards_hide
        (c : t) (command : RendererCommand) (now1 now2 : Z)
        (cl : IPCClientInterface) :
  renderer_launcher_interface_ c = true ->
  ipc_client_factory_interface_ c = true ->
  (RendererLauncher.CanConnect (renderer_launcher_ c) now1 = true \/
   RendererLauncher.CanConnect (renderer_launcher_ c) now2 = true) ->
  version_mismatch_nums_ c < kMaxVersionMismatchNums ->
  GetLastIPCError cl <> IPC_TIMEOUT_ERROR ->
  Connected cl = false ->
  type command = UPDATE ->
  visible command = false \/ has_output command = false ->
  exists (evs : list event) (c' : t),
    ExecCommand c command now1 now2 (Some cl) = (evs, Returned (true, c')) /\
    count_events is_Call evs = 0%nat /\
    count_events is_ThreadStart evs = 0%nat /\
    count_events is_TerminateServer evs = 0%nat /\
    status c' = status c /\
    RendererLauncher.IsRunning (renderer_launcher_ c')
    = RendererLauncher.IsRunning (renderer_launcher_ c) /\
    version_mismatch_nums_ c' = version_mismatch_nums_ c /\
    is_window_visible_ c' = visible command /\
    (RendererLauncher.CanConnect (renderer_launcher_ c) now1 = true ->
     RendererLauncher.pending_command_ (renderer_launcher_ c')
     = RendererLauncher.pending_command_ (renderer_launcher_ c)) /\
    (RendererLauncher.CanConnect (renderer_launcher_ c) now1 = false ->
     RendererLauncher.pending_command_ (renderer_launcher_ c')
     = Some command).
Proof.
  intros Hl Hf Hc Hv Herr Hconn Hty Hhide.
  apply not_timeout in Herr.
  destruct command as [ty vis out].
  unfold has_output in *. cbn [type visible output] in *. subst ty.
  assert (Hd : negb vis
               || negb (match out with Some _ => true | None => false end)
               = true).
  { destruct Hhide as [-> | ->]; [reflexivity | apply orb_true_r]. }
  past_gates Hl Hf Hc Hv CanConnect_SetPendingCommand.
  all: destruct (disable_renderer_path_check_ c) eqn:Ed;
    rewrite Herr, Hconn; cbn [negb];
    unfold RendererLauncher.SetPendingCommand, is_UPDATE, has_output, status;
    cbn [type visible output set_is_window_visible is_window_visible_];
    rewrite Hd; cbn;
    do 2 eexists; (split; [reflexivity|]); cbn; repeat split; auto;
    intros; congruence.
Qed.

End ExecCommandFacts.

Lemma exec_command_failure_witness :
  count_events is_Call [NewClient "renderer" "/usr/lib/mozc/mozc_renderer"]
  = 0%nat /\
  RendererClient.status sample_client = RendererClient.status sample_client.
Proof.
  destruct (exec_command_failure sample_protocol_version
              sample_CompareVersion sample_mozc_version sample_client
              show_command 1000 1000 (Some client_timed_out)) as [_ H].
  destruct (H [NewClient "renderer" "/usr/lib/mozc/mozc_renderer"]
              sample_client eq_refl) as (_ & Hc & _ & _ & _ & _ & Hw).
  split; [exact Hc | exact Hw].
Defined.

Lemma exec_command_sends_witness :
  exists (evs : list event) (c' : RendererClient.t),
    RendererClient.ExecCommand sample_protocol_version sample_CompareVersion
      sample_mozc_version sample_client show_command 1000 1000
      (Some client_current_server)
    = (evs, Returned (true, c')) /\
    filter is_Call evs = [Call show_command kIPCTimeout] /\
    RendererClient.is_window_visible_ c' = visible show_command.
Proof.
  destruct (exec_command_sends sample_protocol_version sample_CompareVersion
              sample_mozc_version sample_client show_command 1000 1000
              client_current_server eq_refl eq_refl
              (or_introl eq_refl) eq_refl
              ltac:(discriminate) eq_refl eq_refl eq_refl)
    as (evs & c' & H1 & H2 & _ & _ & _ & H6 & _).
  exists evs, c'. auto.
Defined.

Lemma exec_command_newer_server_witness :
  exists (evs : list event) (c' : RendererClient.t),
    RendererClient.ExecCommand sample_protocol_version sample_CompareVersion
      sample_mozc_version sample_client show_command 1000 1000
      (Some client_new_protocol_server)
    = (evs, Returned (true, c')) /\
    RendererClient.version_mismatch_nums_ c' = RendererClient.INT_MAX /\
    filter is_LaunchErrorMessageDialog evs
    = [LaunchErrorMessageDialog "renderer_version_mismatch"].
Proof.
  destruct (exec_command_newer_server sample_protocol_version
              sample_CompareVersion sample_mozc_version sample_client
              show_command 1000 1000 client_new_protocol_server
              eq_refl eq_refl (or_introl eq_refl) eq_refl
              ltac:(discriminate) eq_refl eq_refl)
    as (evs & c' & H1 & H2 & _ & _ & _ & H6 & _).
  exists evs, c'. auto.
Defined.

Lemma exec_command_older_product_witness :
  exists (evs : list event) (c' : RendererClient.t),
    RendererClient.ExecCommand sample_protocol_version
      sample_CompareVersion_strict sample_mozc_version sample_client
      show_command 1000 1000 (Some client_old_product_server)
    = (evs, Returned (true, c')) /\
    filter is_Call evs = [Call (command_of_type SHUTDOWN) kIPCTimeout] /\
    RendererClient.version_mismatch_nums_ c' = 0 + 1.
Proof.
  destruct (exec_command_older_product sample_protocol_version
              sample_CompareVersion_strict sample_mozc_version sample_client
              show_command 1000 1000 client_old_product_server
              eq_refl eq_refl (or_introl eq_refl) eq_refl
              ltac:(discriminate) eq_refl eq_refl eq_refl)
    as (evs & c' & H1 & H2 & _ & _ & H5 & _).
  exists evs, c'. auto.
Defined.

Lemma exec_command_starts_launch_witness :
  exists (evs : list event) (c' : RendererClient.t),
    RendererClient.ExecCommand sample_protocol_version sample_CompareVersion
      sample_mozc_version sample_client show_command 1000 1000
      (Some client_no_server)
    = (evs, Returned (true, c')) /\
    filter is_ThreadStart evs = [ThreadStart "Renderer"] /\
    RendererClient.status c' = RendererLauncher.RENDERER_LAUNCHING.
Proof.
  destruct (exec_command_starts_launch sample_protocol_version
              sample_CompareVersion sample_mozc_version sample_client
              show_command 1000 1000 client_no_server
              eq_refl eq_refl (or_introl eq_refl) eq_refl
              ltac:(discriminate) eq_refl eq_refl)
    as (evs & c' & H1 & H2 & _ & _ & H5 & _).
  exists evs, c'. auto.
Defined.

Lemma exec_command_discards_hide_witness :
  exists (evs : list event) (c' : RendererClient.t),
    RendererClient.ExecCommand sample_protocol_version sample_CompareVersion
      sample_mozc_version ready_visible_client hide_command 1000 1000
      (Some client_no_server)
    = (evs, Returned (true, c')) /\
    count_events is_ThreadStart evs = 0%nat /\
    RendererClient.is_window_visible_ c' = visible hide_command.
Proof.
  destruct (exec_command_discards_hide sample_protocol_version
              sample_CompareVersion sample_mozc_version ready_visible_client
              hide_command 1000 1000 client_no_server
              eq_refl eq_refl (or_introl eq_refl) eq_refl
              ltac:(discriminate) eq_refl eq_refl (or_introl eq_refl))
    as (evs & c' & H1 & _ & H3 & _ & _ & _ & _ & H8 & _).
  exists evs, c'. auto.
Defined.

(* ================================================================= *)
(** * Further properties of the client as a machine *)

Section MachineFacts.
Import RendererClient.
Variable IPC_PROTOCOL_VERSION : Z.
Variable CompareVersion : string -> string -> bool.
Variable GetMozcVersion : string.

Local Abbreviation ExecCommand :=
  (RendererClient.ExecCommand
     IPC_PROTOCOL_VERSION CompareVersion GetMozcVersion).
Local Abbreviation Activate :=
  (RendererClient.Activate IPC_PROTOCOL_VERSION CompareVersion GetMozcVersion).
Local Abbreviation Shutdown :=
  (RendererClient.Shutdown IPC_PROTOCOL_VERSION CompareVersion GetMozcVersion).
Local Abbreviation Destructor :=
  (RendererClient.Destructor
     IPC_PROTOCOL_VERSION CompareVersion GetMozcVersion).
Local Abbreviation step :=
  (RendererClient.step IPC_PROTOCOL_VERSION CompareVersion GetMozcVersion).
Local Abbreviation run :=
  (RendererClient.run IPC_PROTOCOL_VERSION CompareVersion GetMozcVersion).

(** What [ExecCommand] keeps of the client, whatever path it takes. *)
Lemma ExecCommand_frame (c : t) (command : RendererCommand) (now1 now2 : Z)
      (answer : option IPCClientInterface) (evs : list event) (r : bool)
      (c' : t) :
  ExecCommand c command now1 now2 answer = (evs, Returned (r, c')) ->
  name_ c' = name_ c /\ renderer_path_ c' = renderer_path_ c /\
  disable_renderer_path_check_ c' = disable_renderer_path_check_ c /\
  RendererLauncher.suppress_error_dialog_ (renderer_launcher_ c')
  = RendererLauncher.suppress_error_dialog_ (renderer_launcher_ c) /\
  (version_mismatch_nums_ c' = version_mismatch_nums_ c \/
   (version_mismatch_nums_ c < kMaxVersionMismatchNums /\
    (version_mismatch_nums_ c' = version_mismatch_nums_ c + 1 \/
     version_mismatch_nums_ c' = INT_MAX))) /\
  (count_events is_Call evs <= 1)%nat /\
  (count_events is_NewClient evs <= 1)%nat /\
  (RendererLauncher.suppress_error_dialog_ (renderer_launcher_ c) = true ->
   count_events is_LaunchErrorMessageDialog evs = 0%nat).
Proof.
  unfold RendererClient.ExecCommand, CreateIPCClient.
  intros H.
  destruct (renderer_launcher_interface_ c) eqn:Eli; cbn [negb] in H;
    [| injection H as <- <- <-; cbn; auto 10 ].
  destruct (ipc_client_factory_interface_ c) eqn:Ef; cbn [negb] in H;
    [| injection H as <- <- <-; cbn; auto 10 ].
  destruct command as [ty vis out].
  destruct (RendererLauncher.suppress_error_dialog_ (renderer_launcher_ c))
    eqn:Es.
  all: destruct (RendererLauncher.CanConnect (renderer_launcher_ c) now1)
    eqn:E1; cbn [negb andb] in H.
  all: unfold RendererLauncher.SetPendingCommand,
         RendererLauncher.StartRenderer,
         RendererLauncher.ForceTerminateRenderer,
         RendererLauncher.OnFatal, CallCommand, is_UPDATE,
         has_output in *.
  all: destruct ty; cbn [type visible output] in *.
  all: repeat (break_if_in H; cbn in H; try discriminate).
  all: injection H as <- <- <-; cbn.
  all: repeat match goal with
              | H : (_ <=? _) = false |- _ => apply Z.leb_gt in H
              end.
  all: repeat match goal with |- _ /\ _ => split end;
    try reflexivity; try congruence; try lia; auto.
  all: try (intros; discriminate).
  all: right; split; [assumption|]; auto.
Qed.

(** What the worker keeps of the launcher. *)
Lemma Run_frame (l : RendererLauncher.t) (now : Z)
      (spawn_ok listener_is_available : bool) (ret : WaitResult)
      (answer : option IPCClientInterface) (evs : list event)
      (l' : RendererLauncher.t) :
  RendererLauncher.Run l now spawn_ok listener_is_available ret answer
  = (evs, Returned l') ->
  RendererLauncher.suppress_error_dialog_ l'
  = RendererLauncher.suppress_error_dialog_ l /\
  RendererLauncher.name_ l' = RendererLauncher.name_ l /\
  RendererLauncher.path_ l' = RendererLauncher.path_ l /\
  (RendererLauncher.suppress_error_dialog_ l = true ->
   count_events is_LaunchErrorMessageDialog evs = 0%nat).
Proof.
  intros H. rewrite Run_cases in H. cbv zeta in H.
  unfold RendererLauncher.OnFatal in H.
  destruct spawn_ok, listener_is_available, ret; cbn [negb] in H.
  all: repeat (break_if_in H; cbn in H; try discriminate).
  all: injection H as <- <-; cbn; repeat split; auto.
  all: try (intros; discriminate).
  all: try destruct (RendererLauncher.disable_renderer_path_check_ l);
    reflexivity.
Qed.

(** With dialogs suppressed no operation launches one, whether it returns
    or not. *)
Lemma ExecCommand_no_dialog (c : t) (command : RendererCommand)
      (now1 now2 : Z) (answer : option IPCClientInterface) :
  RendererLauncher.suppress_error_dialog_ (renderer_launcher_ c) = true ->
  count_events is_LaunchErrorMessageDialog
    (fst (ExecCommand c command now1 now2 answer)) = 0%nat.
Proof.
  intros Hs.
  unfold RendererClient.ExecCommand, CreateIPCClient,
    RendererLauncher.SetPendingCommand, RendererLauncher.StartRenderer,
    RendererLauncher.ForceTerminateRenderer, RendererLauncher.OnFatal,
    CallCommand.
  destruct command as [ty vis out]. destruct ty; cbn [type].
  all: repeat (break_if_goal; cbn; try reflexivity).
  all: cbn in *; congruence.
Qed.

Lemma Run_no_dialog (l : RendererLauncher.t) (now : Z)
      (spawn_ok listener_is_available : bool) (ret : WaitResult)
      (answer : option IPCClientInterface) :
  RendererLauncher.suppress_error_dialog_ l = true ->
  count_events is_LaunchErrorMessageDialog
    (fst (RendererLauncher.Run l now spawn_ok listener_is_available ret
            answer)) = 0%nat.
Proof.
  intros Hs. rewrite Run_cases. cbv zeta. unfold RendererLauncher.OnFatal.
  rewrite Hs.
  destruct spawn_ok, listener_is_available, ret; cbn; try reflexivity.
  all: destruct (RendererLauncher.ipc_client_factory_interface_ l);
    destruct (RendererLauncher.pending_command_ l); destruct answer;
    reflexivity.
Qed.

(** The launcher's destructor adds the notification to what the worker
    does. *)
Lemma Destructor_frame (l : RendererLauncher.t) (now : Z)
      (spawn_ok listener_is_available : bool) (ret : WaitResult)
      (answer : option IPCClientInterface) (evs : list event)
      (l' : RendererLauncher.t) :
  RendererLauncher.Destructor l now spawn_ok listener_is_available ret answer
  = (evs, Returned l') ->
  RendererLauncher.suppress_error_dialog_ l'
  = RendererLauncher.suppress_error_dialog_ l /\
  (RendererLauncher.suppress_error_dialog_ l = true ->
   count_events is_LaunchErrorMessageDialog evs = 0%nat).
Proof.
  unfold RendererLauncher.Destructor. intros H.
  destruct (RendererLauncher.IsRunning l); cbn [negb] in H.
  - destruct (RendererLauncher.Run l now spawn_ok listener_is_available ret
                answer) as [evs0 r0] eqn:E.
    injection H as <- ->. apply Run_frame in E.
    destruct E as (Hs & _ & _ & Hd). split; [exact Hs|].
    intros Hsup. exact (Hd Hsup).
  - injection H as <- <-. auto.
Qed.

Lemma Destructor_no_dialog (l : RendererLauncher.t) (now : Z)
      (spawn_ok listener_is_available : bool) (ret : WaitResult)
      (answer : option IPCClientInterface) :
  RendererLauncher.suppress_error_dialog_ l = true ->
  count_events is_LaunchErrorMessageDialog
    (fst (RendererLauncher.Destructor l now spawn_ok listener_is_available
            ret answer)) = 0%nat.
Proof.
  intros Hs. unfold RendererLauncher.Destructor.
  destruct (RendererLauncher.IsRunning l); cbn [negb]; [|reflexivity].
  pose proof (Run_no_dialog l now spawn_ok listener_is_available ret answer
                Hs) as Hr.
  destruct (RendererLauncher.Run _ _ _ _ _ _) as [evs0 r0]. exact Hr.
Qed.


Lemma step_no_dialog (c : t) (o : op) :
  RendererLauncher.suppress_error_dialog_ (renderer_launcher_ c) = true ->
  count_events is_LaunchErrorMessageDialog (fst (step c o)) = 0%nat.
Proof.
  intros Hs.
  assert (Hexec : forall command now1 now2 answer,
             count_events is_LaunchErrorMessageDialog
               (fst (ExecCommand c command now1 now2 answer)) = 0%nat)
    by (intros; now apply ExecCommand_no_dialog).
  unfold RendererClient.step, lift_bool. destruct o.
  - specialize (Hexec command now1 now2 answer).
    destruct (RendererClient.ExecCommand _ _ _ _ _ _ _ _)
      as [evs0 [[b c0]|]]; exact Hexec.
  - unfold RendererClient.Activate. destruct (IsAvailable c); [reflexivity|].
    specialize (Hexec (command_of_type NOOP) now1 now2 answer).
    destruct (RendererClient.ExecCommand _ _ _ _ _ _ _ _)
      as [evs0 [[b c0]|]]; exact Hexec.
  - unfold RendererClient.Shutdown, CreateIPCClient,
      RendererLauncher.ForceTerminateRenderer.
    specialize (Hexec (command_of_type SHUTDOWN) now1 now2 answer).
    destruct (RendererClient.ExecCommand _ _ _ c (command_of_type SHUTDOWN)
                now1 now2 answer) as [evs0 [[b c0]|]].
    all: repeat (break_if_goal; cbn; try reflexivity).
    all: cbn in Hexec; exact Hexec.
  - reflexivity.
  - reflexivity.
  - unfold RendererClient.Destructor. destruct (_ || _).
    + pose proof (Destructor_no_dialog (renderer_launcher_ c) join_now
                    join_spawn_ok join_listener_is_available join_ret
                    join_answer Hs) as Hd.
      destruct (RendererLauncher.Destructor _ _ _ _ _ _) as [evs1 [l'|]];
        exact Hd.
    + specialize (Hexec {| type := UPDATE; visible := false; output := None |}
                        now1 now2 answer).
      destruct (RendererClient.ExecCommand _ _ _ _ _ _ _ _)
        as [evs0 [[b c0]|]] eqn:E; [|exact Hexec].
      apply ExecCommand_frame in E.
      destruct E as (_ & _ & _ & Hs0 & _).
      rewrite Hs in Hs0.
      pose proof (Destructor_no_dialog (renderer_launcher_ c0) join_now
                    join_spawn_ok join_listener_is_available join_ret
                    join_answer Hs0) as Hd.
      destruct (RendererLauncher.Destructor _ _ _ _ _ _) as [evs1 [l'|]];
        cbn [fst] in *; rewrite count_events_app, Hexec, Hd; reflexivity.
  - destruct (RendererLauncher.IsRunning (renderer_launcher_ c));
      [|reflexivity].
    pose proof (Run_no_dialog (renderer_launcher_ c) now spawn_ok
                  listener_is_available ret answer Hs) as Hr.
    destruct (RendererLauncher.Run _ _ _ _ _ _) as [evs0 [l0|]]; exact Hr.
Qed.

(** One operation of the machine: the mismatch count never goes down and
    stays an [int]; with dialogs suppressed none is launched, and
    suppression stays on unless the operation switches it off. *)
Lemma step_frame (c : t) (o : op) (evs : list event) (r : retval) (c' : t) :
  step c o = (evs, Returned (r, c')) ->
  (0 <= version_mismatch_nums_ c <= INT_MAX ->
   version_mismatch_nums_ c <= version_mismatch_nums_ c' <= INT_MAX) /\
  (RendererLauncher.suppress_error_dialog_ (renderer_launcher_ c) = true ->
   count_events is_LaunchErrorMessageDialog evs = 0%nat /\
   (keeps_suppression o = true ->
    RendererLauncher.suppress_error_dialog_ (renderer_launcher_ c') = true)).
Proof.
  assert (Hexec : forall command now1 now2 answer evs0 b c0,
             ExecCommand c command now1 now2 answer
             = (evs0, Returned (b, c0)) ->
             (0 <= version_mismatch_nums_ c <= INT_MAX ->
              version_mismatch_nums_ c <= version_mismatch_nums_ c0
              <= INT_MAX) /\
             (RendererLauncher.suppress_error_dialog_ (renderer_launcher_ c)
              = true ->
              count_events is_LaunchErrorMessageDialog evs0 = 0%nat /\
              RendererLauncher.suppress_error_dialog_ (renderer_launcher_ c0)
              = true)).
  { intros command now1 now2 answer evs0 b c0 E.
    apply ExecCommand_frame in E.
    destruct E as (_ & _ & _ & Hs & Hv & _ & _ & Hd).
    unfold kMaxVersionMismatchNums, INT_MAX in *.
    split; [lia|]. intros Hsup. split; [auto | congruence]. }
  assert (Hsame : (0 <= version_mismatch_nums_ c <= INT_MAX ->
                   version_mismatch_nums_ c <= version_mismatch_nums_ c
                   <= INT_MAX) /\
                  (RendererLauncher.suppress_error_dialog_
                     (renderer_launcher_ c) = true ->
                   count_events is_LaunchErrorMessageDialog [] = 0%nat /\
                   RendererLauncher.suppress_error_dialog_
                     (renderer_launcher_ c) = true)).
  { split; [lia | auto]. }
  unfold RendererClient.step, lift_bool. destruct o; intros H.
  - destruct (RendererClient.ExecCommand _ _ _ _ _ _ _ _)
      as [evs0 [[b c0]|]] eqn:E; [|discriminate].
    injection H as <- _ <-. apply Hexec in E. tauto.
  - unfold RendererClient.Activate in H. destruct (IsAvailable c).
    + injection H as <- _ <-. tauto.
    + destruct (RendererClient.ExecCommand _ _ _ _ _ _ _ _)
        as [evs0 [[b c0]|]] eqn:E; [|discriminate].
      injection H as <- _ <-. apply Hexec in E. tauto.
  - unfold RendererClient.Shutdown, CreateIPCClient,
      RendererLauncher.ForceTerminateRenderer in H.
    destruct (RendererClient.ExecCommand _ _ _ c (command_of_type SHUTDOWN)
                now1 now2 answer) as [evs0 [[b c0]|]] eqn:E.
    + apply Hexec in E.
      repeat (break_if_in H; cbn in H; try discriminate).
      all: injection H as <- _ <-.
      all: rewrite ?count_events_app; cbn; try tauto.
    + repeat (break_if_in H; cbn in H; try discriminate).
      all: injection H as <- _ <-.
      all: rewrite ?count_events_app; cbn; try tauto.
  - injection H as <- _ <-. cbn. tauto.
  - injection H as <- _ <-. unfold set_suppress_error_dialog.
    destruct (negb _); cbn; [tauto|].
    split; [lia|]. intros _. split; [reflexivity|].
    now destruct suppress.
  - unfold RendererClient.Destructor in H. destruct (_ || _).
    + destruct (RendererLauncher.Destructor _ _ _ _ _ _)
        as [evs1 [l'|]] eqn:ED; [|discriminate].
      injection H as <- _ <-. apply Destructor_frame in ED.
      destruct ED as (Hs1 & Hd1). cbn. split; [lia|].
      intros Hsup. split; [auto | intros _; congruence].
    + destruct (RendererClient.ExecCommand _ _ _ _ _ _ _ _)
        as [evs0 [[b c0]|]] eqn:E; [|discriminate].
      destruct (RendererLauncher.Destructor _ _ _ _ _ _)
        as [evs1 [l'|]] eqn:ED; [|discriminate].
      injection H as <- _ <-. apply Hexec in E.
      apply Destructor_frame in ED.
      destruct E as (Hv & Hs0). destruct ED as (Hs1 & Hd1).
      cbn. split; [exact Hv|].
      intros Hsup. destruct (Hs0 Hsup) as (Hd0 & Hsup0).
      rewrite count_events_app, Hd0, (Hd1 Hsup0).
      split; [reflexivity | intros _; congruence].
  - destruct (RendererLauncher.IsRunning (renderer_launcher_ c)).
    + destruct (RendererLauncher.Run _ _ _ _ _ _) as [evs0 [l0|]] eqn:E;
        [|discriminate].
      injection H as <- _ <-. apply Run_frame in E.
      destruct E as (Hs & _ & _ & Hd). cbn. split; [lia|].
      intros Hsup. split; [auto | intros _; congruence].
    + injection H as <- _ <-. tauto.
Qed.

(** X18.  The mismatch count along a run from construction: it never
    decreases, and it always lies between 0 and [INT_MAX], so its
    increments never overflow the [int]. *)
Theorem version_mismatch_count_monotone
        (desktop_name renderer_path : string) (ops1 ops2 : list op) :
  let c1 := fst (fst (run (Build desktop_name renderer_path) ops1)) in
  let c2 := fst (fst (run c1 ops2)) in
  0 <= version_mismatch_nums_ c1 /\
  version_mismatch_nums_ c1 <= version_mismatch_nums_ c2 /\
  version_mismatch_nums_ c2 <= INT_MAX.
Proof.
  assert (Hrun : forall ops c,
             0 <= version_mismatch_nums_ c <= INT_MAX ->
             version_mismatch_nums_ c
             <= version_mismatch_nums_ (fst (fst (run c ops))) <= INT_MAX).
  { induction ops as [|o ops IH]; intros c Hc; cbn [RendererClient.run].
    - cbn. lia.
    - destruct (RendererClient.step _ _ _ c o) as [evs [[r c']|]] eqn:E.
      + apply step_frame in E. destruct E as [Hv _]. specialize (Hv Hc).
        specialize (IH c' ltac:(lia)).
        destruct (RendererClient.run _ _ _ c' ops) as [[c'' evs'] rs].
        cbn in *. lia.
      + cbn. lia. }
  cbv zeta.
  pose proof (Hrun ops1 (Build desktop_name renderer_path)) as H1.
  change (version_mismatch_nums_ (Build desktop_name renderer_path))
    with 0 in H1.
  assert (H0 : 0 <= 0 <= INT_MAX) by (unfold INT_MAX; lia).
  specialize (H1 H0).
  pose proof (Hrun ops2 _ ltac:(split; [apply H1 | apply H1])) as H2.
  lia.
Qed.

(** X19.  With the error dialog suppressed, no operation launches it, as
    long as no operation switches suppression off. *)
Theorem suppressed_dialog_never_launched (c : t) (ops : list op) :
  RendererLauncher.suppress_error_dialog_ (renderer_launcher_ c) = true ->
  forallb keeps_suppression ops = true ->
  count_events is_LaunchErrorMessageDialog (snd (fst (run c ops))) = 0%nat /\
  RendererLauncher.suppress_error_dialog_
    (renderer_launcher_ (fst (fst (run c ops)))) = true.
Proof.
  revert c. induction ops as [|o ops IH]; intros c Hs Hk;
    cbn [RendererClient.run].
  - cbn. auto.
  - cbn [forallb] in Hk. apply andb_true_iff in Hk. destruct Hk as [Hk1 Hk2].
    destruct (RendererClient.step _ _ _ c o) as [evs [[r c']|]] eqn:E.
    + pose proof (step_no_dialog c o Hs) as Hd0.
      rewrite E in Hd0. cbn [fst] in Hd0.
      apply step_frame in E. destruct E as [_ Hd].
      destruct (Hd Hs) as [_ Hs']. specialize (Hs' Hk1).
      destruct (IH c' Hs' Hk2) as [IH1 IH2].
      destruct (RendererClient.run _ _ _ c' ops) as [[c'' evs'] rs].
      cbn [fst snd] in *. rewrite count_events_app.
      split; [lia | exact IH2].
    + cbn. split; [|exact Hs].
      pose proof (step_no_dialog c o Hs) as Hn.
      rewrite E in Hn. exact Hn.
Qed.

(** X20.  [Activate] and [Shutdown] never touch the pending slot: the
    [NOOP] and [SHUTDOWN] commands they pass to [ExecCommand] are not
    stored.  On a client whose renderer is ready, [Activate] returns
    [true] without any event or change. *)
Theorem activate_shutdown_keep_slot (c : t) :
  (forall now1 now2 answer evs r c',
      Activate c now1 now2 answer = (evs, Returned (r, c')) ->
      RendererLauncher.pending_command_ (renderer_launcher_ c')
      = RendererLauncher.pending_command_ (renderer_launcher_ c)) /\
  (forall force probe terminated now1 now2 answer evs r c',
      Shutdown c force probe terminated now1 now2 answer
      = (evs, Returned (r, c')) ->
      RendererLauncher.pending_command_ (renderer_launcher_ c')
      = RendererLauncher.pending_command_ (renderer_launcher_ c)) /\
  (IsAvailable c = true ->
   forall now1 now2 answer,
     Activate c now1 now2 answer = ([], Returned (true, c))).
Proof.
  assert (Hexec : forall ty now1 now2 answer evs r c',
             ty <> UPDATE ->
             ExecCommand c (command_of_type ty) now1 now2 answer
             = (evs, Returned (r, c')) ->
             RendererLauncher.pending_command_ (renderer_launcher_ c')
             = RendererLauncher.pending_command_ (renderer_launcher_ c)).
  { intros ty now1 now2 answer evs r c' Hty E.
    apply ExecCommand_effect in E.
    destruct E as (_ & _ & [Hp | [_ Hu]] & _); [exact Hp|].
    cbn in Hu. contradiction. }
  split; [|split].
  - intros now1 now2 answer evs r c' H. unfold RendererClient.Activate in H.
    destruct (IsAvailable c).
    + now injection H as _ _ <-.
    + eapply Hexec; [|exact H]. discriminate.
  - intros force probe terminated now1 now2 answer evs r c' H.
    unfold RendererClient.Shutdown, CreateIPCClient in H.
    destruct (RendererClient.ExecCommand _ _ _ c (command_of_type SHUTDOWN)
                now1 now2 answer) as [evs0 [[b c0]|]] eqn:E.
    + apply Hexec in E; [|discriminate].
      repeat (break_if_in H; cbn in H; try discriminate).
      all: injection H as _ _ <-; auto.
    + repeat (break_if_in H; cbn in H; try discriminate).
      all: injection H as _ _ <-; auto.
  - intros Ha now1 now2 answer. unfold RendererClient.Activate.
    now rewrite Ha.
Qed.

(** X21.  [Shutdown] without anything to shut down, and the forced
    shutdown.  Without a factory, or when the factory hands out a null
    pointer, it returns [false]; when the client is not connected it
    returns [true]; in these cases nothing is sent or terminated and the
    client is unchanged.  A forced shutdown of a connected renderer
    terminates the server by name exactly once, sends nothing, returns
    what the termination returns and leaves the client unchanged. *)
Theorem shutdown_edge_cases
        (c : t) (force : bool) (probe : option IPCClientInterface)
        (terminated : bool) (now1 now2 : Z)
        (answer : option IPCClientInterface) :
  (ipc_client_factory_interface_ c = false ->
   Shutdown c force probe terminated now1 now2 answer
   = ([], Returned (false, c))) /\
  (ipc_client_factory_interface_ c = true -> probe = None ->
   exists evs,
     Shutdown c force probe terminated now1 now2 answer
     = (evs, Returned (false, c)) /\
     count_events is_Call evs = 0%nat /\
     count_events is_TerminateServer evs = 0%nat) /\
  (forall cl, ipc_client_factory_interface_ c = true -> probe = Some cl ->
              Connected cl = false ->
              exists evs,
                Shutdown c force probe terminated now1 now2 answer
                = (evs, Returned (true, c)) /\
                count_events is_Call evs = 0%nat /\
                count_events is_TerminateServer evs = 0%nat) /\
  (forall cl, ipc_client_factory_interface_ c = true ->
              renderer_launcher_interface_ c = true ->
              probe = Some cl -> Connected cl = true -> force = true ->
              exists evs,
                Shutdown c force probe terminated now1 now2 answer
                = (evs, Returned (terminated, c)) /\
                filter is_TerminateServer evs = [TerminateServer (name_ c)] /\
                count_events is_Call evs = 0%nat).
Proof.
  unfold RendererClient.Shutdown, CreateIPCClient,
    RendererLauncher.ForceTerminateRenderer.
  repeat split.
  - intros ->. reflexivity.
  - intros -> ->. cbn [negb].
    destruct (disable_renderer_path_check_ c); eexists; repeat split.
  - intros cl -> -> Hc. cbn [negb].
    destruct (disable_renderer_path_check_ c); cbn; rewrite Hc;
      eexists; repeat split.
  - intros cl -> Hl -> Hc ->. cbn [negb].
    destruct (disable_renderer_path_check_ c); cbn; rewrite Hc, Hl;
      eexists; repeat split.
Qed.

(** X22.  The orderly shutdown.  With [force = false], a connected probe,
    and an [ExecCommand] that passes its gates and meets a server of the
    same protocol and a product version that is not older, [Shutdown]
    creates two clients, sends exactly one message, the [SHUTDOWN]
    command, terminates no server by force, and returns [true]; the
    window is afterwards recorded as not visible. *)
Theorem shutdown_sends_SHUTDOWN
        (c : t) (probe cl : IPCClientInterface) (terminated : bool)
        (now1 now2 : Z) :
  renderer_launcher_interface_ c = true ->
  ipc_client_factory_interface_ c = true ->
  Connected probe = true ->
  (RendererLauncher.CanConnect (renderer_launcher_ c) now1 = true \/
   RendererLauncher.CanConnect (renderer_launcher_ c) now2 = true) ->
  version_mismatch_nums_ c < kMaxVersionMismatchNums ->
  GetLastIPCError cl <> IPC_TIMEOUT_ERROR ->
  Connected cl = true ->
  GetServerProtocolVersion cl = IPC_PROTOCOL_VERSION ->
  CompareVersion (GetServerProductVersion cl) GetMozcVersion = false ->
  exists (evs : list event) (c' : t),
    Shutdown c false (Some probe) terminated now1 now2 (Some cl)
    = (evs, Returned (true, c')) /\
    filter is_Call evs = [Call (command_of_type SHUTDOWN) kIPCTimeout] /\
    count_events is_NewClient evs = 2%nat /\
    count_events is_TerminateServer evs = 0%nat /\
    count_events is_ThreadStart evs = 0%nat /\
    is_window_visible_ c' = false /\
    status c' = status c.
Proof.
  intros Hl Hf Hp Hc Hv Herr Hconn Hproto Hprod.
  apply not_timeout in Herr. apply Z.leb_gt in Hv.
  unfold RendererClient.Shutdown, RendererClient.ExecCommand, CreateIPCClient.
  rewrite Hl, Hf. cbn [negb].
  destruct (disable_renderer_path_check_ c) eqn:Ed.
  all: cbn iota beta; rewrite Hp; cbn [negb].
  all: destruct (RendererLauncher.CanConnect (renderer_launcher_ c) now1)
    eqn:E1; cbn [negb andb].
  all: try (destruct Hc as [Hc|Hc]; [discriminate|];
            cbn [renderer_launcher_ set_renderer_launcher
                   version_mismatch_nums_ ipc_client_factory_interface_
                   disable_renderer_path_check_];
            rewrite CanConnect_SetPendingCommand, Hc).
  all: rewrite Hv, Hf; cbn [negb];
    cbn [renderer_launcher_ set_renderer_launcher
           version_mismatch_nums_ ipc_client_factory_interface_
           disable_renderer_path_check_];
    rewrite ?Ed; cbn iota beta;
    rewrite Herr, Hconn, Hproto, Z.ltb_irrefl, Hprod; cbn [negb];
    do 2 eexists; (split; [reflexivity|]); unfold status; cbn;
    repeat split.
Qed.


(** A launcher that is exhausted refuses every connection. *)
Lemma exhausted_CanConnect (l : RendererLauncher.t) (now : Z) :
  exhausted l -> RendererLauncher.CanConnect l now = false.
Proof.
  unfold exhausted, RendererLauncher.CanConnect, RendererLauncher.throttled.
  intros (_ & [Hs | [Hs He]]).
  - now rewrite Hs.
  - destruct (RendererLauncher.renderer_status_ l); try discriminate;
      apply andb_false_iff; left; apply Z.leb_gt; exact He.
Qed.

Lemma exhausted_SetPendingCommand (l : RendererLauncher.t)
      (command : RendererCommand) :
  exhausted l -> exhausted (RendererLauncher.SetPendingCommand l command).
Proof.
  unfold exhausted.
  destruct (SetPendingCommand_frame l command) as (-> & -> & _ & ->). auto.
Qed.

Lemma ExecCommand_exhausted (c : t) (command : RendererCommand)
      (now1 now2 : Z) (answer : option IPCClientInterface) :
  exhausted (renderer_launcher_ c) ->
  exists r c',
    ExecCommand c command now1 now2 answer = ([], Returned (r, c')) /\
    (renderer_launcher_ c' = renderer_launcher_ c \/
     renderer_launcher_ c'
     = RendererLauncher.SetPendingCommand (renderer_launcher_ c) command).
Proof.
  intros He. unfold RendererClient.ExecCommand.
  destruct (renderer_launcher_interface_ c); cbn [negb]; [|eauto].
  destruct (ipc_client_factory_interface_ c); cbn [negb]; [|eauto].
  rewrite (exhausted_CanConnect _ now1 He). cbn [negb andb].
  cbn [renderer_launcher_ set_renderer_launcher].
  rewrite CanConnect_SetPendingCommand, (exhausted_CanConnect _ now2 He).
  cbn [negb]. do 2 eexists. split; [reflexivity|]. right. reflexivity.
Qed.

Lemma step_exhausted (c : t) (o : op) :
  exhausted (renderer_launcher_ c) ->
  count_events is_Call (fst (step c o)) = 0%nat /\
  count_events is_ThreadStart (fst (step c o)) = 0%nat /\
  (forall r c', snd (step c o) = Returned (r, c') ->
                exhausted (renderer_launcher_ c') /\
                status c' = status c /\
                RendererLauncher.error_times_ (renderer_launcher_ c')
                = RendererLauncher.error_times_ (renderer_launcher_ c)).
Proof.
  intros He.
  assert (Hkeep : forall l',
             l' = renderer_launcher_ c \/
             (exists command,
                 l' = RendererLauncher.SetPendingCommand
                        (renderer_launcher_ c) command) ->
             exhausted l' /\
             RendererLauncher.renderer_status_ l'
             = RendererLauncher.renderer_status_ (renderer_launcher_ c) /\
             RendererLauncher.error_times_ l'
             = RendererLauncher.error_times_ (renderer_launcher_ c)).
  { intros l' [-> | [command ->]]; [auto|].
    split; [now apply exhausted_SetPendingCommand|].
    destruct (SetPendingCommand_frame (renderer_launcher_ c) command)
      as (-> & -> & _); auto. }
  assert (Hexec : forall command now1 now2 answer,
             exists r c',
               ExecCommand c command now1 now2 answer
               = ([], Returned (r, c')) /\
               exhausted (renderer_launcher_ c') /\
               status c' = status c /\
               RendererLauncher.error_times_ (renderer_launcher_ c')
               = RendererLauncher.error_times_ (renderer_launcher_ c)).
  { intros command now1 now2 answer.
    destruct (ExecCommand_exhausted c command now1 now2 answer He)
      as (r & c' & E & Hl).
    exists r, c'. split; [exact E|]. unfold status. apply Hkeep.
    destruct Hl as [Hl|Hl]; [left | right; exists command]; exact Hl. }
  assert (Hnot : IsAvailable c = false).
  { unfold IsAvailable, RendererLauncher.IsAvailable.
    destruct (negb _); [reflexivity|].
    destruct He as (_ & [Hs | [Hs _]]).
    - now rewrite Hs.
    - destruct (RendererLauncher.renderer_status_ (renderer_launcher_ c));
        try discriminate; reflexivity. }
  assert (Hself : exhausted (renderer_launcher_ c) /\
                  status c = status c /\
                  RendererLauncher.error_times_ (renderer_launcher_ c)
                  = RendererLauncher.error_times_ (renderer_launcher_ c))
    by auto.
  unfold RendererClient.step, lift_bool. destruct o.
  - destruct (Hexec command now1 now2 answer) as (r & c' & -> & H).
    exh_done Hself H.
  - unfold RendererClient.Activate. rewrite Hnot.
    destruct (Hexec (command_of_type NOOP) now1 now2 answer)
      as (r & c' & -> & H).
    exh_done Hself H.
  - unfold RendererClient.Shutdown, CreateIPCClient,
      RendererLauncher.ForceTerminateRenderer.
    destruct (Hexec (command_of_type SHUTDOWN) now1 now2 answer)
      as (r & c' & -> & H).
    repeat (break_if_goal; cbn [fst snd negb]).
    all: exh_done Hself H.
  - exh_done Hself Hself.
  - unfold set_suppress_error_dialog. destruct (negb _).
    + exh_done Hself Hself.
    + cbn. split; [reflexivity | split; [reflexivity|]].
      intros ? ? E0. injection E0 as <- <-. exact Hself.
  - unfold RendererClient.Destructor, RendererLauncher.Destructor.
    rewrite Hnot. cbn [negb orb]. rewrite (proj1 He). cbn [negb].
    exh_done Hself Hself.
  - destruct He as (Hr & Hs). rewrite Hr. exh_done Hself Hself.
Qed.

(** X24.  No way back.  Once the launcher is fatal, or throttled with more
    than [kMaxErrorTimes] errors, and its worker has ended, no sequence of
    operations starts a launch or sends a command; the status and the
    error count stay as they are. *)
Theorem exhausted_launcher_stays (c : t) (ops : list op) :
  exhausted (renderer_launcher_ c) ->
  let '(c', evs, _) := run c ops in
  exhausted (renderer_launcher_ c') /\
  status c' = status c /\
  RendererLauncher.error_times_ (renderer_launcher_ c')
  = RendererLauncher.error_times_ (renderer_launcher_ c) /\
  count_events is_ThreadStart evs = 0%nat /\
  count_events is_Call evs = 0%nat.
Proof.
  revert c. induction ops as [|o ops IH]; intros c He;
    cbn [RendererClient.run].
  - split; [exact He|]. repeat split.
  - destruct (step_exhausted c o He) as (Hc & Ht & Hk).
    destruct (RendererClient.step _ _ _ c o) as [evs [[r c']|]] eqn:E;
      cbn [fst snd] in *.
    + destruct (Hk r c' eq_refl) as (He' & Hs' & Hn').
      specialize (IH c' He').
      destruct (RendererClient.run _ _ _ c' ops) as [[c'' evs'] rs].
      destruct IH as (I1 & I2 & I3 & I4 & I5).
      rewrite !count_events_app.
      split; [exact I1|]. repeat split; try congruence; lia.
    + split; [exact He|]. repeat split; assumption.
Qed.

(** X25.  Along every run from construction the worker thread runs
    exactly while the status is [RENDERER_LAUNCHING], so a launch is never
    started while another is in flight; the error count stays between 0
    and [kMaxErrorTimes + 1], so its increments never wrap; and it is 0
    whenever the status is unknown or ready. *)
Theorem launcher_invariant
        (desktop_name renderer_path : string) (ops : list op) :
  launcher_inv
    (renderer_launcher_
       (fst (fst (run (Build desktop_name renderer_path) ops)))).
Proof.
  assert (Hstep : forall c o evs r c',
             launcher_inv (renderer_launcher_ c) ->
             step c o = (evs, Returned (r, c')) ->
             launcher_inv (renderer_launcher_ c')).
  { intros c o evs r c' Hinv E.
    apply step_step_effect in E. destruct E as [_ E].
    unfold launcher_inv, kMaxErrorTimes in *.
    destruct Hinv as (Hrun & He & Hl & Hz).
    destruct E as [(Hs & Hee & Hr & _) | [(Hs & Hee & Hr & _ & now & Hc)
                                         | (Hr & l1 & He1 & Hr' & _ & _ & Hs)]].
    3: rewrite He1 in Hs.
    - rewrite Hs, Hee, Hr. auto.
    - rewrite Hs, Hee, Hr. unfold RendererLauncher.CanConnect in Hc.
      repeat split; auto; try lia; try discriminate;
        try (intros [?|?]; discriminate).
      intros _.
      destruct (RendererLauncher.renderer_status_ (renderer_launcher_ c));
        try discriminate;
        try (apply andb_true_iff in Hc; destruct Hc as [Hc _];
             apply Z.leb_le in Hc; unfold kMaxErrorTimes in Hc; lia);
        rewrite Hz by auto; lia.
    - assert (Hlaunch := proj1 Hrun Hr). specialize (Hl Hlaunch).
      assert (Hsucc : size_t_succ
                        (RendererLauncher.error_times_ (renderer_launcher_ c))
                      = RendererLauncher.error_times_ (renderer_launcher_ c)
                        + 1).
      { unfold size_t_succ. apply Z.mod_small.
        assert (2 ^ 64 = 18446744073709551616) by reflexivity. lia. }
      rewrite Hr'.
      destruct (RendererLauncher.renderer_status_ (renderer_launcher_ c'));
        try contradiction;
        repeat split; try discriminate; try lia;
        try (intros [?|?]; discriminate); try (intros _; lia);
        destruct Hs; lia. }
  assert (Hrun : forall ops c,
             launcher_inv (renderer_launcher_ c) ->
             launcher_inv (renderer_launcher_ (fst (fst (run c ops))))).
  { clear ops. induction ops as [|o ops IH]; intros c Hc;
      cbn [RendererClient.run].
    - exact Hc.
    - destruct (RendererClient.step _ _ _ c o) as [evs [[r c']|]] eqn:E.
      + specialize (IH c' (Hstep _ _ _ _ _ Hc E)).
        destruct (RendererClient.run _ _ _ c' ops) as [[c'' evs'] rs].
        exact IH.
      + exact Hc. }
  apply Hrun. unfold launcher_inv, kMaxErrorTimes. cbn.
  repeat split; try discriminate; lia.
Qed.

End MachineFacts.

Lemma suppressed_dialog_never_launched_witness :
  count_events is_LaunchErrorMessageDialog
    (snd (fst (RendererClient.run sample_protocol_version
                 sample_CompareVersion sample_mozc_version suppressed_client
                 [RendererClient.OpExecCommand show_command 1000 1000
                    (Some client_new_protocol_server)])))
  = 0%nat.
Proof.
  apply (suppressed_dialog_never_launched sample_protocol_version
           sample_CompareVersion sample_mozc_version suppressed_client
           [RendererClient.OpExecCommand show_command 1000 1000
              (Some client_new_protocol_server)]);
    reflexivity.
Defined.

Lemma activate_shutdown_keep_slot_witness :
  RendererClient.Activate sample_protocol_version sample_CompareVersion
    sample_mozc_version ready_visible_client 1000 1000 None
  = ([], Returned (true, ready_visible_client)) /\
  RendererLauncher.pending_command_
    (RendererClient.renderer_launcher_ ready_visible_client)
  = RendererLauncher.pending_command_
      (RendererClient.renderer_launcher_ ready_visible_client).
Proof.
  destruct (activate_shutdown_keep_slot sample_protocol_version
              sample_CompareVersion sample_mozc_version ready_visible_client)
    as (H1 & _ & H3).
  split.
  - apply H3. reflexivity.
  - apply (H1 1000 1000 None [] true ready_visible_client). reflexivity.
Defined.

Lemma shutdown_edge_cases_witness :
  exists evs,
    RendererClient.Shutdown sample_protocol_version sample_CompareVersion
      sample_mozc_version sample_client true (Some client_current_server)
      false 1000 1000 None
    = (evs, Returned (false, sample_client)) /\
    filter is_TerminateServer evs
    = [TerminateServer (RendererClient.name_ sample_client)] /\
    count_events is_Call evs = 0%nat.
Proof.
  destruct (shutdown_edge_cases sample_protocol_version sample_CompareVersion
              sample_mozc_version sample_client true
              (Some client_current_server) false 1000 1000 None)
    as (_ & _ & _ & H).
  apply (H client_current_server); reflexivity.
Defined.

Lemma shutdown_sends_SHUTDOWN_witness :
  exists (evs : list event) (c' : RendererClient.t),
    RendererClient.Shutdown sample_protocol_version sample_CompareVersion
      sample_mozc_version ready_visible_client false
      (Some client_current_server) true 1000 1000
      (Some client_current_server)
    = (evs, Returned (true, c')) /\
    filter is_Call evs = [Call (command_of_type SHUTDOWN) kIPCTimeout] /\
    count_events is_NewClient evs = 2%nat /\
    RendererClient.is_window_visible_ c' = false.
Proof.
  destruct (shutdown_sends_SHUTDOWN sample_protocol_version
              sample_CompareVersion sample_mozc_version ready_visible_client
              client_current_server client_current_server true 1000 1000
              eq_refl eq_refl eq_refl (or_introl eq_refl) eq_refl
              ltac:(discriminate) eq_refl eq_refl eq_refl)
    as (evs & c' & H1 & H2 & H3 & _ & _ & H6 & _).
  exists evs, c'. auto.
Defined.


Lemma exhausted_launcher_stays_witness :
  let '(c', evs, _) :=
    RendererClient.run sample_protocol_version sample_CompareVersion
      sample_mozc_version exhausted_client
      [RendererClient.OpExecCommand show_command 5000 5000
         (Some client_no_server);
       RendererClient.OpActivate 6000 6000 (Some client_no_server)] in
  exhausted (RendererClient.renderer_launcher_ c') /\
  RendererClient.status c' = RendererClient.status exhausted_client /\
  RendererLauncher.error_times_ (RendererClient.renderer_launcher_ c')
  = RendererLauncher.error_times_
      (RendererClient.renderer_launcher_ exhausted_client) /\
  count_events is_ThreadStart evs = 0%nat /\
  count_events is_Call evs = 0%nat.
Proof.
  apply (exhausted_launcher_stays sample_protocol_version
           sample_CompareVersion sample_mozc_version exhausted_client
           [RendererClient.OpExecCommand show_command 5000 5000
              (Some client_no_server);
            RendererClient.OpActivate 6000 6000 (Some client_no_server)]).
  unfold exhausted. split; [reflexivity|]. right.
  split; [reflexivity | vm_compute; reflexivity].
Defined.

(* ================================================================= *)
(** * Further properties of the retry gate and of activation *)

(** X26.  Once the cooldown has passed it stays passed: in
    [RENDERER_TIMEOUT] or [RENDERER_TERMINATED], if [CanConnect] holds at
    one clock reading not before the last launch time, it holds at every
    later reading. *)
Theorem cooldown_stays_passed (l : RendererLauncher.t) (now now' : Z) :
  RendererLauncher.throttled (RendererLauncher.renderer_status_ l) = true ->
  0 <= RendererLauncher.last_launch_time_ l <= now ->
  now <= now' < 2 ^ 64 ->
  RendererLauncher.CanConnect l now = true ->
  RendererLauncher.CanConnect l now' = true.
Proof.
  intros Ht Hl Hn Hc.
  destruct (CanConnect_throttled l now Ht Hc) as [He Hd].
  rewrite uint64_sub_monotone_clock in Hd by lia.
  unfold RendererLauncher.CanConnect, RendererLauncher.throttled in *.
  destruct (RendererLauncher.renderer_status_ l); try discriminate;
    apply andb_true_iff; split;
    try (apply Z.leb_le; exact He);
    apply Z.leb_le; rewrite uint64_sub_monotone_clock by lia; lia.
Qed.

Lemma cooldown_stays_passed_witness :
  RendererLauncher.CanConnect launcher_after_timeout 5000 = true.
Proof.
  apply (cooldown_stays_passed launcher_after_timeout 1030 5000).
  - reflexivity.
  - cbn. lia.
  - assert (2 ^ 64 = 18446744073709551616) by reflexivity. lia.
  - reflexivity.
Defined.

(** X27.  A clock that reads earlier than the last launch time does not
    hold the throttle: the unsigned difference wraps around, so with the
    error budget not used up [CanConnect] holds at once. *)
Theorem clock_set_back_opens_gate (l : RendererLauncher.t) (now : Z) :
  RendererLauncher.throttled (RendererLauncher.renderer_status_ l) = true ->
  RendererLauncher.error_times_ l <= kMaxErrorTimes ->
  0 <= now < RendererLauncher.last_launch_time_ l ->
  RendererLauncher.last_launch_time_ l - now
  <= 2 ^ 64 - kRetryIntervalTime ->
  uint64_sub now (RendererLauncher.last_launch_time_ l)
  = 2 ^ 64 - (RendererLauncher.last_launch_time_ l - now) /\
  RendererLauncher.CanConnect l now = true.
Proof.
  intros Ht He Hn Hd. unfold kRetryIntervalTime in *.
  assert (Hb : 2 ^ 64 = 18446744073709551616) by reflexivity.
  assert (Hs : uint64_sub now (RendererLauncher.last_launch_time_ l)
               = 2 ^ 64 - (RendererLauncher.last_launch_time_ l - now)).
  { unfold uint64_sub.
    rewrite <- (Z.mod_add _ 1) by lia. rewrite Z.mod_small by lia. lia. }
  split; [exact Hs|].
  unfold RendererLauncher.CanConnect, RendererLauncher.throttled in *.
  destruct (RendererLauncher.renderer_status_ l); try discriminate;
    apply andb_true_iff; split;
    try (apply Z.leb_le; exact He);
    apply Z.leb_le; rewrite Hs; unfold kRetryIntervalTime; lia.
Qed.

Lemma clock_set_back_opens_gate_witness :
  RendererLauncher.CanConnect launcher_after_timeout 990 = true.
Proof.
  apply (clock_set_back_opens_gate launcher_after_timeout 990).
  - reflexivity.
  - cbn. unfold kMaxErrorTimes. lia.
  - cbn. lia.
  - cbn. unfold kRetryIntervalTime.
    assert (2 ^ 64 = 18446744073709551616) by reflexivity. lia.
Defined.

(** X28.  Activation of a freshly constructed client whose renderer is not
    running: [Activate] creates one client under the service name
    ("renderer", followed by a dot and the desktop name when there is
    one) with the renderer path, starts the worker thread, sends nothing,
    leaves the slot empty and returns [true]; the launcher is then
    launching under the same name and path. *)
Theorem activate_cold_start
        (IPC_PROTOCOL_VERSION : Z)
        (CompareVersion : string -> string -> bool)
        (GetMozcVersion : string)
        (desktop_name renderer_path : string) (now1 now2 : Z)
        (cl : IPCClientInterface) :
  Connected cl = false ->
  GetLastIPCError cl <> IPC_TIMEOUT_ERROR ->
  let c := RendererClient.Build desktop_name renderer_path in
  let service :=
    match desktop_name with
    | EmptyString => "renderer"%string
    | _ => ("renderer." ++ desktop_name)%string
    end in
  exists c' : RendererClient.t,
    RendererClient.Activate IPC_PROTOCOL_VERSION CompareVersion
      GetMozcVersion c now1 now2 (Some cl)
    = ([NewClient service renderer_path; ThreadStart "Renderer"],
       Returned (true, c')) /\
    RendererClient.status c' = RendererLauncher.RENDERER_LAUNCHING /\
    RendererLauncher.IsRunning (RendererClient.renderer_launcher_ c') = true /\
    RendererLauncher.pending_command_ (RendererClient.renderer_launcher_ c')
    = None /\
    RendererLauncher.name_ (RendererClient.renderer_launcher_ c') = service /\
    RendererLauncher.path_ (RendererClient.renderer_launcher_ c')
    = renderer_path /\
    RendererClient.is_window_visible_ c' = false.
Proof.
  intros Hconn Herr c service.
  assert (Ht : is_IPC_TIMEOUT_ERROR (GetLastIPCError cl) = false)
    by (destruct (GetLastIPCError cl); try reflexivity; congruence).
  unfold RendererClient.Activate, RendererClient.ExecCommand,
    RendererClient.CreateIPCClient.
  subst c service.
  destruct desktop_name; cbn; rewrite Ht, Hconn; cbn;
    eexists; (split; [reflexivity | repeat split]).
Qed.

Lemma activate_cold_start_witness :
  exists c' : RendererClient.t,
    RendererClient.Activate sample_protocol_version sample_CompareVersion
      sample_mozc_version (RendererClient.Build "tty7" "/opt/mozc_renderer")
      1000 1000 (Some client_no_server)
    = ([NewClient "renderer.tty7" "/opt/mozc_renderer";
        ThreadStart "Renderer"], Returned (true, c')) /\
    RendererClient.status c' = RendererLauncher.RENDERER_LAUNCHING.
Proof.
  destruct (activate_cold_start sample_protocol_version sample_CompareVersion
              sample_mozc_version "tty7" "/opt/mozc_renderer" 1000 1000
              client_no_server eq_refl ltac:(discriminate))
    as (c' & H1 & H2 & _).
  exists c'. split; [exact H1 | exact H2].
Defined.
